(** * Cron-schedule construction engine of the cuckoo bot

    A shallow embedding of the schedule part of the Telegram bot
    (Bot/app/cuckoo_cron_build.py, Bot/app/constants.py,
    Bot/app/user_data_dataclass.py, Bot/app/second_level_menu.py,
    Bot/app/sched_buttons.py, Bot/app/utils.py) and the properties of its
    range compressor, field codec, toggle state machine, keyboards and
    commit handlers. *)

From Stdlib Require Import ZArith List String Ascii Bool Lia.
From Stdlib Require Import Permutation Sorted.
From Stdlib Require Import DecimalString DecimalZ DecimalPos.
Import ListNotations.

Open Scope string_scope.
Open Scope Z_scope.

(** ** Python built-ins the bot relies on *)

Module Py.

(** [str(n)] / [f"{n}"] of an [int]: decimal digits, ['-'] for negatives.
    (The interpreter refuses to print more than 4300 digits; the numbers of
    the bot are positions in lists and what [int] has read, far below.) *)
Definition str (n : Z) : string := NilZero.string_of_int (Z.to_int n).

(** [s.rstrip(c)] for a one-character set: drops every trailing [c]. *)
Fixpoint rstrip (c : ascii) (s : string) : string :=
  match s with
  | EmptyString => EmptyString
  | String a r =>
      match rstrip c r with
      | EmptyString => if Ascii.eqb a c then EmptyString else String a EmptyString
      | r' => String a r'
      end
  end.

(** [list.sort()] / [sorted()].  Sorting a list under a total order has one
    possible result, the ascending arrangement, so insertion sort stands for
    Timsort. *)
Section InsertionSort.
Context {A : Type} (le : A -> A -> bool).

Fixpoint insert (x : A) (l : list A) : list A :=
  match l with
  | [] => [x]
  | y :: r => if le x y then x :: l else y :: insert x r
  end.

Fixpoint isort (l : list A) : list A :=
  match l with
  | [] => []
  | x :: r => insert x (isort r)
  end.
End InsertionSort.

(** [numbers.sort()] on a list of [int]. *)
Definition sort (l : list Z) : list Z := isort Z.leb l.

(** [sorted(l)] on a list of [str]: code-point order, which on the byte
    strings used here is [String.leb]. *)
Definition sorted (l : list string) : list string := isort String.leb l.

(** [x in l] for a list of [str]. *)
Definition contains (x : string) (l : list string) : bool :=
  existsb (String.eqb x) l.

(** [l.remove(x)]: deletes the first occurrence (the source calls it only
    under [x in l], so the [ValueError] of an absent [x] is not needed). *)
Fixpoint remove (x : string) (l : list string) : list string :=
  match l with
  | [] => []
  | y :: r => if String.eqb x y then r else y :: remove x r
  end.

(** [l.index(x)]: position of the first occurrence, [None] for the
    [ValueError] of an absent [x]. *)
Fixpoint index (x : string) (l : list string) : option nat :=
  match l with
  | [] => None
  | y :: r => if String.eqb x y then Some O else option_map S (index x r)
  end.

(** [range(a, b)] as a list. *)
Definition range (a b : Z) : list Z :=
  map (fun i => a + Z.of_nat i) (seq 0 (Z.to_nat (b - a))).

(** [chr(n)] for [n < 128], one byte in UTF-8. *)
Definition chr (n : nat) : string := String (ascii_of_nat n) EmptyString.

(** *** [int(s)] on a [str]

    A [str] is held as its UTF-8 bytes.  CPython first maps every Unicode
    whitespace character to a space and every Unicode decimal digit to its
    ASCII digit, characters below U+007F staying as they are
    ([_PyUnicode_TransformDecimalAndSpaceToASCII]).  The parser of base 10
    then strips ASCII whitespace, allows one sign, and reads decimal digits,
    single underscores allowed between digits; it refuses more digits than
    [sys.get_int_max_str_digits()], 4300 by default.  [None] stands for
    [ValueError]. *)

(** The whitespace characters from U+007F on ([str.isspace], Unicode 14). *)
Definition unicode_spaces : list N :=
  [0x85; 0xa0; 0x1680; 0x2000; 0x2001; 0x2002; 0x2003; 0x2004; 0x2005;
   0x2006; 0x2007; 0x2008; 0x2009; 0x200a; 0x2028; 0x2029; 0x202f; 0x205f;
   0x3000]%N.

(** The digit zero of every script of decimal digits from U+0080 on
    (Unicode 14); the nine characters after it are its digits 1 to 9. *)
Definition unicode_zeros : list N :=
  [0x660; 0x6f0; 0x7c0; 0x966; 0x9e6; 0xa66; 0xae6; 0xb66; 0xbe6; 0xc66;
   0xce6; 0xd66; 0xde6; 0xe50; 0xed0; 0xf20; 0x1040; 0x1090; 0x17e0;
   0x1810; 0x1946; 0x19d0; 0x1a80; 0x1a90; 0x1b50; 0x1bb0; 0x1c40; 0x1c50;
   0xa620; 0xa8d0; 0xa900; 0xa9d0; 0xa9f0; 0xaa50; 0xabf0; 0xff10; 0x104a0;
   0x10d30; 0x11066; 0x110f0; 0x11136; 0x111d0; 0x112f0; 0x11450; 0x114d0;
   0x11650; 0x116c0; 0x11730; 0x118e0; 0x11950; 0x11c50; 0x11d50; 0x11da0;
   0x16a60; 0x16ac0; 0x16b50; 0x1d7ce; 0x1d7d8; 0x1d7e2; 0x1d7ec; 0x1d7f6;
   0x1e140; 0x1e2f0; 0x1e950; 0x1fbf0]%N.

Definition unicode_is_space (c : N) : bool := existsb (N.eqb c) unicode_spaces.

Definition unicode_decimal (c : N) : option N :=
  option_map (fun zero => (c - zero)%N)
    (find (fun zero => ((zero <=? c) && (c <? zero + 10))%N) unicode_zeros).

(** The ASCII character that stands for the character [c], if any. *)
Definition to_ascii (c : N) : option ascii :=
  if (c <? 127)%N then Some (ascii_of_N c)
  else if unicode_is_space c then Some " "%char
  else option_map (fun d => ascii_of_N (48 + d)) (unicode_decimal c).

Definition emit (c : N) (rest : option string) : option string :=
  match to_ascii c, rest with
  | Some a, Some t => Some (String a t)
  | _, _ => None
  end.

(** The payload of a UTF-8 continuation byte. *)
Definition continuation (b : ascii) : option N :=
  let n := N_of_ascii b in
  if ((128 <=? n) && (n <? 192))%N then Some (n - 128)%N else None.

(** The transformation, decoding the UTF-8 sequences of one to four bytes
    on the way.  [None]: some character is neither ASCII, whitespace nor a
    decimal digit, which [int] refuses. *)
Fixpoint decimal_and_space_to_ascii (s : string) : option string :=
  match s with
  | EmptyString => Some EmptyString
  | String b1 r1 =>
      let n1 := N_of_ascii b1 in
      if (n1 <? 128)%N then emit n1 (decimal_and_space_to_ascii r1)
      else if (n1 <? 192)%N then None
      else
        match r1 with
        | EmptyString => None
        | String b2 r2 =>
            match continuation b2 with
            | None => None
            | Some n2 =>
                if (n1 <? 224)%N
                then emit ((n1 - 192) * 64 + n2)%N (decimal_and_space_to_ascii r2)
                else
                  match r2 with
                  | EmptyString => None
                  | String b3 r3 =>
                      match continuation b3 with
                      | None => None
                      | Some n3 =>
                          if (n1 <? 240)%N
                          then emit (((n1 - 224) * 64 + n2) * 64 + n3)%N
                                 (decimal_and_space_to_ascii r3)
                          else
                            match r3 with
                            | EmptyString => None
                            | String b4 r4 =>
                                match continuation b4 with
                                | None => None
                                | Some n4 =>
                                    if (n1 <? 248)%N
                                    then emit ((((n1 - 240) * 64 + n2) * 64 + n3) * 64 + n4)%N
                                           (decimal_and_space_to_ascii r4)
                                    else None
                                end
                            end
                      end
                  end
            end
        end
  end.

(** Whitespace for the parser ([Py_ISSPACE]): tab to carriage return, and
    the space. *)
Definition is_space (c : ascii) : bool :=
  let n := nat_of_ascii c in
  (Nat.eqb n 32 || (Nat.leb 9 n && Nat.leb n 13))%bool.

Definition is_digit (c : ascii) : bool :=
  let n := nat_of_ascii c in (Nat.leb 48 n && Nat.leb n 57)%bool.

Definition digit_val (c : ascii) : Z := Z.of_nat (nat_of_ascii c) - 48.

Fixpoint lstrip (s : string) : string :=
  match s with
  | EmptyString => EmptyString
  | String c r => if is_space c then lstrip r else s
  end.

Fixpoint rstrip_space (s : string) : string :=
  match s with
  | EmptyString => EmptyString
  | String a r =>
      match rstrip_space r with
      | EmptyString => if is_space a then EmptyString else String a EmptyString
      | r' => String a r'
      end
  end.

Fixpoint digits (s : string) (acc : Z) (after_digit : bool) : option Z :=
  match s with
  | EmptyString => if after_digit then Some acc else None
  | String c r =>
      if is_digit c then digits r (10 * acc + digit_val c) true
      else if Ascii.eqb c "_" then
        (if after_digit then digits r acc false else None)
      else None
  end.

(** The digits of [s], underscores not counted. *)
Fixpoint count_digits (s : string) : Z :=
  match s with
  | EmptyString => 0
  | String c r => if is_digit c then 1 + count_digits r else count_digits r
  end.

Definition int_max_str_digits : Z := 4300.

(** What follows the sign. *)
Definition int_digits (t : string) : option Z :=
  if count_digits t <=? int_max_str_digits then digits t 0 false else None.

Definition int (s : string) : option Z :=
  match decimal_and_space_to_ascii s with
  | None => None
  | Some a =>
      match rstrip_space (lstrip a) with
      | String "+" r => int_digits r
      | String "-" r => option_map Z.opp (int_digits r)
      | t => int_digits t
      end
  end.

End Py.

(** ** The [re] patterns of constants.py

    The patterns use literals, character classes, [?], alternation and the
    anchors [^] and [$] only, so a backtracking matcher by recursion on the
    pattern decides [re.match].  [$] is Python's: it holds at the end of the
    string and also just before a newline that ends the string. *)

Module Re.

Inductive regex : Type :=
| Lit (s : string)
| Class (lo hi : ascii)
| Seq (r1 r2 : regex)
| Alt (r1 r2 : regex)
| Opt (r : regex)
| Bol
| Eol.

(** [s] without its prefix [p], when it has it. *)
Fixpoint drop_prefix (p s : string) : option string :=
  match p, s with
  | EmptyString, _ => Some s
  | String a p', String b s' => if Ascii.eqb a b then drop_prefix p' s' else None
  | String _ _, EmptyString => None
  end.

Definition in_class (lo hi c : ascii) : bool :=
  (Nat.leb (nat_of_ascii lo) (nat_of_ascii c) && Nat.leb (nat_of_ascii c) (nat_of_ascii hi))%bool.

Definition at_end (s : string) : bool :=
  match s with
  | EmptyString => true
  | String c EmptyString => Ascii.eqb c "010"
  | _ => false
  end.

(** [matches r pos s k]: [r] matches a prefix of the remaining input [s],
    which starts at offset [pos], and [k] accepts what follows. *)
Fixpoint matches (r : regex) (pos : nat) (s : string)
    (k : nat -> string -> bool) : bool :=
  match r with
  | Lit p =>
      match drop_prefix p s with
      | Some s' => k (pos + String.length p)%nat s'
      | None => false
      end
  | Class lo hi =>
      match s with
      | String c s' => if in_class lo hi c then k (S pos) s' else false
      | EmptyString => false
      end
  | Seq r1 r2 => matches r1 pos s (fun pos' s' => matches r2 pos' s' k)
  | Alt r1 r2 => (matches r1 pos s k || matches r2 pos s k)%bool
  | Opt r1 => (matches r1 pos s k || k pos s)%bool
  | Bol => if Nat.eqb pos 0 then k pos s else false
  | Eol => if at_end s then k pos s else false
  end.

(** [bool(re.match(pattern, s))]. *)
Definition re_match (r : regex) (s : string) : bool :=
  matches r 0 s (fun _ _ => true).

(** ["^" + p + "$"] *)
Definition anchored (r : regex) : regex := Seq Bol (Seq r Eol).

(** [head + "|".join(alts)] for a [head] that already ends in ["|"]. *)
Definition or_join (head : regex) (alts : list regex) : regex :=
  fold_left Alt alts head.

End Re.

(** ** constants.py *)

Module Constants.
Import Re.

Definition NO_VALUES : string := "-1".
Definition ALL_VALUES : string := "0".

(** Conversation states, [range(9)], and [ConversationHandler.END]. *)
Definition RECORD_OR_UPLOAD_SOUND_MENU : Z := 3.
Definition SCHEDULE_PLAY_MENU : Z := 5.
Definition SET_SCHED_VALUE_MENU : Z := 8.
Definition END : Z := -1.

(** [map(chr, range(9, 17))] and [map(chr, range(17, 25))]. *)
Definition MONTH_SELECT : string := Py.chr 11.
Definition DAY_OF_MONTH_SELECT : string := Py.chr 12.
Definition DAY_OF_WEEK_SELECT : string := Py.chr 13.
Definition HOUR_SELECT : string := Py.chr 14.
Definition MINUTE_SELECT : string := Py.chr 15.
Definition CANCEL_SELECT : string := Py.chr 16.
Definition START_MENU_CALLBACK : string := Py.chr 17.
Definition DEVICE_MENU_CALLBACK : string := Py.chr 18.
Definition SCHEDULE_PLAY_CALLBACK : string := Py.chr 19.
Definition COMMIT_SCHEDULE_CALLBACK : string := Py.chr 20.
Definition PLAY_NOW_CALLBACK : string := Py.chr 24.

Definition _minutes_gap : Z := 1.

Definition _month_names : list string :=
  ["January"; "February"; "March"; "April"; "May"; "June"; "July";
   "August"; "September"; "October"; "November"; "December"].

Definition _day_of_week_names : list string :=
  ["Sunday"; "Monday"; "Tuesday"; "Wednesday"; "Thursday"; "Friday";
   "Saturday"].

(** [^(-1|[0-9]|1?[0-9]|2[0-9]|3[0-1])$] *)
Definition _days_re_pattern : regex :=
  anchored
    (Alt (Lit "-1")
      (Alt (Class "0" "9")
        (Alt (Seq (Opt (Lit "1")) (Class "0" "9"))
          (Alt (Seq (Lit "2") (Class "0" "9"))
               (Seq (Lit "3") (Class "0" "1")))))).

(** [^-1$|^0$|] *)
Definition sentinels : regex := Alt (anchored (Lit "-1")) (anchored (Lit "0")).

(** [r"^-1$|^0$|" + "|".join("^" + dow + "$" for dow in _day_of_week_names)] *)
Definition _days_of_week_re_pattern : regex :=
  or_join sentinels (map (fun dow => anchored (Lit dow)) _day_of_week_names).

Definition _months_re_pattern : regex :=
  or_join sentinels (map (fun month => anchored (Lit month)) _month_names).

(** [^-1$|^0$|^minute_(?:[0-9]|[1-5][0-9]|60)$] *)
Definition _minutes_re_pattern : regex :=
  Alt sentinels
    (anchored
       (Seq (Lit "minute_")
            (Alt (Class "0" "9")
              (Alt (Seq (Class "1" "5") (Class "0" "9")) (Lit "60"))))).

(** [^-1$|^0$|^hour_(?:[0-9]|1[0-9]|2[0-3])$] *)
Definition _hours_re_pattern : regex :=
  Alt sentinels
    (anchored
       (Seq (Lit "hour_")
            (Alt (Class "0" "9")
              (Alt (Seq (Lit "1") (Class "0" "9"))
                   (Seq (Lit "2") (Class "0" "3")))))).

(** A [dict] with literal [str] keys; [None] is the [KeyError]. *)
Fixpoint lookup {V : Type} (d : list (string * V)) (key : string) : option V :=
  match d with
  | [] => None
  | (k, v) :: r => if String.eqb key k then Some v else lookup r key
  end.

Definition _value_pattern_dict : list (string * regex) :=
  [("day", _days_re_pattern);
   ("day_of_week", _days_of_week_re_pattern);
   ("month", _months_re_pattern);
   ("hour", _hours_re_pattern);
   ("minute", _minutes_re_pattern)].

(** [range(0, 61, _minutes_gap)] with the gap of 1. *)
Definition _full_range_dict : list (string * list string) :=
  [("day", map Py.str (Py.range 1 32));
   ("day_of_week", _day_of_week_names);
   ("month", _month_names);
   ("hour", map Py.str (Py.range 0 25));
   ("minute", map Py.str (Py.range 0 61))].

End Constants.

(** ** cuckoo_cron_build.py: the range compressor *)

(** An element of [sequences_and_singles]: an [int] or a 2-tuple. *)
Inductive item : Type :=
| Single (n : Z)
| Pair (first last : Z).

(** The flush of the running window, as written twice in the source:
    [if current_start == current_end: append(current_start)
     else: append((current_start, current_end))]. *)
Definition flush (current_start current_end : Z) : item :=
  if current_start =? current_end then Single current_start
  else Pair current_start current_end.

(** Loop state: [(current_start, current_end, sequences_and_singles)]. *)
Definition scan_state : Type := Z * Z * list item.

(** Body of [for num in numbers[1:]]. *)
Definition scan_step (st : scan_state) (num : Z) : scan_state :=
  let '(current_start, current_end, acc) := st in
  if num =? current_end + 1 then (current_start, num, acc)
  else (num, num, (acc ++ [flush current_start current_end])%list).

(** [sequences_and_singles] after the loop and the final flush, for an
    already sorted, non-empty [numbers]. *)
Definition sequences_and_singles (numbers : list Z) : list item :=
  let first := hd 0 numbers in
  let '(current_start, current_end, acc) :=
    fold_left scan_step (tl numbers) (first, first, []) in
  (acc ++ [flush current_start current_end])%list.

(** [f"{item[0]}-{item[1]},"] or [f"{item},"], without the comma. *)
Definition fmt_item (it : item) : string :=
  match it with
  | Single n => Py.str n
  | Pair a b => Py.str a ++ "-" ++ Py.str b
  end.

(** The loop [for item in sequences_and_singles: output_string += ...]. *)
Definition output_string (items : list item) : string :=
  fold_left (fun out it => out ++ fmt_item it ++ ",") items "".

(** [numbers.sort()] sorts in place a list that the caller has just built
    and does not use again, so the sorted list is a local value here. *)
Definition bld_cron_token_from_num_list (numbers : list Z) : string :=
  match numbers with
  | [] => "not set"
  | _ :: _ =>
      Py.rstrip "," (output_string (sequences_and_singles (Py.sort numbers)))
  end.

(** ** Exceptions *)

Inductive exn : Type :=
  ValueError | KeyError | AttributeError | TypeError | LibraryError.

Inductive result (A : Type) : Type :=
| Ok (a : A)
| Raise (e : exn).
Arguments Ok {A} a.
Arguments Raise {A} e.

Definition bind {A B : Type} (m : result A) (f : A -> result B) : result B :=
  match m with
  | Ok a => f a
  | Raise e => Raise e
  end.

Notation "x <- m ;; k" := (bind m (fun x => k))
  (at level 61, m at next level, right associativity).

(** The value of an [option], raising [e] for [None]. *)
Definition or_raise {A : Type} (e : exn) (o : option A) : result A :=
  match o with
  | Some a => Ok a
  | None => Raise e
  end.

(** A list comprehension whose body may raise: the first failure wins. *)
Fixpoint comprehension {A B : Type} (f : A -> result B) (l : list A)
    : result (list B) :=
  match l with
  | [] => Ok []
  | x :: r => y <- f x ;; ys <- comprehension f r ;; Ok (y :: ys)
  end.

(** ** user_data_dataclass.py *)

Record ScheduleConfig : Type := mkScheduleConfig {
  minute : list string;
  hour : list string;
  day : list string;
  month : list string;
  day_of_week : list string
}.

(** [ScheduleConfig()]: every field its [default_factory], the empty list. *)
Definition empty_config : ScheduleConfig := mkScheduleConfig [] [] [] [] [].

(** [getattr(schedule_info, key)] for the field names; [None] for any
    other name.  What Python does with such a name depends on whether the
    object has an attribute of that name, see [unsortable_attributes]; the
    bot itself only ever passes field names. *)
Definition getattr (c : ScheduleConfig) (key : string) : option (list string) :=
  if String.eqb key "minute" then Some (minute c)
  else if String.eqb key "hour" then Some (hour c)
  else if String.eqb key "day" then Some (day c)
  else if String.eqb key "month" then Some (month c)
  else if String.eqb key "day_of_week" then Some (day_of_week c)
  else None.

(** [setattr(schedule_info, key, v)] for the field names. *)
Definition setattr (c : ScheduleConfig) (key : string) (v : list string)
    : option ScheduleConfig :=
  if String.eqb key "minute" then Some (mkScheduleConfig v (hour c) (day c) (month c) (day_of_week c))
  else if String.eqb key "hour" then Some (mkScheduleConfig (minute c) v (day c) (month c) (day_of_week c))
  else if String.eqb key "day" then Some (mkScheduleConfig (minute c) (hour c) v (month c) (day_of_week c))
  else if String.eqb key "month" then Some (mkScheduleConfig (minute c) (hour c) (day c) v (day_of_week c))
  else if String.eqb key "day_of_week" then Some (mkScheduleConfig (minute c) (hour c) (day c) (month c) v)
  else None.

(** Truth value of a list: non-empty. *)
Definition truthy {A : Type} (l : list A) : bool :=
  match l with [] => false | _ :: _ => true end.

(** [ScheduleConfig.is_complete]:
    [all([self.minute, self.hour, self.day, self.month, self.day_of_week])]. *)
Definition config_is_complete (c : ScheduleConfig) : bool :=
  forallb truthy [minute c; hour c; day c; month c; day_of_week c].

(** The attributes of a [ScheduleConfig] object, other than its fields,
    that [sorted] cannot iterate: the methods of the class and of [object]
    and the attributes that hold [None] or a class (CPython 3.11).  The
    other attributes that are no fields, such as [__doc__] and [__dict__],
    hold a string, a tuple or a dictionary, which [sorted] accepts. *)
Definition unsortable_attributes : list string :=
  ["__class__"; "__dataclass_params__"; "__delattr__"; "__dir__"; "__eq__";
   "__format__"; "__ge__"; "__getattribute__"; "__getstate__"; "__gt__";
   "__hash__"; "__init__"; "__init_subclass__"; "__le__"; "__lt__";
   "__ne__"; "__new__"; "__reduce__"; "__reduce_ex__"; "__repr__";
   "__setattr__"; "__sizeof__"; "__str__"; "__subclasshook__";
   "__weakref__"; "get_set_fields"; "is_complete"; "is_set"; "reset"].

(** [ScheduleConfig.reset]. *)
Definition config_reset (c : ScheduleConfig) : ScheduleConfig :=
  mkScheduleConfig [] [] [] [] [].

Record ScheduleEntry : Type := mkScheduleEntry {
  device_id : Z;
  user_id : Z;
  cron_string : string;
  sound_file_path : option string
}.

(** [ScheduleEntry()]: [int()], [int()], [str()], [None]. *)
Definition empty_entry : ScheduleEntry := mkScheduleEntry 0 0 "" None.

(** [ScheduleEntry.is_set] on each field, by the type of its value: an
    [int] is set when it is not 0, a [str] when it is not the empty string,
    anything else when it is not [None]. *)
Definition int_is_set (n : Z) : bool := negb (n =? 0).
Definition str_is_set (s : string) : bool := negb (String.eqb s "").
Definition path_is_set (p : option string) : bool :=
  match p with
  | Some s => str_is_set s
  | None => false
  end.

(** [ScheduleEntry.get_unset_fields], in the order of [fields(self)]. *)
Definition get_unset_fields (e : ScheduleEntry) : list string :=
  ((if int_is_set (device_id e) then [] else ["device_id"]) ++
   (if int_is_set (user_id e) then [] else ["user_id"]) ++
   (if str_is_set (cron_string e) then [] else ["cron_string"]) ++
   (if path_is_set (sound_file_path e) then [] else ["sound_file_path"]))%list.

(** [ScheduleEntry.is_complete]: [len(self.get_unset_fields()) == 0]. *)
Definition entry_is_complete (e : ScheduleEntry) : bool :=
  Nat.eqb (List.length (get_unset_fields e)) 0.

(** ** cuckoo_cron_build.py: the field codec *)

Definition bld_num_list_minutes (minutes : list string) : result (list Z) :=
  comprehension (fun m => or_raise ValueError (Py.int m)) minutes.

Definition bld_num_list_hours (hours : list string) : result (list Z) :=
  comprehension (fun h => or_raise ValueError (Py.int h)) hours.

Definition bld_num_list_day_of_months (doms : list string) : result (list Z) :=
  comprehension (fun d => or_raise ValueError (Py.int d)) doms.

Definition bld_num_list_months (months : list string) : result (list Z) :=
  comprehension
    (fun m => i <- or_raise ValueError (Py.index m Constants._month_names) ;;
              Ok (Z.of_nat i + 1))
    months.

Definition bld_num_list_day_of_week (dows : list string) : result (list Z) :=
  comprehension
    (fun d => i <- or_raise ValueError (Py.index d Constants._day_of_week_names) ;;
              Ok (Z.of_nat i))
    dows.

Definition bld_num_list_methods
    : list (string * (list string -> result (list Z))) :=
  [("minute", bld_num_list_minutes);
   ("hour", bld_num_list_hours);
   ("day", bld_num_list_day_of_months);
   ("month", bld_num_list_months);
   ("day_of_week", bld_num_list_day_of_week)].

(** Equality of two lists of [str]. *)
Definition list_eqb (a b : list string) : bool :=
  if list_eq_dec string_dec a b then true else false.

(** For a name that is no field: the [AttributeError] of [getattr] is
    caught and re-raised as [KeyError]; an attribute that [sorted] cannot
    iterate makes it raise [TypeError]; any other attribute is sorted and
    then missing from the dictionary, a [KeyError]. *)
Definition bld_cron_token_schedule_info (schedule_info : ScheduleConfig)
    (key : string) : result string :=
  values_list <- or_raise
                   (if Py.contains key unsortable_attributes then TypeError
                    else KeyError)
                   (getattr schedule_info key) ;;
  full <- or_raise KeyError (Constants.lookup Constants._full_range_dict key) ;;
  if list_eqb (Py.sorted values_list) (Py.sorted full) then Ok "*"
  else
    method <- or_raise KeyError (Constants.lookup bld_num_list_methods key) ;;
    numbers <- method values_list ;;
    Ok (bld_cron_token_from_num_list numbers).

(** ** utils.py *)

(** A button: its text and its [callback_data]. *)
Record button : Type := mkButton { text : string; callback_data : string }.

Definition utf8_4 (b1 b2 b3 b4 : nat) : string :=
  String (ascii_of_nat b1) (String (ascii_of_nat b2)
    (String (ascii_of_nat b3) (String (ascii_of_nat b4) EmptyString))).

(** [BOLD_MAP.get(char, char)]: A-Z to U+1D400.., a-z to U+1D41A.., 0-9 to
    U+1D7CE.., in UTF-8; every other character stays. *)
Definition bold_char (c : ascii) : string :=
  let n := nat_of_ascii c in
  if (Nat.leb 65 n && Nat.leb n 90)%bool then utf8_4 240 157 144 (128 + (n - 65))
  else if (Nat.leb 97 n && Nat.leb n 122)%bool then utf8_4 240 157 144 (154 + (n - 97))
  else if (Nat.leb 48 n && Nat.leb n 57)%bool then utf8_4 240 157 159 (142 + (n - 48))
  else String c EmptyString.

Fixpoint bold (s : string) : string :=
  match s with
  | EmptyString => EmptyString
  | String c r => bold_char c ++ bold r
  end.

(** U+2713, the check mark. *)
Definition check_mark : string :=
  String (ascii_of_nat 226) (String (ascii_of_nat 156)
    (String (ascii_of_nat 147) EmptyString)).

(** [set_button_selection(text, True)]. *)
Definition set_button_selected (t : string) : string := check_mark ++ bold t.

(** ** second_level_menu.py *)

Definition input_strings : list (string * string) :=
  [(Constants.DAY_OF_MONTH_SELECT, "Day of Month");
   (Constants.MONTH_SELECT, "Month");
   (Constants.DAY_OF_WEEK_SELECT, "Day of week");
   (Constants.HOUR_SELECT, "Hour");
   (Constants.MINUTE_SELECT, "minute")].

Definition user_action_keys : list (string * string) :=
  [(Constants.DAY_OF_MONTH_SELECT, "day");
   (Constants.DAY_OF_WEEK_SELECT, "day_of_week");
   (Constants.MONTH_SELECT, "month");
   (Constants.HOUR_SELECT, "hour");
   (Constants.MINUTE_SELECT, "minute")].

(** [get_button_keys_labels_callbacks()]. *)
Definition button_keys : list string :=
  ["minute"; "hour"; "day"; "month"; "day_of_week"].
Definition button_labels : list string :=
  [" Minute"; " Hour"; " Day of the month"; " Month"; " Day of the week"].
Definition button_callbacks : list string :=
  [Constants.MINUTE_SELECT; Constants.HOUR_SELECT;
   Constants.DAY_OF_MONTH_SELECT; Constants.MONTH_SELECT;
   Constants.DAY_OF_WEEK_SELECT].

(** [build_cron_string]: the loop [cron_string += token + " "], then
    [rstrip(" ")]. *)
Fixpoint cron_loop (schedule_info : ScheduleConfig) (keys : list string)
    (cron : string) : result string :=
  match keys with
  | [] => Ok cron
  | key :: r =>
      token <- bld_cron_token_schedule_info schedule_info key ;;
      cron_loop schedule_info r (cron ++ token ++ " ")
  end.

Definition build_cron_string (schedule_info : ScheduleConfig)
    (keys : list string) : result string :=
  cron <- cron_loop schedule_info keys "" ;;
  Ok (Py.rstrip " " cron).

(** [key.replace('_', ' ')]. *)
Fixpoint replace_underscores (s : string) : string :=
  match s with
  | EmptyString => EmptyString
  | String c r =>
      String (if Ascii.eqb c "_" then " "%char else c) (replace_underscores r)
  end.

(** The text of one summary button in [create_buttons], which the summary
    view calls with the five field names. *)
Definition button_text (schedule_info : ScheduleConfig) (key label : string)
    : result string :=
  values_list <- or_raise AttributeError (getattr schedule_info key) ;;
  t <- match values_list with
       | [] => Ok (label ++ ": not set")
       | [v] => Ok (label ++ ": " ++ v)
       | _ =>
           full <- or_raise KeyError (Constants.lookup Constants._full_range_dict key) ;;
           if list_eqb (Py.sorted values_list) (Py.sorted full)
           then Ok (label ++ ": any " ++ replace_underscores key)
           else
             token <- bld_cron_token_schedule_info schedule_info key ;;
             Ok (label ++ ": " ++ token)
       end ;;
  Ok (if truthy values_list then set_button_selected t else t).

(** [create_buttons]: one row of one button per zipped triple. *)
Fixpoint create_buttons (schedule_info : ScheduleConfig)
    (triples : list (string * string * string)) : result (list (list button)) :=
  match triples with
  | [] => Ok []
  | (key, label, callback) :: r =>
      t <- button_text schedule_info key label ;;
      rows <- create_buttons schedule_info r ;;
      Ok ([mkButton t callback] :: rows)
  end.

(** *** The session and the outside world *)

(** [context.user_data] after [start]: the two dataclass objects always
    present, the two keys that later handlers add.  ([start] stores a
    [ScheduleConfig] object, so the branch of the handlers that rebuilds one
    from a [dict] is never taken and has no counterpart here.) *)
Record UserData : Type := mkUserData {
  schedule_info : ScheduleConfig;
  schedule_entry : ScheduleEntry;
  selected_sched_part : option string;
  selected_device_name : option string
}.

Definition with_info (u : UserData) (c : ScheduleConfig) : UserData :=
  mkUserData c (schedule_entry u) (selected_sched_part u) (selected_device_name u).

Definition with_entry (u : UserData) (e : ScheduleEntry) : UserData :=
  mkUserData (schedule_info u) e (selected_sched_part u) (selected_device_name u).

Definition with_part (u : UserData) (part : string) : UserData :=
  mkUserData (schedule_info u) (schedule_entry u) (Some part) (selected_device_name u).

Definition with_cron (e : ScheduleEntry) (cron : string) : ScheduleEntry :=
  mkScheduleEntry (device_id e) (user_id e) cron (sound_file_path e).

(** The JSON payload of the POST in [flask_connector.create_cron_schedule]. *)
Record payload : Type := mkPayload {
  p_device_id : Z;
  p_user_id : Z;
  p_cron_string : string;
  p_sound_file : string
}.

(** What the POST comes to: a 2xx reply whose JSON body is truthy or not,
    or a timeout / HTTP error / transport error. *)
Inductive post_outcome : Type :=
| Replied (body_truthy : bool)
| RequestFailed.

(** The collaborators a handler consults: the file system, the REST
    service, [cron_descriptor.get_description] ([None] when it raises) and
    the clock as formatted by [strftime('%M:%S')]. *)
Record World : Type := mkWorld {
  path_exists : string -> bool;
  post : payload -> post_outcome;
  get_description : string -> option string;
  now_mmss : string
}.

(** [flask_connector.create_cron_schedule], as the truth value of what it
    returns: [response.json()], or [{}] after a caught request exception. *)
Definition create_cron_schedule (w : World) (p : payload) : bool :=
  match post w p with
  | Replied body_truthy => body_truthy
  | RequestFailed => false
  end.

(** The [reply_markup] of a message.  The grid of toggle buttons built by
    [select_inline_keyboard] is named by what it renders, not spelled out. *)
Inductive markup : Type :=
| NoMarkup
| Rows (rows : list (list button))
| EditGrid (selection : string) (shown_config : ScheduleConfig).

Record message : Type := mkMessage { msg_text : string; reply_markup : markup }.

(** What a handler did: its return value ([None] for Python's [None]) or the
    exception that left it, the session as it stands then, the POSTs issued
    and the texts passed to [edit_message_text], in order. *)
Record outcome : Type := mkOutcome {
  returned : result (option Z);
  session : UserData;
  posted : list payload;
  shown : list message
}.

Definition newline : string := String "010" EmptyString.

Definition back_restart_row (back : string) : list button :=
  [mkButton "🔙 Back" back; mkButton "🔁 Restart" Constants.START_MENU_CALLBACK].

(** [utils.get_sound_menu_keyboard]. *)
Definition get_sound_menu_keyboard : list (list button) :=
  [[mkButton "Schedule audio file for later play" Constants.SCHEDULE_PLAY_CALLBACK];
   [mkButton "Play the file now" Constants.PLAY_NOW_CALLBACK];
   back_restart_row Constants.DEVICE_MENU_CALLBACK].

(** *** display_schedule_menu *)

Definition display_schedule_menu (w : World) (u : UserData) : outcome :=
  let info := schedule_info u in
  let stop e := mkOutcome (Raise e) u [] [] in
  match build_cron_string info button_keys with
  | Raise e => stop e
  | Ok cron =>
      match create_buttons info
              (combine (combine button_keys button_labels) button_callbacks) with
      | Raise e => stop e
      | Ok keyboard =>
          let can_schedule := config_is_complete info in
          let u1 :=
            if can_schedule then with_entry u (with_cron (schedule_entry u) cron)
            else u in
          let commit_row :=
            if (can_schedule && config_is_complete info)%bool
            then [[mkButton "Commit the schedule" Constants.COMMIT_SCHEDULE_CALLBACK]]
            else [] in
          let rows :=
            (keyboard ++ commit_row ++ [back_restart_row Constants.CANCEL_SELECT])%list in
          let description :=
            if negb can_schedule then Ok "Scheduler settings incomplete"
            else or_raise LibraryError (get_description w cron) in
          match description with
          | Raise e => mkOutcome (Raise e) u1 [] []
          | Ok d =>
              mkOutcome (Ok (Some Constants.SCHEDULE_PLAY_MENU)) u1 []
                [mkMessage d (Rows rows)]
          end
      end
  end.

(** *** cron_parameters_dialog *)

Definition cron_parameters_dialog (u : UserData) (query_data : string) : outcome :=
  match Constants.lookup input_strings query_data with
  | None => mkOutcome (Raise KeyError) u [] []
  | Some name =>
      if negb (truthy (list_ascii_of_string name))
      then mkOutcome (Ok (Some Constants.END)) u [] []
      else
        let u1 := with_part u query_data in
        mkOutcome (Ok (Some Constants.SET_SCHED_VALUE_MENU)) u1 []
          [mkMessage ("Please input " ++ name ++ " value")
             (EditGrid query_data (schedule_info u1))]
  end.

(** *** set_sched_parameter_value *)

(** [re.sub(r"^(hour_|minute_)", "", query_data)]. *)
Definition strip_prefix (query_data : string) : string :=
  match Re.drop_prefix "hour_" query_data with
  | Some r => r
  | None =>
      match Re.drop_prefix "minute_" query_data with
      | Some r => r
      | None => query_data
      end
  end.

(** The three branches under [if re.match(pattern, query_data)], on the list
    held by the edited field. *)
Definition next_values (full values_list : list string) (query_data : string)
    : list string :=
  if String.eqb query_data Constants.NO_VALUES then []
  else if String.eqb query_data Constants.ALL_VALUES then full
  else
    let accepted_data := strip_prefix query_data in
    if Py.contains accepted_data values_list
    then Py.remove accepted_data values_list
    else (values_list ++ [accepted_data])%list.

Definition select_parts : list string :=
  [Constants.DAY_OF_MONTH_SELECT; Constants.MONTH_SELECT;
   Constants.DAY_OF_WEEK_SELECT; Constants.HOUR_SELECT;
   Constants.MINUTE_SELECT].

Definition set_sched_parameter_value (u : UserData) (query_data : string)
    : outcome :=
  let stay := mkOutcome (Ok (Some Constants.SET_SCHED_VALUE_MENU)) u [] [] in
  let stop := mkOutcome (Raise KeyError) u [] [] in
  match selected_sched_part u with
  | None => stop
  | Some part =>
      if negb (Py.contains part select_parts) then stay
      else
        match Constants.lookup user_action_keys part,
              Constants.lookup input_strings part with
        | Some user_set_key, Some name =>
            match Constants.lookup Constants._value_pattern_dict user_set_key,
                  Constants.lookup Constants._full_range_dict user_set_key,
                  getattr (schedule_info u) user_set_key with
            | Some pattern, Some full, Some values_list =>
                if Re.re_match pattern query_data then
                  match setattr (schedule_info u) user_set_key
                          (next_values full values_list query_data) with
                  | Some info =>
                      let u1 := with_info u info in
                      mkOutcome (Ok (Some Constants.SET_SCHED_VALUE_MENU)) u1 []
                        [mkMessage ("Please input " ++ name ++ " value")
                           (EditGrid part info)]
                  | None => stop
                  end
                else stay
            | _, _, _ => stop
            end
        | _, _ => stop
        end
  end.

(** *** add_schedule_record

    The dataclass object and the callback query are never falsy once the
    decorator has let the call through, so the guards [if not schedule_entry]
    and [if not query] have no branch here. *)

Definition added_text (device_name description : string) : string :=
  "Next scedule play has been added for device <i>" ++ device_name ++ "</i>:"
  ++ newline ++ description.

Definition add_schedule_record (w : World) (u : UserData) : outcome :=
  let entry := schedule_entry u in
  let refuse := mkOutcome (Ok (Some Constants.END)) u [] [] in
  if negb (entry_is_complete entry) then refuse
  else
    match sound_file_path entry with
    | None => refuse
    | Some path =>
        let p := mkPayload (device_id entry) (user_id entry) (cron_string entry) path in
        if create_cron_schedule w p then
          match selected_device_name u, get_description w (cron_string entry) with
          | None, _ => mkOutcome (Raise KeyError) u [p] []
          | Some _, None => mkOutcome (Raise LibraryError) u [p] []
          | Some device_name, Some description =>
              mkOutcome (Ok (Some Constants.SCHEDULE_PLAY_MENU))
                (with_info u (config_reset (schedule_info u))) [p]
                [mkMessage (added_text device_name description)
                   (Rows [back_restart_row Constants.DEVICE_MENU_CALLBACK])]
          end
        else
          mkOutcome (Ok (Some Constants.SCHEDULE_PLAY_MENU)) u [p]
            [mkMessage "Failed to add schedule" NoMarkup]
    end.

(** *** set_for_play_now

    [user_data] holds its keys since [start], so [if not user_data] has no
    branch here; a path that is [None] or the empty string is the falsy
    [sound_file_path]. *)

Definition play_now_text (w : World) (device_name : string) : string :=
  "Sound file was submitted for immediate play at <i>" ++ now_mmss w ++ "</i> "
  ++ "on device <i>" ++ device_name ++ "</i>." ++ newline
  ++ "Please select an option below:".

Definition IMMEDIATE : string := "0 0 0 0 0".

Definition set_for_play_now (w : World) (u : UserData) : outcome :=
  let entry := schedule_entry u in
  match sound_file_path entry with
  | None => mkOutcome (Ok (Some Constants.END)) u [] []
  | Some path =>
      if negb (str_is_set path) then mkOutcome (Ok (Some Constants.END)) u [] []
      else
        (* the two checks that set [result] and go on *)
        let missing := negb (path_exists w path) in
        let shown1 :=
          if missing then [mkMessage "Sound file does not exist" NoMarkup] else [] in
        let result1 := if missing then Some Constants.END else None in
        let no_ids := (negb (int_is_set (user_id entry)) || negb (int_is_set (device_id entry)))%bool in
        let shown2 :=
          if no_ids then (shown1 ++ [mkMessage "User ID or Device ID not set" NoMarkup])%list
          else shown1 in
        let result2 := if no_ids then Some Constants.END else result1 in
        (* schedule_entry.cron_string = "0 0 0 0 0" *)
        let entry1 := with_cron entry IMMEDIATE in
        let p := mkPayload (device_id entry1) (user_id entry1) (cron_string entry1) path in
        if create_cron_schedule w p then
          match selected_device_name u with
          | None => mkOutcome (Raise KeyError) (with_entry u entry1) [p] shown2
          | Some device_name =>
              mkOutcome (Ok (Some Constants.RECORD_OR_UPLOAD_SOUND_MENU))
                (with_entry u (with_cron entry1 "")) [p]
                (shown2 ++ [mkMessage (play_now_text w device_name)
                              (Rows get_sound_menu_keyboard)])%list
          end
        else
          mkOutcome (Ok result2) (with_entry u entry1) [p]
            (shown2 ++ [mkMessage "Failed to create immediate schedule" NoMarkup])%list
  end.

(** *** Sequences of interactions *)

(** One callback handled by the schedule menu: entering the edit grid of a
    dimension, a token sent from the grid, the summary view, the commit
    button and the immediate play, each with the answers the outside world
    gives at that moment. *)
Inductive event : Type :=
| Select (query_data : string)
| Token (query_data : string)
| Summary (w : World)
| Commit (w : World)
| PlayNow (w : World).

Definition handle (u : UserData) (ev : event) : outcome :=
  match ev with
  | Select query_data => cron_parameters_dialog u query_data
  | Token query_data => set_sched_parameter_value u query_data
  | Summary w => display_schedule_menu w u
  | Commit w => add_schedule_record w u
  | PlayNow w => set_for_play_now w u
  end.

(** The session after a sequence of callbacks. *)
Definition run (u : UserData) (evs : list event) : UserData :=
  fold_left (fun u ev => session (handle u ev)) evs u.

(** The list a field of the session's configuration holds; the empty list
    for a name that is no field. *)
Definition selection (u : UserData) (key : string) : list string :=
  match getattr (schedule_info u) key with
  | Some l => l
  | None => []
  end.

(** The full domain of a dimension. *)
Definition full_domain (key : string) : list string :=
  match Constants.lookup Constants._full_range_dict key with
  | Some l => l
  | None => []
  end.

(** ** Notions the properties are stated with *)

(** The inclusive bounds an element of [sequences_and_singles] stands for. *)
Definition bounds (it : item) : Z * Z :=
  match it with
  | Single n => (n, n)
  | Pair a b => (a, b)
  end.



(** The integers from [a] to [b], both included. *)
Definition interval (a b : Z) : list Z := Py.range a (b + 1).

(** The integers an element list covers. *)
Definition covered (items : list item) : list Z :=
  flat_map (fun it => interval (fst (bounds it)) (snd (bounds it))) items.

(** The comma-separated token of an element list. *)
Definition token_of (items : list item) : string :=
  String.concat "," (map fmt_item items).

(** *** Re-expansion of a token

    The reading of a token that the round-trip law is stated with: split at
    the commas; a fragment is a decimal integer [a], standing for [{a}], or
    two of them around a dash, [a-b], standing for [{a..b}].  A dash in first
    position is the sign of [a], so the dash that separates is the first one
    after the first character. *)

Fixpoint split_on (c : ascii) (s : string) : list string :=
  match s with
  | EmptyString => [EmptyString]
  | String a r =>
      if Ascii.eqb a c then EmptyString :: split_on c r
      else
        match split_on c r with
        | h :: t => String a h :: t
        | [] => [String a EmptyString]
        end
  end.

Fixpoint split_dash (s : string) : option (string * string) :=
  match s with
  | EmptyString => None
  | String a r =>
      if Ascii.eqb a "-" then Some (EmptyString, r)
      else
        match split_dash r with
        | Some (before, after) => Some (String a before, after)
        | None => None
        end
  end.

Definition parse_int (s : string) : option Z :=
  option_map Z.of_int (NilZero.int_of_string s).

Definition parse_fragment (f : string) : option (list Z) :=
  match f with
  | EmptyString => None
  | String c r =>
      match split_dash r with
      | None => option_map (fun a => [a]) (parse_int f)
      | Some (before, after) =>
          match parse_int (String c before), parse_int after with
          | Some a, Some b => Some (interval a b)
          | _, _ => None
          end
      end
  end.

Fixpoint parse_fragments (fs : list string) : option (list Z) :=
  match fs with
  | [] => Some []
  | f :: r =>
      match parse_fragment f, parse_fragments r with
      | Some xs, Some ys => Some (xs ++ ys)%list
      | _, _ => None
      end
  end.

Definition reexpand (token : string) : option (list Z) :=
  parse_fragments (split_on "," token).


(** *** Auxiliary notions for the proofs *)

(** The scan of the compressor by recursion on the numbers that remain:
    the elements flushed from the window [(current_start, current_end)] on. *)
Fixpoint scan (current_start current_end : Z) (rest : list Z) : list item :=
  match rest with
  | [] => [flush current_start current_end]
  | num :: r =>
      if num =? current_end + 1 then scan current_start num r
      else flush current_start current_end :: scan num num r
  end.

(** [output_string] by recursion: every fragment followed by its comma. *)
Fixpoint with_commas (items : list item) : string :=
  match items with
  | [] => EmptyString
  | it :: r => fmt_item it ++ "," ++ with_commas r
  end.

(** Every character of [s] satisfies [p]. *)
Fixpoint all_chars (p : ascii -> bool) (s : string) : bool :=
  match s with
  | EmptyString => true
  | String c r => (p c && all_chars p r)%bool
  end.

Definition is_not (c : ascii) (a : ascii) : bool := negb (Ascii.eqb a c).

(** The integers a fragment stands for. *)
Definition expand_item (it : item) : list Z :=
  match it with
  | Single n => [n]
  | Pair a b => interval a b
  end.

(** Each number is less than the next, from [x] on. *)
Fixpoint increasing_from (x : Z) (l : list Z) : Prop :=
  match l with
  | [] => True
  | y :: r => x < y /\ increasing_from y r
  end.


(** The canonical integer of a label: a month name stands for its position
    counted from 1, a weekday name for its position counted from 0 (Sunday),
    a minute, hour or day label for the number it spells. *)
Definition canonical (key label : string) (n : Z) : Prop :=
  if String.eqb key "month" then
    nth_error Constants._month_names (Z.to_nat (n - 1)) = Some label /\ 1 <= n
  else if String.eqb key "day_of_week" then
    nth_error Constants._day_of_week_names (Z.to_nat n) = Some label /\ 0 <= n
  else Py.str n = label.

Definition nth_is (names : list string) (i : Z) (label : string) : bool :=
  match nth_error names (Z.to_nat i) with
  | Some l => String.eqb l label
  | None => false
  end.

Definition canonicalb (key label : string) (n : Z) : bool :=
  if String.eqb key "month" then
    (nth_is Constants._month_names (n - 1) label && (1 <=? n))%bool
  else if String.eqb key "day_of_week" then
    (nth_is Constants._day_of_week_names n label && (0 <=? n))%bool
  else String.eqb (Py.str n) label.

(** The body of the comprehension in each [bld_num_list_*]. *)
Definition codec_element (key : string) (label : string) : result Z :=
  if String.eqb key "month" then
    i <- or_raise ValueError (Py.index label Constants._month_names) ;;
    Ok (Z.of_nat i + 1)
  else if String.eqb key "day_of_week" then
    i <- or_raise ValueError (Py.index label Constants._day_of_week_names) ;;
    Ok (Z.of_nat i)
  else or_raise ValueError (Py.int label).

Definition codec_checks (key label : string) : bool :=
  match codec_element key label with
  | Ok n => canonicalb key label n
  | Raise _ => false
  end.

(** No string occurs twice. *)
Fixpoint nodupb (l : list string) : bool :=
  match l with
  | [] => true
  | x :: r => (negb (Py.contains x r) && nodupb r)%bool
  end.

(** The selections of scenario 1, in one of the orders they can be made. *)
Definition scenario_1 : ScheduleConfig :=
  mkScheduleConfig ["0"; "30"] ["9"] (full_domain "day") (full_domain "month")
    ["Monday"; "Tuesday"; "Wednesday"; "Thursday"; "Friday"].

(** The configuration with the list of one field replaced. *)
Definition set_selection (c : ScheduleConfig) (key : string) (v : list string)
    : ScheduleConfig :=
  match setattr c key v with
  | Some c' => c'
  | None => c
  end.

(** The session after an accepted token for the dimension [key]. *)
Definition toggled (u : UserData) (key token : string) : UserData :=
  with_info u
    (set_selection (schedule_info u) key
       (next_values (full_domain key) (selection u key) token)).

(** The strings a pattern can consume, anchors read as the empty string. *)
Fixpoint words (r : Re.regex) : list string :=
  match r with
  | Re.Lit s => [s]
  | Re.Class lo hi =>
      map (fun n => String (ascii_of_nat n) EmptyString)
        (seq (nat_of_ascii lo) (S (nat_of_ascii hi) - nat_of_ascii lo))
  | Re.Seq a b => flat_map (fun x => map (append x) (words b)) (words a)
  | Re.Alt a b => (words a ++ words b)%list
  | Re.Opt a => (words a ++ [EmptyString])%list
  | Re.Bol => [EmptyString]
  | Re.Eol => [EmptyString]
  end.

(** The words of a pattern that is an alternation of anchored patterns. *)
Fixpoint alternatives (r : Re.regex) : option (list string) :=
  match r with
  | Re.Alt a b =>
      match alternatives a, alternatives b with
      | Some x, Some y => Some (x ++ y)%list
      | _, _ => None
      end
  | Re.Seq Re.Bol (Re.Seq r' Re.Eol) => Some (words r')
  | _ => None
  end.

(** The tokens the allow-list of a dimension is written for. *)
Definition allowed_tokens (key : string) : list string :=
  match Constants.lookup Constants._value_pattern_dict key with
  | Some pattern =>
      match alternatives pattern with
      | Some ws => ws
      | None => []
      end
  | None => []
  end.

Fixpoint ends_with_newline (s : string) : bool :=
  match s with
  | EmptyString => false
  | String c EmptyString => Ascii.eqb c "010"
  | String _ r => ends_with_newline r
  end.

(** Every selection of the configuration is free of duplicates. *)
Definition duplicate_free (u : UserData) : Prop :=
  forall key, NoDup (selection u key).

(** Every selection of the configuration lies within its domain. *)
Definition within_domains (u : UserData) : Prop :=
  forall key, In key button_keys -> incl (selection u key) (full_domain key).

(** A session as [start] leaves it, before a device or a file is chosen. *)
Definition fresh_session : UserData :=
  mkUserData empty_config empty_entry None None.

(** Whether an allowed token is a sentinel or strips to a label of the
    domain, and whether it could add the hour label ["24"]. *)
Definition token_in_domain (key token : string) : bool :=
  (String.eqb token Constants.NO_VALUES || String.eqb token Constants.ALL_VALUES
   || Py.contains (strip_prefix token) (full_domain key))%bool.

Definition token_adds (label token : string) : bool :=
  (String.eqb (strip_prefix token) label
   || String.eqb (strip_prefix (token ++ newline)) label)%bool.

(** The keyboard offers the commit button. *)
Definition offers_commit (m : markup) : Prop :=
  match m with
  | Rows rows =>
      exists row b, In row rows /\ In b row /\
        callback_data b = Constants.COMMIT_SCHEDULE_CALLBACK
  | _ => False
  end.

(** The summary view was rendered once, as the report of an incomplete
    schedule on a keyboard without the commit button. *)
Definition reports_incomplete (o : outcome) : Prop :=
  exists m, shown o = [m] /\
            returned o = Ok (Some Constants.SCHEDULE_PLAY_MENU) /\
            msg_text m = "Scheduler settings incomplete" /\
            ~ offers_commit (reply_markup m).

(** A world in which the file is missing / present and the service accepts
    or fails every request. *)
Definition world (file_exists : bool) (reply : post_outcome) : World :=
  mkWorld (fun _ => file_exists) (fun _ => reply) (fun _ => Some "described") "07:30".

(** A session with a device, a user, a recorded file and a device name. *)
Definition ready_session (info : ScheduleConfig) (cron : string) : UserData :=
  mkUserData info (mkScheduleEntry 7 42 cron (Some "/shared/voice.mp3"))
    None (Some "Kitchen").

(** The callbacks of a user who completes a schedule, going back to the
    summary after each dimension, then clears the day of month and returns
    to the summary once more. *)
Definition clear_day_after_summary (w : World) : list event :=
  [Summary w;
   Select Constants.MINUTE_SELECT; Token "minute_0"; Summary w;
   Select Constants.HOUR_SELECT; Token "hour_9"; Summary w;
   Select Constants.DAY_OF_MONTH_SELECT; Token "0"; Summary w;
   Select Constants.MONTH_SELECT; Token "0"; Summary w;
   Select Constants.DAY_OF_WEEK_SELECT; Token "0"; Summary w;
   Select Constants.DAY_OF_MONTH_SELECT; Token "-1"; Summary w].

(** ** Further code of the bot *)

(** *** user_data_dataclass.py: the remaining methods *)

(** [ScheduleConfig.get_set_fields]: the names of the non-empty components,
    in the order of the dictionary it filters. *)
Definition config_get_set_fields (c : ScheduleConfig) : list string :=
  map fst
    (filter (fun kv => truthy (snd kv))
       [("minute", minute c); ("hour", hour c); ("day", day c);
        ("month", month c); ("day_of_week", day_of_week c)]).

(** [ScheduleEntry.get_set_fields], in the order of [fields(self)]. *)
Definition entry_get_set_fields (e : ScheduleEntry) : list string :=
  ((if int_is_set (device_id e) then ["device_id"] else []) ++
   (if int_is_set (user_id e) then ["user_id"] else []) ++
   (if str_is_set (cron_string e) then ["cron_string"] else []) ++
   (if path_is_set (sound_file_path e) then ["sound_file_path"] else []))%list.

(** [ScheduleEntry.reset]. *)
Definition entry_reset (e : ScheduleEntry) : ScheduleEntry :=
  mkScheduleEntry 0 0 "" None.

(** *** utils.py: the button texts and the device keyboard *)

(** U+2002, the en space, and U+200A, the hair space. *)
Definition en_space : string :=
  String (ascii_of_nat 226) (String (ascii_of_nat 128)
    (String (ascii_of_nat 130) EmptyString)).
Definition hair_space : string :=
  String (ascii_of_nat 226) (String (ascii_of_nat 128)
    (String (ascii_of_nat 138) EmptyString)).

(** [set_button_selection(text, select)]. *)
Definition set_button_selection (t : string) (select : bool) : string :=
  if select then check_mark ++ bold t
  else en_space ++ t ++ hair_space ++ hair_space.

(** One entry of the device list: its ["device_id"] and ["device_name"]. *)
Record device : Type := mkDevice { dev_id : Z; dev_name : string }.

Definition device_button (d : device) : button :=
  mkButton (dev_name d) ("device_actions_" ++ Py.str (dev_id d)).

(** [range(start, stop, step)] on naturals, [step > 0]. *)
Definition range_step (start stop step : nat) : list nat :=
  map (fun k => (start + k * step)%nat)
    (seq 0 ((stop - start + step - 1) / step)).

(** The comprehension of [build_device_keyboard]: a row of the devices [i]
    and [i + 1] for [i in range(0, len(devices) - 1, 2)]. *)
Definition pair_rows (devices : list device) : list (list button) :=
  flat_map
    (fun i =>
       match nth_error devices i, nth_error devices (i + 1) with
       | Some a, Some b => [[device_button a; device_button b]]
       | _, _ => []
       end)
    (range_step 0 (List.length devices - 1) 2).

(** [build_device_keyboard(devices)].  With an odd number of devices the
    last one is appended to the last row itself, which [last_row] aliases;
    when there is no row, [last_row] is a fresh list and the comparison
    [last_row != keyboard[-1]] indexes the empty keyboard: [None] is that
    [IndexError]. *)
Definition build_device_keyboard (devices : list device)
    : option (list (list button)) :=
  let keyboard := pair_rows devices in
  if Nat.eqb (Nat.modulo (List.length devices) 2) 0 then Some keyboard
  else
    match keyboard with
    | [] => None
    | _ :: _ =>
        Some (removelast keyboard ++
              [last keyboard [] ++
               map device_button (skipn (List.length devices - 1) devices)])%list
    end.

(** *** sched_buttons.py: the toggle grids *)

(** A grid button of a value: the label, marked when it is selected. *)
Definition value_button (label token : string) (selected : list string) : button :=
  mkButton (set_button_selection label (Py.contains label selected)) token.

Definition accept_row : list button := [mkButton "« Accept setting" "back"].

(** [names[i]]; the indices used are within the constant lists. *)
Definition name_at (names : list string) (i : nat) : string :=
  nth i names EmptyString.

Definition inline_day_of_week_buttons (info : ScheduleConfig)
    : list (list button) :=
  let names := Constants._day_of_week_names in
  ([[mkButton "Any day of week" Constants.ALL_VALUES];
    [mkButton "Clear day of week" Constants.NO_VALUES]] ++
   map (fun i =>
          map (fun j => value_button (name_at names (i + j)) (name_at names (i + j))
                          (day_of_week info))
              (range_step 0 2 1))
       (range_step 0 (List.length names - 1) 2) ++
   [[value_button (last names EmptyString) (last names EmptyString)
       (day_of_week info)]] ++
   [accept_row])%list.

Definition inline_month_buttons (info : ScheduleConfig) : list (list button) :=
  let names := Constants._month_names in
  ([[mkButton "Any month" Constants.ALL_VALUES];
    [mkButton "Clear month selection" Constants.NO_VALUES]] ++
   map (fun i =>
          map (fun j => value_button (name_at names (i + j)) (name_at names (i + j))
                          (month info))
              (range_step 0 3 1))
       (range_step 0 (List.length names) 3) ++
   [accept_row])%list.

Definition inline_select_day_of_month_buttons (info : ScheduleConfig)
    : list (list button) :=
  ([[mkButton "Any day of the month" Constants.ALL_VALUES];
    [mkButton "No day of the month" Constants.NO_VALUES]] ++
   map (fun week =>
          map (fun date => value_button (Py.str (Z.of_nat date))
                             (Py.str (Z.of_nat date)) (day info))
              (filter (fun date => Nat.leb date 31)
                 (map (fun d => (week * 7 + d)%nat) (range_step 1 8 1))))
       (range_step 0 5 1) ++
   [accept_row])%list.

Definition inline_select_hour_buttons (info : ScheduleConfig)
    : list (list button) :=
  ([[mkButton "Any hour" Constants.ALL_VALUES];
    [mkButton "No hour" Constants.NO_VALUES]] ++
   map (fun i =>
          map (fun j =>
                 let hour_name := Py.str (Z.of_nat (i * 6 + j)) in
                 value_button hour_name ("hour_" ++ hour_name) (hour info))
              (range_step 0 6 1))
       (range_step 0 4 1) ++
   [accept_row])%list.

Definition inline_select_minute_buttons (info : ScheduleConfig)
    : list (list button) :=
  ([[mkButton "Any minute" Constants.ALL_VALUES];
    [mkButton "No minute" Constants.NO_VALUES]] ++
   map (fun i =>
          map (fun j =>
                 let minute_name := Py.str (Z.of_nat (i * 6 + j)) in
                 value_button minute_name ("minute_" ++ minute_name) (minute info))
              (range_step 0 6 1))
       (range_step 0 10 1) ++
   [accept_row])%list.

(** [select_inline_keyboard], after its decorator and the [dict] check. *)
Definition select_inline_keyboard (info : ScheduleConfig) (selection : string)
    : list (list button) :=
  if String.eqb selection Constants.DAY_OF_MONTH_SELECT
  then inline_select_day_of_month_buttons info
  else if String.eqb selection Constants.MONTH_SELECT
  then inline_month_buttons info
  else if String.eqb selection Constants.DAY_OF_WEEK_SELECT
  then inline_day_of_week_buttons info
  else if String.eqb selection Constants.HOUR_SELECT
  then inline_select_hour_buttons info
  else if String.eqb selection Constants.MINUTE_SELECT
  then inline_select_minute_buttons info
  else [[mkButton "Error" "stop"]].

(** *** Notions for the further properties *)

(** The prefix a grid puts before a label in its callback tokens. *)
Definition token_prefix (key : string) : string :=
  if String.eqb key "hour" then "hour_"
  else if String.eqb key "minute" then "minute_"
  else EmptyString.

(** The value a token stands for in a dimension: the token without the
    prefix of that dimension, or the token itself if it has no such prefix. *)
Definition value_of (key token : string) : string :=
  match Re.drop_prefix (token_prefix key) token with
  | Some value => value
  | None => token
  end.

(** Whether the substitution of [set_sched_parameter_value] gives the value
    of a token of the dimension, as it is and followed by a newline. *)
Definition strips_to_value (key token : string) : bool :=
  (String.eqb (strip_prefix token) (value_of key token)
   && String.eqb (strip_prefix (token ++ newline)) (value_of key (token ++ newline)))%bool.

(** The labels a grid has a button for: the domain, without the hour 24 and
    the minute 60. *)
Definition offered (key : string) : list string :=
  if String.eqb key "hour" then map Py.str (Py.range 0 24)
  else if String.eqb key "minute" then map Py.str (Py.range 0 60)
  else full_domain key.

(** The buttons of a grid between its two sentinel rows and the accept row. *)
Definition value_buttons (rows : list (list button)) : list button :=
  List.concat (removelast (skipn 2 rows)).

Definition has_no_space (s : string) : bool := all_chars (is_not " ") s.

Definition not_space (c : ascii) : bool := negb (Py.is_space c).

(** A character below U+007F, which the transformation of [int] keeps. *)
Definition below_127 (c : ascii) : bool := (N_of_ascii c <? 127)%N.

(** The characters a compressed token is made of. *)
Definition token_char (c : ascii) : bool :=
  (Py.is_digit c || Ascii.eqb c "-" || Ascii.eqb c ",")%bool.

(** The tokens a pattern is written for: the two sentinels and the labels
    the pattern admits behind the prefix of the dimension (for the hours,
    0 to 23). *)
Definition expected_tokens (key : string) : list string :=
  Constants.NO_VALUES :: Constants.ALL_VALUES ::
  map (append (token_prefix key))
    (if String.eqb key "hour" then offered key else full_domain key).

Definition matches_both (pattern : Re.regex) (p : string) : bool :=
  (Re.re_match pattern p && Re.re_match pattern (p ++ newline))%bool.

(** The devices two by two, a device left over at the end not included. *)
Fixpoint chunks (devices : list device) : list (list button) :=
  match devices with
  | a :: b :: r => [device_button a; device_button b] :: chunks r
  | _ => []
  end.

(** The list of one field of a configuration, empty for any other name. *)
Definition field (info : ScheduleConfig) (key : string) : list string :=
  match getattr info key with
  | Some l => l
  | None => []
  end.

Definition accepted_or_back (pattern : Re.regex) (b : button) : bool :=
  (String.eqb (callback_data b) "back" || Re.re_match pattern (callback_data b))%bool.

(** * Properties *)

Example compress_doc :
  bld_cron_token_from_num_list [7; 0; 9; 1; 5; 2; 8] = "0-2,5,7-9".
Proof. reflexivity. Qed.

Example compress_neg :
  bld_cron_token_from_num_list [-1; -3; -2; 4] = "-3--1,4".
Proof. reflexivity. Qed.

Example reexpand_neg :
  reexpand "-3--1,4" = Some [-3; -2; -1; 4].
Proof. reflexivity. Qed.

Example int_examples :
  Py.int "30" = Some 30 /\ Py.int " 5 " = Some 5 /\ Py.int "1_0" = Some 10 /\
  Py.int "-7" = Some (-7) /\ Py.int "" = None /\ Py.int "5_" = None /\
  Py.int "Monday" = None.
Proof. repeat split; reflexivity. Qed.

(** Beyond ASCII: the unit separator U+001F is no whitespace for [int]; the
    no-break space U+00A0 is; the Arabic-Indic digit eight U+0668 and the
    mathematical bold digit five U+1D7D3 are digits. *)
Example int_unicode_examples :
  Py.int (String "031" "8") = None /\
  Py.int (String "194" (String "160" "8")) = Some 8 /\
  Py.int (String "217" (String "168" "")) = Some 8 /\
  Py.int ("1" ++ utf8_4 240 157 159 147) = Some 15.
Proof. repeat split; reflexivity. Qed.

(** A key that is no field: a method cannot be sorted, a [TypeError]; the
    docstring can, and then is no key of the dictionary; a name the object
    does not have is an [AttributeError], re-raised as [KeyError]. *)
Example non_field_keys :
  bld_cron_token_schedule_info empty_config "reset" = Raise TypeError /\
  bld_cron_token_schedule_info empty_config "__doc__" = Raise KeyError /\
  bld_cron_token_schedule_info empty_config "week" = Raise KeyError.
Proof. repeat split; reflexivity. Qed.

Example match_examples :
  Re.re_match Constants._hours_re_pattern "hour_23" = true /\
  Re.re_match Constants._hours_re_pattern "hour_24" = false /\
  Re.re_match Constants._hours_re_pattern "0" = true /\
  Re.re_match Constants._hours_re_pattern "-1" = true /\
  Re.re_match Constants._hours_re_pattern "hour_5x" = false /\
  Re.re_match Constants._days_re_pattern "31" = true /\
  Re.re_match Constants._days_re_pattern "32" = false /\
  Re.re_match Constants._days_of_week_re_pattern "Monday" = true /\
  Re.re_match Constants._days_of_week_re_pattern "Mon" = false /\
  Re.re_match Constants._minutes_re_pattern "minute_60" = true /\
  Re.re_match Constants._minutes_re_pattern "minute_61" = false.
Proof. repeat split; reflexivity. Qed.
(** ** Sorting *)

Section SortFacts.
Context {A : Type} (le : A -> A -> bool).
Hypothesis le_total : forall x y, le x y = true \/ le y x = true.
Hypothesis le_antisym : forall x y, le x y = true -> le y x = true -> x = y.
Hypothesis le_trans : forall x y z, le x y = true -> le y z = true -> le x z = true.

Lemma insert_perm (x : A) (l : list A) : Permutation (Py.insert le x l) (x :: l).
Proof.
  induction l as [|y r IH]; simpl; [reflexivity|].
  destruct (le x y); [reflexivity|].
  rewrite IH. apply perm_swap.
Qed.

Lemma isort_perm (l : list A) : Permutation (Py.isort le l) l.
Proof.
  induction l as [|x r IH]; simpl; [constructor|].
  rewrite insert_perm. now constructor.
Qed.

Lemma insert_comm (x y : A) (l : list A) :
  Py.insert le x (Py.insert le y l) = Py.insert le y (Py.insert le x l).
Proof.
  induction l as [|z r IH]; simpl.
  - destruct (le x y) eqn:Hxy, (le y x) eqn:Hyx; trivial.
    + now rewrite (le_antisym x y).
    + destruct (le_total x y); congruence.
  - destruct (le y z) eqn:Hyz, (le x z) eqn:Hxz; simpl.
    + destruct (le x y) eqn:Hxy, (le y x) eqn:Hyx; rewrite ?Hyz, ?Hxz; trivial.
      * now rewrite (le_antisym x y).
      * destruct (le_total x y); congruence.
    + destruct (le x y) eqn:Hxy.
      * rewrite (le_trans x y z) in Hxz; congruence.
      * now rewrite Hxz, Hyz.
    + destruct (le y x) eqn:Hyx.
      * rewrite (le_trans y x z) in Hyz; congruence.
      * now rewrite Hxz, Hyz.
    + now rewrite Hxz, Hyz, IH.
Qed.

Lemma isort_of_perm (a b : list A) :
  Permutation a b -> Py.isort le a = Py.isort le b.
Proof.
  induction 1; simpl; try congruence.
  apply insert_comm.
Qed.

Lemma isort_eq_iff (a b : list A) :
  Py.isort le a = Py.isort le b <-> Permutation a b.
Proof.
  split; [|apply isort_of_perm].
  intros E. rewrite <- (isort_perm a), E. apply isort_perm.
Qed.
End SortFacts.

Lemma ascii_compare_refl (c : ascii) : Ascii.compare c c = Eq.
Proof. unfold Ascii.compare. apply N.compare_refl. Qed.

Lemma string_compare_refl (s : string) : String.compare s s = Eq.
Proof. induction s as [|c r IH]; simpl; [|rewrite ascii_compare_refl]; trivial. Qed.

Lemma ascii_compare_lt_trans (a b c : ascii) :
  Ascii.compare a b = Lt -> Ascii.compare b c = Lt -> Ascii.compare a c = Lt.
Proof.
  unfold Ascii.compare. rewrite !N.compare_lt_iff. apply N.lt_trans.
Qed.

Lemma string_compare_lt_trans (s1 : string) : forall s2 s3,
  String.compare s1 s2 = Lt -> String.compare s2 s3 = Lt ->
  String.compare s1 s3 = Lt.
Proof.
  induction s1 as [|a r1 IH]; intros [|b r2] [|c r3]; simpl; try congruence.
  destruct (Ascii.compare a b) eqn:Hab; try congruence;
    destruct (Ascii.compare b c) eqn:Hbc; try congruence; intros H1 H2.
  - apply Ascii.compare_eq_iff in Hab, Hbc. subst.
    rewrite ascii_compare_refl. eauto.
  - apply Ascii.compare_eq_iff in Hab. subst. now rewrite Hbc.
  - apply Ascii.compare_eq_iff in Hbc. subst. now rewrite Hab.
  - now rewrite (ascii_compare_lt_trans a b c).
Qed.

Lemma string_leb_trans (x y z : string) :
  String.leb x y = true -> String.leb y z = true -> String.leb x z = true.
Proof.
  unfold String.leb.
  destruct (String.compare x y) eqn:Hxy; try congruence;
    destruct (String.compare y z) eqn:Hyz; try congruence; intros _ _.
  - apply String.compare_eq_iff in Hxy, Hyz. subst. now rewrite string_compare_refl.
  - apply String.compare_eq_iff in Hxy. subst. now rewrite Hyz.
  - apply String.compare_eq_iff in Hyz. subst. now rewrite Hxy.
  - now rewrite (string_compare_lt_trans x y z).
Qed.

Lemma sorted_eq_iff (a b : list string) :
  Py.sorted a = Py.sorted b <-> Permutation a b.
Proof.
  apply isort_eq_iff.
  - apply String.leb_total.
  - apply String.leb_antisym.
  - apply string_leb_trans.
Qed.


Lemma sort_of_perm (a b : list Z) : Permutation a b -> Py.sort a = Py.sort b.
Proof.
  apply isort_of_perm.
  - intros x y. rewrite !Z.leb_le. lia.
  - intros x y. rewrite !Z.leb_le. lia.
  - intros x y z. rewrite !Z.leb_le. lia.
Qed.

Lemma sort_perm (l : list Z) : Permutation (Py.sort l) l.
Proof. apply isort_perm. Qed.

(** ** Decimal strings *)

Lemma uint_digits (d : Decimal.uint) :
  all_chars Py.is_digit (NilEmpty.string_of_uint d) = true.
Proof. induction d; simpl; trivial. Qed.

Lemma uint_nonempty (d : Decimal.uint) :
  d <> Decimal.Nil ->
  exists c r, NilEmpty.string_of_uint d = String c r /\ Py.is_digit c = true.
Proof. destruct d; simpl; try congruence; intros _; eauto. Qed.

(** [str(n)] is a digit or a minus sign followed by digits only. *)
Lemma str_shape (n : Z) :
  exists c r, Py.str n = String c r /\
    all_chars Py.is_digit r = true /\
    (c = "-"%char \/ Py.is_digit c = true).
Proof.
  unfold Py.str. destruct n as [|p|p]; simpl.
  - exists "0"%char, EmptyString. auto.
  - pose proof (Unsigned.to_uint_nonnil p) as Hn.
    pose proof (uint_digits (Pos.to_uint p)) as Hd.
    unfold NilZero.string_of_uint.
    destruct (Pos.to_uint p) eqn:E; try congruence;
      simpl in *; eexists _, _; (split; [reflexivity|]); auto.
  - pose proof (uint_digits (Pos.to_uint p)) as Hd.
    exists "-"%char, (NilZero.string_of_uint (Pos.to_uint p)).
    split; [reflexivity|]. split; [|auto].
    unfold NilZero.string_of_uint. now destruct (Pos.to_uint p).
Qed.

Lemma parse_int_str (n : Z) : parse_int (Py.str n) = Some n.
Proof.
  unfold parse_int, Py.str. rewrite NilZero.isi.
  - simpl. now rewrite DecimalZ.of_to.
  - destruct n; simpl; try congruence.
    intros [= H]. now apply (Unsigned.to_uint_nonnil p).
  - destruct n; simpl; try congruence.
    intros [= H]. now apply (Unsigned.to_uint_nonnil p).
Qed.

Lemma all_chars_weaken (p q : ascii -> bool) (s : string) :
  (forall c, p c = true -> q c = true) ->
  all_chars p s = true -> all_chars q s = true.
Proof.
  intros H. induction s as [|c r IH]; simpl; trivial.
  rewrite !andb_true_iff. intuition.
Qed.

Lemma all_chars_app (p : ascii -> bool) (s t : string) :
  all_chars p (s ++ t) = (all_chars p s && all_chars p t)%bool.
Proof. induction s as [|c r IH]; simpl; trivial. now rewrite IH, andb_assoc. Qed.

Lemma digit_is_not_comma (c : ascii) : Py.is_digit c = true -> is_not "," c = true.
Proof.
  unfold is_not. destruct (Ascii.eqb_spec c ","%char); subst; trivial.
Qed.

Lemma digit_is_not_dash (c : ascii) : Py.is_digit c = true -> is_not "-" c = true.
Proof.
  unfold is_not. destruct (Ascii.eqb_spec c "-"%char); subst; trivial.
Qed.

Lemma str_no_comma (n : Z) : all_chars (is_not ",") (Py.str n) = true.
Proof.
  destruct (str_shape n) as (c & r & -> & Hr & Hc). simpl.
  rewrite (all_chars_weaken _ _ _ digit_is_not_comma Hr), andb_true_r.
  destruct Hc as [->|Hc]; [reflexivity|now apply digit_is_not_comma].
Qed.

Lemma fmt_item_no_comma (it : item) : all_chars (is_not ",") (fmt_item it) = true.
Proof.
  destruct it; simpl; [apply str_no_comma|].
  rewrite all_chars_app. simpl. now rewrite !str_no_comma.
Qed.

Lemma fmt_item_nonempty (it : item) : fmt_item it <> EmptyString.
Proof.
  destruct it as [n|a b]; simpl.
  - destruct (str_shape n) as (c & r & -> & _). discriminate.
  - destruct (str_shape a) as (c & r & -> & _). discriminate.
Qed.

(** ** The scan of the compressor *)

Lemma fold_scan_step (rest : list Z) : forall cs ce acc,
  let '(cs', ce', acc') := fold_left scan_step rest (cs, ce, acc) in
  (acc' ++ [flush cs' ce'])%list = (acc ++ scan cs ce rest)%list.
Proof.
  induction rest as [|num r IH]; intros cs ce acc; simpl; trivial.
  destruct (num =? ce + 1).
  - apply IH.
  - specialize (IH num num (acc ++ [flush cs ce])%list).
    destruct (fold_left scan_step r _) as [[cs' ce'] acc'].
    now rewrite IH, <- app_assoc.
Qed.

Lemma sequences_and_singles_scan (x : Z) (r : list Z) :
  sequences_and_singles (x :: r) = scan x x r.
Proof.
  unfold sequences_and_singles. simpl.
  pose proof (fold_scan_step r x x []) as H.
  now destruct (fold_left scan_step r _) as [[cs ce] acc].
Qed.

Lemma in_range (a b x : Z) : In x (Py.range a b) <-> a <= x < b.
Proof.
  unfold Py.range. rewrite in_map_iff. split.
  - intros (i & <- & Hi). apply in_seq in Hi. lia.
  - intros H. exists (Z.to_nat (x - a)). split; [lia|].
    apply in_seq. lia.
Qed.

Lemma in_interval (a b x : Z) : In x (interval a b) <-> a <= x <= b.
Proof. unfold interval. rewrite in_range. lia. Qed.

Lemma bounds_flush (cs ce x : Z) :
  In x (interval (fst (bounds (flush cs ce))) (snd (bounds (flush cs ce))))
  <-> cs <= x <= ce.
Proof.
  unfold flush. destruct (Z.eqb_spec cs ce); simpl; rewrite in_interval; lia.
Qed.

Lemma covered_cons (it : item) (r : list item) (x : Z) :
  In x (covered (it :: r)) <->
  In x (interval (fst (bounds it)) (snd (bounds it))) \/ In x (covered r).
Proof. unfold covered. simpl. apply in_app_iff. Qed.

(** The scan loses and invents nothing: it covers the window and the
    numbers that remained, whatever their order. *)
Lemma covered_scan (rest : list Z) : forall cs ce x,
  cs <= ce ->
  (In x (covered (scan cs ce rest)) <-> cs <= x <= ce \/ In x rest).
Proof.
  induction rest as [|num r IH]; intros cs ce x Hle; cbn [scan In].
  - rewrite covered_cons, bounds_flush. unfold covered. simpl. tauto.
  - destruct (Z.eqb_spec num (ce + 1)) as [->|Hne].
    + rewrite IH by lia.
      destruct (Z.eq_dec (ce + 1) x); intuition lia.
    + rewrite covered_cons, bounds_flush, IH by lia.
      destruct (Z.eq_dec num x); intuition lia.
Qed.

Lemma sort_nonempty (l : list Z) : l <> [] -> Py.sort l <> [].
Proof.
  intros H E. apply H.
  apply Permutation_nil. rewrite <- E. apply sort_perm.
Qed.

(** What [sequences_and_singles] covers after the sort is the input. *)
Lemma covered_sequences (numbers : list Z) (x : Z) :
  numbers <> [] ->
  (In x (covered (sequences_and_singles (Py.sort numbers))) <-> In x numbers).
Proof.
  intros Hne. pose proof (sort_perm numbers) as Hp.
  destruct (Py.sort numbers) as [|y r] eqn:E.
  - now apply sort_nonempty in Hne.
  - rewrite sequences_and_singles_scan, covered_scan by lia.
    rewrite <- (Permutation_in' (eq_refl x) Hp). simpl.
    destruct (Z.eq_dec y x); intuition lia.
Qed.

(** ** From the output loop to the comma-separated token *)

Lemma append_empty_r (s : string) : s ++ EmptyString = s.
Proof. induction s; simpl; congruence. Qed.

Lemma append_assoc (s t u : string) : (s ++ t) ++ u = s ++ t ++ u.
Proof. induction s; simpl; congruence. Qed.

Lemma output_loop (items : list item) : forall out,
  fold_left (fun out it => out ++ fmt_item it ++ ",") items out
  = out ++ with_commas items.
Proof.
  induction items as [|it r IH]; intros out; simpl.
  - now rewrite append_empty_r.
  - now rewrite IH, !append_assoc.
Qed.

Lemma output_string_with_commas (items : list item) :
  output_string items = with_commas items.
Proof. unfold output_string. now rewrite output_loop. Qed.

Lemma rstrip_clean (c : ascii) (s : string) :
  all_chars (is_not c) s = true -> s <> EmptyString ->
  forall t, Py.rstrip c (s ++ t) = s ++ Py.rstrip c t.
Proof.
  induction s as [|a r IH]; simpl; [congruence|].
  rewrite andb_true_iff. intros [Ha Hr] _ t.
  destruct r as [|b r'].
  - simpl. destruct (Py.rstrip c t); trivial.
    unfold is_not in Ha. now destruct (Ascii.eqb a c).
  - rewrite IH by (trivial; discriminate). now simpl.
Qed.

Lemma rstrip_comma_only : Py.rstrip "," "," = EmptyString.
Proof. reflexivity. Qed.

Lemma rstrip_cons (c a : ascii) (t : string) :
  Py.rstrip c t <> EmptyString ->
  Py.rstrip c (String a t) = String a (Py.rstrip c t).
Proof. simpl. destruct (Py.rstrip c t); congruence. Qed.

Lemma token_of_cons (it : item) (r : list item) :
  token_of (it :: r)
  = match r with
    | [] => fmt_item it
    | _ :: _ => fmt_item it ++ "," ++ token_of r
    end.
Proof. unfold token_of. now destruct r. Qed.

Lemma token_of_nonempty (items : list item) :
  items <> [] -> token_of items <> EmptyString.
Proof.
  destruct items as [|it r]; [congruence|]. intros _.
  rewrite token_of_cons. pose proof (fmt_item_nonempty it) as H.
  destruct r; trivial. destruct (fmt_item it); [congruence|discriminate].
Qed.

Lemma rstrip_with_commas (items : list item) :
  Py.rstrip "," (with_commas items) = token_of items.
Proof.
  induction items as [|it r IH]; trivial.
  rewrite token_of_cons. cbn [with_commas].
  rewrite rstrip_clean by (apply fmt_item_no_comma || apply fmt_item_nonempty).
  destruct r as [|it2 r2].
  - simpl. now rewrite append_empty_r.
  - f_equal. change ("," ++ with_commas (it2 :: r2))
      with (String "," (with_commas (it2 :: r2))).
    rewrite rstrip_cons; rewrite IH; trivial.
    now apply token_of_nonempty.
Qed.

(** The compressor, for a non-empty list, is the comma-separated token of
    the scan of the sorted list. *)
Lemma compress_token (numbers : list Z) :
  numbers <> [] ->
  bld_cron_token_from_num_list numbers
  = token_of (sequences_and_singles (Py.sort numbers)).
Proof.
  destruct numbers as [|x r]; [congruence|]. intros _.
  unfold bld_cron_token_from_num_list.
  now rewrite output_string_with_commas, rstrip_with_commas.
Qed.

(** ** Re-expansion of the token *)

Lemma split_on_clean (c : ascii) (s : string) :
  all_chars (is_not c) s = true -> split_on c s = [s].
Proof.
  induction s as [|a r IH]; simpl; trivial.
  rewrite andb_true_iff. unfold is_not at 1. intros [Ha Hr].
  destruct (Ascii.eqb a c); [discriminate|]. now rewrite IH.
Qed.

Lemma split_on_app (c : ascii) (s t : string) :
  all_chars (is_not c) s = true ->
  split_on c (s ++ String c t) = s :: split_on c t.
Proof.
  induction s as [|a r IH]; simpl.
  - now rewrite Ascii.eqb_refl.
  - rewrite andb_true_iff. unfold is_not at 1. intros [Ha Hr].
    destruct (Ascii.eqb a c); [discriminate|]. now rewrite IH.
Qed.

Lemma split_token (items : list item) :
  items <> [] -> split_on "," (token_of items) = map fmt_item items.
Proof.
  induction items as [|it r IH]; [congruence|]. intros _.
  rewrite token_of_cons. destruct r as [|it2 r2].
  - apply split_on_clean, fmt_item_no_comma.
  - change ("," ++ token_of (it2 :: r2)) with (String "," (token_of (it2 :: r2))).
    rewrite split_on_app by apply fmt_item_no_comma.
    now rewrite IH.
Qed.

Lemma split_dash_none (r : string) :
  all_chars (is_not "-") r = true -> split_dash r = None.
Proof.
  induction r as [|a r IH]; simpl; trivial.
  rewrite andb_true_iff. unfold is_not at 1. intros [Ha Hr].
  destruct (Ascii.eqb a "-"); [discriminate|]. now rewrite IH.
Qed.

Lemma split_dash_app (r t : string) :
  all_chars (is_not "-") r = true ->
  split_dash (r ++ String "-" t) = Some (r, t).
Proof.
  induction r as [|a r IH]; simpl; trivial.
  rewrite andb_true_iff. unfold is_not at 1. intros [Ha Hr].
  destruct (Ascii.eqb a "-"); [discriminate|]. now rewrite IH.
Qed.

Lemma parse_fragment_fmt (it : item) :
  parse_fragment (fmt_item it) = Some (expand_item it).
Proof.
  destruct it as [n|a b]; simpl.
  - pose proof (parse_int_str n) as Hp.
    destruct (str_shape n) as (c & r & E & Hr & _). rewrite E in *.
    unfold parse_fragment.
    rewrite split_dash_none by exact (all_chars_weaken _ _ _ digit_is_not_dash Hr).
    now rewrite Hp.
  - pose proof (parse_int_str a) as Hp.
    destruct (str_shape a) as (c & r & E & Hr & _). rewrite E in *.
    change (String c r ++ String "-" (Py.str b))
      with (String c (r ++ String "-" (Py.str b))).
    unfold parse_fragment.
    rewrite split_dash_app by exact (all_chars_weaken _ _ _ digit_is_not_dash Hr).
    now rewrite Hp, parse_int_str.
Qed.

Lemma parse_fragments_fmt (items : list item) :
  parse_fragments (map fmt_item items) = Some (flat_map expand_item items).
Proof.
  induction items as [|it r IH]; simpl; trivial.
  now rewrite parse_fragment_fmt, IH.
Qed.

Lemma reexpand_token (items : list item) :
  items <> [] -> reexpand (token_of items) = Some (flat_map expand_item items).
Proof.
  intros H. unfold reexpand. rewrite split_token by trivial.
  apply parse_fragments_fmt.
Qed.

Lemma in_expand_item (it : item) (x : Z) :
  In x (expand_item it) <-> In x (interval (fst (bounds it)) (snd (bounds it))).
Proof.
  destruct it as [n|a b]; simpl; [|tauto].
  rewrite in_interval. lia.
Qed.

Lemma in_expanded (items : list item) (x : Z) :
  In x (flat_map expand_item items) <-> In x (covered items).
Proof.
  unfold covered. rewrite !in_flat_map.
  split; intros (it & Hit & Hx); exists it; split; trivial;
    now apply in_expand_item.
Qed.

Lemma scan_nonempty (rest : list Z) : forall cs ce, scan cs ce rest <> [].
Proof.
  induction rest as [|num r IH]; intros cs ce; simpl; [discriminate|].
  destruct (num =? ce + 1); [apply IH|discriminate].
Qed.

(** C1.  Round trip of the range compressor: the token built from a
    non-empty list of integers, read back fragment by fragment (a decimal
    integer as itself, [a-b] as the integers from [a] to [b]), has exactly
    the members of the list. *)
Theorem compress_round_trip (numbers : list Z) :
  numbers <> [] ->
  exists xs,
    reexpand (bld_cron_token_from_num_list numbers) = Some xs /\
    forall x, In x xs <-> In x numbers.
Proof.
  intros Hne. rewrite compress_token by trivial.
  exists (flat_map expand_item (sequences_and_singles (Py.sort numbers))).
  split.
  - apply reexpand_token.
    destruct (Py.sort numbers) as [|y r] eqn:E.
    + now apply sort_nonempty in Hne.
    + rewrite sequences_and_singles_scan. apply scan_nonempty.
  - intros x. rewrite in_expanded. now apply covered_sequences.
Qed.

Lemma compress_round_trip_witness :
  [7; -2; 9; -1; 8; -3] <> [] /\
  exists xs,
    reexpand (bld_cron_token_from_num_list [7; -2; 9; -1; 8; -3]) = Some xs /\
    forall x, In x xs <-> In x [7; -2; 9; -1; 8; -3].
Proof.
  split; [discriminate|].
  apply (compress_round_trip [7; -2; 9; -1; 8; -3]). discriminate.
Defined.

(** ** The field codec *)

Lemma contains_In (x : string) (l : list string) :
  Py.contains x l = true <-> In x l.
Proof.
  unfold Py.contains. rewrite existsb_exists. split.
  - intros (y & Hy & E). apply String.eqb_eq in E. now subst.
  - intros H. exists x. split; trivial. apply String.eqb_refl.
Qed.

Lemma contains_false (x : string) (l : list string) :
  Py.contains x l = false <-> ~ In x l.
Proof.
  rewrite <- contains_In. destruct (Py.contains x l); split; congruence.
Qed.

Lemma nodupb_NoDup (l : list string) : nodupb l = true -> NoDup l.
Proof.
  induction l as [|x r IH]; simpl; [constructor|].
  rewrite andb_true_iff, negb_true_iff, contains_false.
  intros [Hx Hr]. constructor; auto.
Qed.

Ltac each_key H :=
  simpl in H;
  repeat (destruct H as [H|H]; [symmetry in H; subst|]);
  [..|contradiction].

Lemma full_domain_NoDup (key : string) :
  In key button_keys -> NoDup (full_domain key).
Proof. intros H. each_key H; apply nodupb_NoDup; vm_compute; reflexivity. Qed.


Lemma incl_by_contains (sel full : list string) :
  forallb (fun x => Py.contains x full) sel = true -> incl sel full.
Proof.
  rewrite forallb_forall. intros H x Hx. now apply contains_In, H.
Qed.

Lemma lookup_full_range (key : string) :
  In key button_keys ->
  Constants.lookup Constants._full_range_dict key = Some (full_domain key).
Proof. intros H. each_key H; reflexivity. Qed.

Lemma canonicalb_sound (key label : string) (n : Z) :
  canonicalb key label n = true -> canonical key label n.
Proof.
  unfold canonicalb, canonical, nth_is.
  destruct (String.eqb key "month"); [|destruct (String.eqb key "day_of_week")].
  - rewrite andb_true_iff, Z.leb_le.
    destruct (nth_error _ _); [|intuition discriminate].
    rewrite String.eqb_eq. intuition congruence.
  - rewrite andb_true_iff, Z.leb_le.
    destruct (nth_error _ _); [|intuition discriminate].
    rewrite String.eqb_eq. intuition congruence.
  - apply String.eqb_eq.
Qed.


Lemma method_is_comprehension (key : string) :
  In key button_keys ->
  exists method,
    Constants.lookup bld_num_list_methods key = Some method /\
    forall l, method l = comprehension (codec_element key) l.
Proof. intros H. each_key H; eexists; split; reflexivity. Qed.

(** On the labels of its domain the codec never raises and yields the
    canonical integer. *)
Lemma codec_on_domain (key label : string) :
  In key button_keys -> In label (full_domain key) ->
  exists n, codec_element key label = Ok n /\ canonical key label n.
Proof.
  intros Hk Hl.
  assert (forallb (codec_checks key) (full_domain key) = true) as Hall
    by (each_key Hk; vm_compute; reflexivity).
  rewrite forallb_forall in Hall. specialize (Hall label Hl).
  unfold codec_checks in Hall.
  destruct (codec_element key label) as [n|]; [|discriminate].
  exists n. split; trivial. now apply canonicalb_sound.
Qed.

Lemma comprehension_ok {A B : Type} (f : A -> result B) (P : A -> B -> Prop)
    (l : list A) :
  (forall x, In x l -> exists y, f x = Ok y /\ P x y) ->
  exists ys, comprehension f l = Ok ys /\ Forall2 P l ys.
Proof.
  induction l as [|x r IH]; intros H; simpl.
  - exists []. split; [reflexivity|constructor].
  - destruct (H x (or_introl eq_refl)) as (y & -> & Hy).
    destruct IH as (ys & -> & Hys); [intros; apply H; now right|].
    exists (y :: ys). split; [reflexivity|now constructor].
Qed.


Lemma Forall2_nil_iff {A B : Type} (P : A -> B -> Prop) (l : list A) (ys : list B) :
  Forall2 P l ys -> (l = [] <-> ys = []).
Proof. destruct 1; split; congruence. Qed.

(** ** Ascending output of the compressor *)

Lemma increasing_from_lower (l : list Z) : forall x y,
  x <= y -> increasing_from y l -> increasing_from x l.
Proof. destruct l; simpl; intuition lia. Qed.

Lemma increasing_from_all (l : list Z) : forall x,
  increasing_from x l -> forall y, In y l -> x < y.
Proof.
  induction l as [|z r IH]; simpl; [contradiction|].
  intros x [Hxz Hr] y [->|Hy]; trivial.
  specialize (IH z Hr y Hy). lia.
Qed.










(** ** C2 *)




(** ** The token depends on the selection as a set *)

Lemma comprehension_perm {A B : Type} (f : A -> result B) (l l' : list A) :
  Permutation l l' ->
  forall ys, comprehension f l = Ok ys ->
  exists ys', comprehension f l' = Ok ys' /\ Permutation ys ys'.
Proof.
  induction 1 as [|x l l' Hp IH|x y l|l l' l'' Hp1 IH1 Hp2 IH2]; simpl; intros ys.
  - intros [= <-]. now exists [].
  - destruct (f x) as [b|]; simpl; [|discriminate].
    destruct (comprehension f l) as [bs|]; simpl; [|discriminate].
    intros [= <-]. destruct (IH bs eq_refl) as (bs' & -> & Hbs).
    exists (b :: bs'). simpl. split; [reflexivity|now constructor].
  - destruct (f y) as [b|]; simpl; [|discriminate].
    destruct (f x) as [c|]; simpl; [|discriminate].
    destruct (comprehension f l) as [bs|]; simpl; [|discriminate].
    intros [= <-]. exists (c :: b :: bs). split; [reflexivity|apply perm_swap].
  - intros H. destruct (IH1 ys H) as (ys' & H' & Hp').
    destruct (IH2 ys' H') as (ys'' & H'' & Hp'').
    exists ys''. split; [trivial|now transitivity ys'].
Qed.

Lemma compress_perm (a b : list Z) :
  Permutation a b ->
  bld_cron_token_from_num_list a = bld_cron_token_from_num_list b.
Proof.
  intros Hp. destruct a as [|x a'], b as [|y b'];
    try reflexivity;
    try (apply Permutation_nil in Hp; discriminate);
    try (symmetry in Hp; apply Permutation_nil in Hp; discriminate).
  unfold bld_cron_token_from_num_list. now rewrite (sort_of_perm _ _ Hp).
Qed.

Lemma lookup_method (key : string) (method : list string -> result (list Z)) :
  Constants.lookup bld_num_list_methods key = Some method ->
  forall l, method l = comprehension (codec_element key) l.
Proof.
  unfold bld_num_list_methods. simpl.
  repeat match goal with
         | |- context [String.eqb key ?k] =>
             destruct (String.eqb_spec key k) as [->|?];
             [intros [= <-]; reflexivity|]
         end.
  discriminate.
Qed.

Lemma token_perm (info info' : ScheduleConfig) (key : string)
    (sel sel' : list string) (t : string) :
  getattr info key = Some sel ->
  getattr info' key = Some sel' ->
  Permutation sel sel' ->
  bld_cron_token_schedule_info info key = Ok t ->
  bld_cron_token_schedule_info info' key = Ok t.
Proof.
  intros Hg Hg' Hp. unfold bld_cron_token_schedule_info.
  rewrite Hg, Hg'. cbn [bind or_raise].
  destruct (Constants.lookup Constants._full_range_dict key) as [full|];
    cbn [bind or_raise]; [|auto].
  rewrite (proj2 (sorted_eq_iff sel sel') Hp).
  destruct (list_eqb _ _); trivial.
  destruct (Constants.lookup bld_num_list_methods key) as [method|] eqn:Hm;
    cbn [bind or_raise]; [|auto].
  rewrite !(lookup_method key method Hm).
  destruct (comprehension (codec_element key) sel) as [numbers|] eqn:Hc;
    cbn [bind]; [|discriminate].
  destruct (comprehension_perm _ _ _ Hp _ Hc) as (numbers' & -> & Hn).
  cbn [bind]. now rewrite (compress_perm _ _ Hn).
Qed.

(** ** C5 *)

(** C5.  End to end: with minute {0, 30}, hour {9}, every day of the month,
    every month and Monday to Friday selected, in whatever order the
    selections were made, the cron string is ["0,30 9 * * 1-5"]. *)
Theorem end_to_end_cron_string (info : ScheduleConfig) :
  Permutation (minute info) ["0"; "30"] ->
  Permutation (hour info) ["9"] ->
  Permutation (day info) (full_domain "day") ->
  Permutation (month info) (full_domain "month") ->
  Permutation (day_of_week info)
    ["Monday"; "Tuesday"; "Wednesday"; "Thursday"; "Friday"] ->
  build_cron_string info button_keys = Ok "0,30 9 * * 1-5".
Proof.
  intros Hmi Hh Hd Hmo Hw.
  assert (forall key sel t,
            getattr scenario_1 key = Some sel ->
            Permutation (match getattr info key with Some l => l | None => [] end) sel ->
            getattr info key <> None ->
            bld_cron_token_schedule_info scenario_1 key = Ok t ->
            bld_cron_token_schedule_info info key = Ok t) as Hsame.
  { intros key sel t Hg Hp Hsome Ht.
    destruct (getattr info key) as [l|] eqn:E; [|congruence].
    apply (token_perm scenario_1 info key sel l); trivial. now symmetry. }
  unfold build_cron_string, button_keys. cbn [cron_loop].
  rewrite (Hsame "minute" ["0"; "30"] "0,30");
    [|reflexivity|exact Hmi|discriminate|reflexivity].
  cbn [bind].
  rewrite (Hsame "hour" ["9"] "9");
    [|reflexivity|exact Hh|discriminate|reflexivity].
  cbn [bind].
  rewrite (Hsame "day" (full_domain "day") "*");
    [|reflexivity|exact Hd|discriminate|reflexivity].
  cbn [bind].
  rewrite (Hsame "month" (full_domain "month") "*");
    [|reflexivity|exact Hmo|discriminate|reflexivity].
  cbn [bind].
  rewrite (Hsame "day_of_week"
             ["Monday"; "Tuesday"; "Wednesday"; "Thursday"; "Friday"] "1-5");
    [|reflexivity|exact Hw|discriminate|reflexivity].
  reflexivity.
Qed.

Lemma end_to_end_cron_string_witness :
  build_cron_string
    (mkScheduleConfig ["30"; "0"] ["9"] (rev (full_domain "day"))
       (full_domain "month")
       ["Friday"; "Monday"; "Wednesday"; "Tuesday"; "Thursday"])
    button_keys
  = Ok "0,30 9 * * 1-5".
Proof.
  apply end_to_end_cron_string; simpl.
  - apply perm_swap.
  - apply Permutation_refl.
  - apply Permutation_sym, (Permutation_rev (full_domain "day")).
  - apply Permutation_refl.
  - apply (NoDup_Permutation).
    + apply nodupb_NoDup. reflexivity.
    + apply nodupb_NoDup. reflexivity.
    + intros x. simpl. tauto.
Defined.

(** ** The toggle transition *)

Lemma in_remove (v x : string) (l : list string) :
  In x (Py.remove v l) -> In x l.
Proof.
  induction l as [|y r IH]; simpl; trivial.
  destruct (String.eqb v y); simpl; tauto.
Qed.

Lemma in_remove_other (v x : string) (l : list string) :
  x <> v -> In x l -> In x (Py.remove v l).
Proof.
  intros Hne. induction l as [|y r IH]; simpl; trivial.
  destruct (String.eqb_spec v y) as [->|Hvy]; simpl; intuition congruence.
Qed.

Lemma remove_NoDup (v : string) (l : list string) :
  NoDup l -> NoDup (Py.remove v l) /\ ~ In v (Py.remove v l).
Proof.
  induction 1 as [|y r Hy Hnd [IH1 IH2]]; simpl.
  - split; [constructor|tauto].
  - destruct (String.eqb_spec v y) as [->|Hvy]; [tauto|].
    split.
    + constructor; trivial. intros H. now apply in_remove in H.
    + simpl. intuition congruence.
Qed.

Lemma in_remove_iff (v x : string) (l : list string) :
  NoDup l -> (In x (Py.remove v l) <-> In x l /\ x <> v).
Proof.
  intros Hnd. split.
  - intros H. split; [now apply in_remove in H|].
    intros ->. now apply (remove_NoDup v l Hnd).
  - intros [H Hne]. now apply in_remove_other.
Qed.

Lemma remove_appended (v : string) (l : list string) :
  ~ In v l -> Py.remove v (l ++ [v]) = l.
Proof.
  induction l as [|y r IH]; simpl; intros H.
  - now rewrite String.eqb_refl.
  - destruct (String.eqb_spec v y) as [->|Hvy]; [tauto|].
    rewrite IH; tauto.
Qed.

Lemma next_values_NoDup (full l : list string) (token : string) :
  NoDup full -> NoDup l -> NoDup (next_values full l token).
Proof.
  intros Hf Hl. unfold next_values.
  destruct (String.eqb token Constants.NO_VALUES); [constructor|].
  destruct (String.eqb token Constants.ALL_VALUES); trivial.
  destruct (Py.contains _ l) eqn:E.
  - now apply remove_NoDup.
  - apply contains_false in E. apply NoDup_app; trivial.
    + constructor; [tauto|constructor].
    + intros x Hx [<-|[]]. contradiction.
Qed.

(** Reading and writing the fields by name. *)

Lemma selection_with_info (u : UserData) (c : ScheduleConfig) (key : string) :
  selection (with_info u c) key
  = match getattr c key with Some l => l | None => [] end.
Proof. reflexivity. Qed.

Lemma getattr_set_same (c : ScheduleConfig) (key : string) (v : list string) :
  In key button_keys -> getattr (set_selection c key v) key = Some v.
Proof. intros H. each_key H; reflexivity. Qed.

Lemma getattr_set_other (c : ScheduleConfig) (key other : string) (v : list string) :
  other <> key -> getattr (set_selection c key v) other = getattr c other.
Proof.
  intros Hne. unfold set_selection, setattr.
  repeat match goal with
         | |- context [String.eqb key ?k] =>
             destruct (String.eqb_spec key k) as [->|?];
             [unfold getattr; cbn [minute hour day month day_of_week];
              repeat match goal with
                     | |- context [String.eqb other ?k'] =>
                         destruct (String.eqb_spec other k') as [->|?];
                         [congruence || reflexivity|]
                     end; reflexivity|]
         end.
  reflexivity.
Qed.

Lemma selection_toggled_same (u : UserData) (key token : string) :
  In key button_keys ->
  selection (toggled u key token) key
  = next_values (full_domain key) (selection u key) token.
Proof.
  intros H. unfold toggled. now rewrite selection_with_info, getattr_set_same.
Qed.

Lemma selection_toggled_other (u : UserData) (key other token : string) :
  other <> key -> selection (toggled u key token) other = selection u other.
Proof.
  intros H. unfold toggled.
  now rewrite selection_with_info, getattr_set_other.
Qed.

Lemma action_key_is_button_key (part key : string) :
  Constants.lookup user_action_keys part = Some key ->
  In key button_keys /\ Py.contains part select_parts = true /\
  exists name, Constants.lookup input_strings part = Some name.
Proof.
  unfold user_action_keys. cbn [Constants.lookup].
  repeat match goal with
         | |- context [String.eqb part ?k] =>
             destruct (String.eqb_spec part k) as [->|?];
             [intros [= <-]; split; [simpl; tauto|split; [reflexivity|eexists; reflexivity]]|]
         end.
  discriminate.
Qed.

Lemma contains_select_parts (part : string) :
  Py.contains part select_parts = true ->
  exists key, Constants.lookup user_action_keys part = Some key.
Proof.
  rewrite contains_In. intros H.
  simpl in H. repeat (destruct H as [<-|H]; [eexists; reflexivity|]).
  contradiction.
Qed.

Lemma button_key_lookups (u : UserData) (key : string) :
  In key button_keys ->
  (exists pattern, Constants.lookup Constants._value_pattern_dict key = Some pattern) /\
  Constants.lookup Constants._full_range_dict key = Some (full_domain key) /\
  getattr (schedule_info u) key = Some (selection u key) /\
  forall v, setattr (schedule_info u) key v
            = Some (set_selection (schedule_info u) key v).
Proof.
  intros H. each_key H; (split; [eexists; reflexivity|]); repeat split.
Qed.

(** A token that the pattern of the edited dimension accepts is applied. *)
Lemma token_accepted (u : UserData) (part key token : string)
    (pattern : Re.regex) :
  selected_sched_part u = Some part ->
  Constants.lookup user_action_keys part = Some key ->
  Constants.lookup Constants._value_pattern_dict key = Some pattern ->
  Re.re_match pattern token = true ->
  session (set_sched_parameter_value u token) = toggled u key token.
Proof.
  intros Hpart Hkey Hpat Hmatch.
  destruct (action_key_is_button_key part key Hkey) as (Hbk & Hsel & name & Hname).
  destruct (button_key_lookups u key Hbk) as (_ & Hfull & Hget & Hset).
  unfold set_sched_parameter_value.
  rewrite Hpart, Hsel, Hkey, Hname, Hpat, Hfull, Hget, Hmatch, Hset.
  reflexivity.
Qed.

(** Any other token, or a token outside an edit, leaves the session as it
    is. *)
Lemma token_cases (u : UserData) (token : string) :
  session (set_sched_parameter_value u token) = u \/
  exists part key pattern,
    selected_sched_part u = Some part /\
    Constants.lookup user_action_keys part = Some key /\
    Constants.lookup Constants._value_pattern_dict key = Some pattern /\
    Re.re_match pattern token = true /\
    session (set_sched_parameter_value u token) = toggled u key token.
Proof.
  destruct (selected_sched_part u) as [part|] eqn:Hpart;
    [|left; unfold set_sched_parameter_value; now rewrite Hpart].
  destruct (Py.contains part select_parts) eqn:Hsel;
    [|left; unfold set_sched_parameter_value; now rewrite Hpart, Hsel].
  destruct (contains_select_parts part Hsel) as (key & Hkey).
  destruct (action_key_is_button_key part key Hkey) as (Hbk & _ & name & Hname).
  destruct (button_key_lookups u key Hbk) as ((pattern & Hpat) & Hfull & Hget & Hset).
  destruct (Re.re_match pattern token) eqn:Hmatch.
  - right. exists part, key, pattern. repeat split; trivial.
    now apply (token_accepted u part key token pattern).
  - left. unfold set_sched_parameter_value.
    now rewrite Hpart, Hsel, Hkey, Hname, Hpat, Hfull, Hget, Hmatch.
Qed.

(** ** C9 *)

(** Without the sentinels, [next_values] twice gives back the members. *)
Lemma next_values_twice (full l : list string) (token : string) :
  token <> Constants.ALL_VALUES -> token <> Constants.NO_VALUES ->
  NoDup l ->
  forall x, In x (next_values full (next_values full l token) token) <-> In x l.
Proof.
  intros Hall Hno Hnd x. unfold next_values.
  apply String.eqb_neq in Hall, Hno. rewrite Hall, Hno.
  set (value := strip_prefix token).
  destruct (Py.contains value l) eqn:E.
  - destruct (remove_NoDup value l Hnd) as [_ Hout].
    apply contains_false in Hout. rewrite Hout.
    rewrite in_app_iff, in_remove_iff by trivial. apply contains_In in E.
    simpl. destruct (string_dec x value) as [->|]; intuition congruence.
  - assert (Py.contains value (l ++ [value]) = true) as ->
      by (apply contains_In, in_app_iff; simpl; auto).
    apply contains_false in E. now rewrite remove_appended.
Qed.

Lemma selected_part_toggled (u : UserData) (key token : string) :
  selected_sched_part (toggled u key token) = selected_sched_part u.
Proof. reflexivity. Qed.

(** C9.  Toggle is its own inverse: whatever dimension is edited, sending
    the same ordinary (non-sentinel) token twice in succession leaves every
    selection with the members it had. *)
Theorem toggle_twice_restores (u : UserData) (token : string) :
  token <> Constants.ALL_VALUES -> token <> Constants.NO_VALUES ->
  duplicate_free u ->
  forall key x,
    In x (selection (run u [Token token; Token token]) key)
    <-> In x (selection u key).
Proof.
  intros Hall Hno Hnd key x. unfold run. cbn [fold_left handle].
  destruct (token_cases u token)
    as [Hsame|(part & k & pattern & Hpart & Hk & Hpat & Hmatch & Hstep)].
  - now rewrite Hsame, Hsame.
  - rewrite Hstep.
    rewrite (token_accepted (toggled u k token) part k token pattern) by trivial.
    destruct (action_key_is_button_key part k Hk) as (Hbk & _).
    destruct (string_dec key k) as [->|Hne].
    + rewrite !selection_toggled_same by trivial.
      now apply next_values_twice.
    + now rewrite !selection_toggled_other.
Qed.

Lemma toggle_twice_restores_witness :
  "May" <> Constants.ALL_VALUES /\ "May" <> Constants.NO_VALUES /\
  duplicate_free (ready_session scenario_1 "") /\
  (forall key x,
     In x (selection
             (run (with_part (ready_session scenario_1 "") Constants.MONTH_SELECT)
                [Token "May"; Token "May"]) key)
     <-> In x (selection
                 (with_part (ready_session scenario_1 "") Constants.MONTH_SELECT) key)).
Proof.
  assert (duplicate_free (ready_session scenario_1 "")) as Hnd.
  { intros key. unfold selection, getattr. simpl.
    repeat match goal with
           | |- context [if ?b then _ else _] => destruct b
           end; apply nodupb_NoDup; reflexivity. }
  split; [discriminate|]. split; [discriminate|]. split; [exact Hnd|].
  apply (toggle_twice_restores
           (with_part (ready_session scenario_1 "") Constants.MONTH_SELECT) "May").
  - discriminate.
  - discriminate.
  - exact Hnd.
Defined.

(** ** What the allow-list patterns accept *)

Lemma drop_prefix_app (p : string) : forall s r,
  Re.drop_prefix p s = Some r -> s = p ++ r.
Proof.
  induction p as [|a p IH]; intros [|b s] r; simpl; try congruence.
  destruct (Ascii.eqb_spec a b) as [->|]; [|discriminate].
  intros H. now rewrite (IH s r H).
Qed.

Lemma length_append (s t : string) :
  String.length (s ++ t) = (String.length s + String.length t)%nat.
Proof. induction s; simpl; congruence. Qed.

Lemma in_class_word (lo hi c : ascii) :
  Re.in_class lo hi c = true ->
  In (String c EmptyString) (words (Re.Class lo hi)).
Proof.
  unfold Re.in_class. rewrite andb_true_iff, !Nat.leb_le. intros [H1 H2].
  cbn [words]. apply in_map_iff. exists (nat_of_ascii c).
  split; [now rewrite ascii_nat_embedding|]. apply in_seq. lia.
Qed.

(** Whenever the matcher succeeds, the input starts with one of the words of
    the pattern and the continuation accepted what follows it. *)
Lemma matches_words (r : Re.regex) : forall pos s k,
  Re.matches r pos s k = true ->
  exists p s', In p (words r) /\ s = p ++ s' /\
               k (pos + String.length p)%nat s' = true.
Proof.
  induction r as [p|lo hi|r1 IH1 r2 IH2|r1 IH1 r2 IH2|r1 IH1| |];
    intros pos s k; cbn [Re.matches words].
  - destruct (Re.drop_prefix p s) as [s'|] eqn:E; [|discriminate].
    intros H. exists p, s'. split; [now left|]. split; trivial.
    now apply drop_prefix_app.
  - destruct s as [|c s']; [discriminate|].
    destruct (Re.in_class lo hi c) eqn:E; [|discriminate].
    intros H. exists (String c EmptyString), s'.
    split; [now apply in_class_word|]. split; trivial.
    simpl. now rewrite Nat.add_1_r.
  - intros H. apply IH1 in H. destruct H as (p1 & s1 & Hp1 & -> & H).
    apply IH2 in H. destruct H as (p2 & s2 & Hp2 & -> & H).
    exists (p1 ++ p2), s2. split; [|split].
    + apply in_flat_map. exists p1. split; trivial. now apply in_map.
    + now rewrite append_assoc.
    + now rewrite length_append, Nat.add_assoc.
  - rewrite orb_true_iff. intros [H|H].
    + apply IH1 in H. destruct H as (p & s' & Hp & -> & H).
      exists p, s'. rewrite in_app_iff. auto.
    + apply IH2 in H. destruct H as (p & s' & Hp & -> & H).
      exists p, s'. rewrite in_app_iff. auto.
  - rewrite orb_true_iff. intros [H|H].
    + apply IH1 in H. destruct H as (p & s' & Hp & -> & H).
      exists p, s'. rewrite in_app_iff. auto.
    + exists EmptyString, s. rewrite in_app_iff, Nat.add_0_r. simpl. auto.
  - destruct (Nat.eqb pos 0); [|discriminate].
    intros H. exists EmptyString, s. rewrite Nat.add_0_r. simpl. auto.
  - destruct (Re.at_end s); [|discriminate].
    intros H. exists EmptyString, s. rewrite Nat.add_0_r. simpl. auto.
Qed.

Lemma at_end_cases (s : string) :
  Re.at_end s = true -> s = EmptyString \/ s = newline.
Proof.
  destruct s as [|c [|d r]]; simpl; auto; [|discriminate].
  destruct (Ascii.eqb_spec c "010"%char) as [->|]; [auto|discriminate].
Qed.

(** An anchored pattern accepts its words, and each of them followed by one
    newline, the case [$] lets through. *)
Lemma anchored_match (r : Re.regex) (s : string) :
  Re.re_match (Re.anchored r) s = true ->
  exists p, In p (words r) /\ (s = p \/ s = p ++ newline).
Proof.
  unfold Re.re_match, Re.anchored. cbn [Re.matches Nat.eqb].
  intros H. apply matches_words in H.
  destruct H as (p & s' & Hp & -> & H).
  exists p. split; trivial.
  destruct (Re.at_end s') eqn:E; [|discriminate].
  destruct (at_end_cases s' E) as [->| ->]; [left|now right].
  now rewrite append_empty_r.
Qed.

Lemma alternatives_match (r : Re.regex) : forall ws s,
  alternatives r = Some ws ->
  Re.re_match r s = true ->
  exists p, In p ws /\ (s = p \/ s = p ++ newline).
Proof.
  induction r as [p|lo hi|r1 IH1 r2 IH2|r1 IH1 r2 IH2|r1 IH1| |];
    intros ws s; cbn [alternatives]; try discriminate.
  - destruct r1; try discriminate. destruct r2; try discriminate.
    destruct r2_2; try discriminate.
    intros [= <-]. apply (anchored_match r2_1).
  - destruct (alternatives r1) as [x|]; [|discriminate].
    destruct (alternatives r2) as [y|]; [|discriminate].
    intros [= <-]. unfold Re.re_match. cbn [Re.matches].
    rewrite orb_true_iff. intros [H|H].
    + destruct (IH1 x s eq_refl H) as (p & Hp & Hs).
      exists p. rewrite in_app_iff. auto.
    + destruct (IH2 y s eq_refl H) as (p & Hp & Hs).
      exists p. rewrite in_app_iff. auto.
Qed.

(** The tokens each pattern accepts: the allowed ones, with or without a
    trailing newline. *)
Lemma pattern_accepts (key token : string) (pattern : Re.regex) :
  Constants.lookup Constants._value_pattern_dict key = Some pattern ->
  Re.re_match pattern token = true ->
  exists p, In p (allowed_tokens key) /\ (token = p \/ token = p ++ newline).
Proof.
  intros Hpat Hmatch. unfold allowed_tokens. rewrite Hpat.
  assert (exists ws, alternatives pattern = Some ws) as (ws & Hws).
  { revert Hpat. unfold Constants._value_pattern_dict. cbn [Constants.lookup].
    repeat match goal with
           | |- context [String.eqb key ?k] =>
               destruct (String.eqb key k);
               [intros [= <-]; eexists; vm_compute; reflexivity|]
           end.
    discriminate. }
  rewrite Hws. now apply (alternatives_match pattern).
Qed.

Example hour_tokens :
  allowed_tokens "hour"
  = ["-1"; "0"; "hour_0"; "hour_1"; "hour_2"; "hour_3"; "hour_4"; "hour_5";
     "hour_6"; "hour_7"; "hour_8"; "hour_9"; "hour_10"; "hour_11"; "hour_12";
     "hour_13"; "hour_14"; "hour_15"; "hour_16"; "hour_17"; "hour_18";
     "hour_19"; "hour_20"; "hour_21"; "hour_22"; "hour_23"].
Proof. vm_compute. reflexivity. Qed.

(** ** C3 *)

Lemma drop_prefix_same (p s : string) : Re.drop_prefix p (p ++ s) = Some s.
Proof.
  induction p as [|a p IH]; cbn [append Re.drop_prefix]; [now destruct s|].
  now rewrite Ascii.eqb_refl.
Qed.

(** The value of a token made of the prefix of the dimension and a label is
    that label. *)
Lemma value_of_prefixed (key label : string) :
  value_of key (token_prefix key ++ label) = label.
Proof. unfold value_of. now rewrite drop_prefix_same. Qed.

(** On a token that the pattern of a dimension accepts, the substitution
    [re.sub(r"^(hour_|minute_)", "", query_data)] takes off the prefix of
    that dimension and nothing else. *)
Lemma strip_prefix_value (key token : string) (pattern : Re.regex) :
  Constants.lookup Constants._value_pattern_dict key = Some pattern ->
  Re.re_match pattern token = true ->
  strip_prefix token = value_of key token.
Proof.
  intros Hpat Hmatch.
  destruct (pattern_accepts key token pattern Hpat Hmatch) as (p & Hp & Htok).
  assert (forallb (strips_to_value key) (allowed_tokens key) = true) as H.
  { revert Hpat. unfold Constants._value_pattern_dict. cbn [Constants.lookup].
    repeat match goal with
           | |- context [String.eqb key ?k] =>
               destruct (String.eqb_spec key k) as [->|?];
               [intros _; vm_compute; reflexivity|]
           end.
    discriminate. }
  rewrite forallb_forall in H. specialize (H p Hp).
  unfold strips_to_value in H. apply andb_true_iff in H.
  destruct H as [H1 H2]. apply String.eqb_eq in H1, H2.
  destruct Htok as [->| ->]; assumption.
Qed.

(** C3.  Toggle transition: while a dimension is edited, a token that its
    allow-list pattern accepts replaces the dimension's selection by the
    full domain if it is ["0"], empties it if it is ["-1"], and otherwise
    removes the value of the token, which is the token without the prefix
    of the dimension (["hour_7"] stands for ["7"], ["May"] for itself), if
    it was selected and adds it if it was not; the other dimensions keep
    their selections. *)
Theorem toggle_transition (u : UserData) (part key token : string)
    (pattern : Re.regex) :
  selected_sched_part u = Some part ->
  Constants.lookup user_action_keys part = Some key ->
  Constants.lookup Constants._value_pattern_dict key = Some pattern ->
  Re.re_match pattern token = true ->
  NoDup (selection u key) ->
  let u' := session (set_sched_parameter_value u token) in
  let value := value_of key token in
  (token = Constants.ALL_VALUES -> selection u' key = full_domain key) /\
  (token = Constants.NO_VALUES -> selection u' key = []) /\
  (token <> Constants.ALL_VALUES -> token <> Constants.NO_VALUES ->
   (In value (selection u key) ->
    forall x, In x (selection u' key) <-> In x (selection u key) /\ x <> value) /\
   (~ In value (selection u key) ->
    forall x, In x (selection u' key) <-> In x (selection u key) \/ x = value)) /\
  (forall other, other <> key -> selection u' other = selection u other).
Proof.
  intros Hpart Hkey Hpat Hmatch Hnd u' value. subst u'.
  rewrite (token_accepted u part key token pattern) by trivial.
  destruct (action_key_is_button_key part key Hkey) as (Hbk & _).
  rewrite selection_toggled_same by trivial.
  split; [|split; [|split]].
  - intros ->. reflexivity.
  - intros ->. reflexivity.
  - intros Hall Hno. unfold next_values.
    apply String.eqb_neq in Hall, Hno. rewrite Hall, Hno.
    rewrite (strip_prefix_value key token pattern Hpat Hmatch). fold value.
    split; intros Hin x.
    + apply contains_In in Hin. rewrite Hin. now apply in_remove_iff.
    + apply contains_false in Hin. rewrite Hin.
      rewrite in_app_iff. simpl. intuition congruence.
  - intros other Hne. now apply selection_toggled_other.
Qed.

Lemma toggle_transition_witness :
  let u := mkUserData (mkScheduleConfig [] ["3"; "7"] [] [] []) empty_entry
             (Some Constants.HOUR_SELECT) None in
  let u' := session (set_sched_parameter_value u "hour_7") in
  ("hour_7" = Constants.ALL_VALUES -> selection u' "hour" = full_domain "hour") /\
  ("hour_7" = Constants.NO_VALUES -> selection u' "hour" = []) /\
  ("hour_7" <> Constants.ALL_VALUES -> "hour_7" <> Constants.NO_VALUES ->
   (In "7" (selection u "hour") ->
    forall x, In x (selection u' "hour") <-> In x (selection u "hour") /\ x <> "7") /\
   (~ In "7" (selection u "hour") ->
    forall x, In x (selection u' "hour") <-> In x (selection u "hour") \/ x = "7")) /\
  (forall other, other <> "hour" -> selection u' other = selection u other).
Proof.
  apply (toggle_transition
           (mkUserData (mkScheduleConfig [] ["3"; "7"] [] [] []) empty_entry
              (Some Constants.HOUR_SELECT) None)
           Constants.HOUR_SELECT "hour" "hour_7" Constants._hours_re_pattern).
  - reflexivity.
  - reflexivity.
  - reflexivity.
  - reflexivity.
  - apply nodupb_NoDup. reflexivity.
Defined.

(** ** Invariants of the configuration *)

Lemma handle_schedule_info (u : UserData) (ev : event) :
  (exists token, ev = Token token) \/
  schedule_info (session (handle u ev)) = schedule_info u \/
  schedule_info (session (handle u ev)) = empty_config.
Proof.
  destruct ev as [q|q|w|w|w]; [right; left|left; eauto|right; left|right|right; left];
    cbn [handle].
  - unfold cron_parameters_dialog.
    destruct (Constants.lookup input_strings q); trivial.
    now destruct (negb _).
  - unfold display_schedule_menu.
    destruct (build_cron_string _ _); trivial.
    destruct (create_buttons _ _); trivial.
    destruct (config_is_complete _); cbn [negb];
      repeat match goal with
             | |- context [match ?x with _ => _ end] => destruct x
             end; reflexivity.
  - unfold add_schedule_record.
    repeat match goal with
           | |- context [match ?x with _ => _ end] => destruct x
           end; auto.
  - unfold set_for_play_now.
    repeat match goal with
           | |- context [match ?x with _ => _ end] => destruct x
           end; reflexivity.
Qed.

Lemma selection_by_info (u u' : UserData) (key : string) :
  schedule_info u' = schedule_info u -> selection u' key = selection u key.
Proof. unfold selection. now intros ->. Qed.

Lemma selection_empty_config (u : UserData) (key : string) :
  schedule_info u = empty_config -> selection u key = [].
Proof.
  unfold selection. intros ->. unfold getattr.
  repeat match goal with
         | |- context [if ?b then _ else _] => destruct b
         end; reflexivity.
Qed.

Lemma token_duplicate_free (u : UserData) (token : string) :
  duplicate_free u -> duplicate_free (session (set_sched_parameter_value u token)).
Proof.
  intros Hnd key.
  destruct (token_cases u token)
    as [->|(part & k & pattern & _ & Hk & _ & _ & ->)]; [apply Hnd|].
  destruct (action_key_is_button_key part k Hk) as (Hbk & _).
  destruct (string_dec key k) as [->|Hne].
  - rewrite selection_toggled_same by trivial.
    apply next_values_NoDup; [now apply full_domain_NoDup|apply Hnd].
  - rewrite selection_toggled_other by trivial. apply Hnd.
Qed.

Lemma handle_duplicate_free (u : UserData) (ev : event) :
  duplicate_free u -> duplicate_free (session (handle u ev)).
Proof.
  intros Hnd.
  destruct (handle_schedule_info u ev) as [(token & ->)|[H|H]].
  - now apply token_duplicate_free.
  - intros key. rewrite (selection_by_info u _ key H). apply Hnd.
  - intros key. rewrite (selection_empty_config _ key H). constructor.
Qed.

(** No sequence of callbacks ever puts a label twice into a selection. *)
Lemma run_duplicate_free (evs : list event) : forall u,
  duplicate_free u -> duplicate_free (run u evs).
Proof.
  induction evs as [|ev r IH]; intros u H; [exact H|].
  apply (IH (session (handle u ev))). now apply handle_duplicate_free.
Qed.

Lemma fresh_duplicate_free : duplicate_free fresh_session.
Proof.
  intros key. rewrite selection_empty_config by reflexivity. constructor.
Qed.

Lemma ends_with_newline_app (p : string) :
  ends_with_newline (p ++ newline) = true.
Proof.
  induction p as [|a p IH]; [reflexivity|].
  change (String a p ++ newline) with (String a (p ++ newline)).
  destruct (p ++ newline) eqn:E; [destruct p; discriminate|].
  cbn [ends_with_newline]. exact IH.
Qed.

Lemma allowed_tokens_in_domain (key p : string) :
  In key button_keys -> In p (allowed_tokens key) ->
  token_in_domain key p = true.
Proof.
  intros Hk.
  assert (forallb (token_in_domain key) (allowed_tokens key) = true) as H
    by (each_key Hk; vm_compute; reflexivity).
  rewrite forallb_forall in H. apply H.
Qed.

Lemma next_values_within (key token : string) (l : list string) :
  In key button_keys ->
  In token (allowed_tokens key) ->
  incl l (full_domain key) ->
  incl (next_values (full_domain key) l token) (full_domain key).
Proof.
  intros Hk Htok Hl. pose proof (allowed_tokens_in_domain key token Hk Htok) as H.
  unfold token_in_domain in H. unfold next_values.
  destruct (String.eqb token Constants.NO_VALUES); [intros x []|].
  destruct (String.eqb token Constants.ALL_VALUES); [apply incl_refl|].
  cbn [orb] in H. apply contains_In in H.
  destruct (Py.contains _ l).
  - intros x Hx. apply Hl. now apply in_remove in Hx.
  - apply incl_app; trivial. intros x [<-|[]]. exact H.
Qed.

Lemma token_within_domains (u : UserData) (token : string) :
  ends_with_newline token = false ->
  within_domains u ->
  within_domains (session (set_sched_parameter_value u token)).
Proof.
  intros Hclean Hin key Hkey.
  destruct (token_cases u token)
    as [->|(part & k & pattern & _ & Hk & Hpat & Hmatch & ->)]; [now apply Hin|].
  destruct (action_key_is_button_key part k Hk) as (Hbk & _).
  destruct (string_dec key k) as [->|Hne].
  - rewrite selection_toggled_same by trivial.
    destruct (pattern_accepts k token pattern Hpat Hmatch) as (p & Hp & [->| ->]).
    + apply next_values_within; auto.
    + now rewrite ends_with_newline_app in Hclean.
  - rewrite selection_toggled_other by trivial. now apply Hin.
Qed.

(** As long as no token ends in a newline, every selection stays within the
    domain of its dimension. *)
Lemma run_within_domains (evs : list event) : forall u,
  (forall token, In (Token token) evs -> ends_with_newline token = false) ->
  within_domains u -> within_domains (run u evs).
Proof.
  induction evs as [|ev r IH]; intros u Hclean H; [exact H|].
  apply (IH (session (handle u ev))); [intros; apply Hclean; now right|].
  destruct (handle_schedule_info u ev) as [(token & ->)|[E|E]].
  - apply token_within_domains; trivial. apply Hclean. now left.
  - intros key Hk. rewrite (selection_by_info u _ key E). now apply H.
  - intros key Hk. rewrite (selection_empty_config _ key E). intros x [].
Qed.

(** C4, as the code has it.  The pattern of the weekday grid lets
    ["Monday"] followed by a newline through, the toggle stores it, and the
    selection holds a label outside the weekday domain. *)
Theorem newline_token_leaves_domain :
  let token := "Monday" ++ newline in
  let u := run fresh_session [Select Constants.DAY_OF_WEEK_SELECT; Token token] in
  Re.re_match Constants._days_of_week_re_pattern token = true /\
  selection u "day_of_week" = [token] /\
  ~ In token (full_domain "day_of_week").
Proof.
  cbv zeta. split; [reflexivity|]. split; [reflexivity|].
  intros H. apply contains_In in H. discriminate.
Qed.

(** ** The hour pattern *)

Lemma hour_tokens_never_add_24 (p : string) :
  In p (allowed_tokens "hour") -> token_adds "24" p = false.
Proof.
  assert (forallb (fun p => negb (token_adds "24" p)) (allowed_tokens "hour") = true)
    as H by (vm_compute; reflexivity).
  rewrite forallb_forall in H. intros Hp. apply negb_true_iff. now apply H.
Qed.

(** Only the ALL_VALUES sentinel brings ["24"] into the hour selection. *)
Lemma hour_24_only_by_all_values (u : UserData) (token : string) :
  token <> Constants.ALL_VALUES ->
  ~ In "24" (selection u "hour") ->
  ~ In "24" (selection (session (set_sched_parameter_value u token)) "hour").
Proof.
  intros Hall Hout.
  destruct (token_cases u token)
    as [->|(part & k & pattern & _ & Hk & Hpat & Hmatch & ->)]; trivial.
  destruct (action_key_is_button_key part k Hk) as (Hbk & _).
  destruct (string_dec "hour" k) as [<-|Hne];
    [|now rewrite selection_toggled_other].
  rewrite selection_toggled_same by trivial. unfold next_values.
  destruct (String.eqb token Constants.NO_VALUES); [tauto|].
  apply String.eqb_neq in Hall. rewrite Hall.
  destruct (Py.contains _ _).
  - intros H. now apply in_remove in H.
  - rewrite in_app_iff. intros [H|[H|[]]]; [tauto|].
    destruct (pattern_accepts "hour" token pattern Hpat Hmatch) as (p & Hp & Htok).
    pose proof (hour_tokens_never_add_24 p Hp) as Hno.
    unfold token_adds in Hno. apply orb_false_iff in Hno.
    destruct Hno as [H1 H2]. apply String.eqb_neq in H1, H2.
    destruct Htok as [->| ->]; congruence.
Qed.

(** C10, as the code has it.  Besides the sentinels and [hour_0] to
    [hour_23] the hour pattern accepts each of them followed by a newline:
    [hour_5] with a trailing newline matches and is toggled in. *)
Theorem hour_pattern_accepts_newline :
  let token := "hour_5" ++ newline in
  let u := run fresh_session [Select Constants.HOUR_SELECT; Token token] in
  Re.re_match Constants._hours_re_pattern token = true /\
  selection u "hour" = ["5" ++ newline].
Proof. cbv zeta. split; reflexivity. Qed.

(** ** The commit handlers *)

(** When the service rejects or cannot be reached, [add_schedule_record]
    reports it and leaves the session as it was. *)
Lemma add_schedule_record_failure (w : World) (u : UserData) (path : string) :
  entry_is_complete (schedule_entry u) = true ->
  sound_file_path (schedule_entry u) = Some path ->
  create_cron_schedule w
    (mkPayload (device_id (schedule_entry u)) (user_id (schedule_entry u))
       (cron_string (schedule_entry u)) path) = false ->
  add_schedule_record w u
  = mkOutcome (Ok (Some Constants.SCHEDULE_PLAY_MENU)) u
      [mkPayload (device_id (schedule_entry u)) (user_id (schedule_entry u))
         (cron_string (schedule_entry u)) path]
      [mkMessage "Failed to add schedule" NoMarkup].
Proof.
  intros Hc Hp Hf. unfold add_schedule_record. now rewrite Hc, Hp, Hf.
Qed.

(** In the immediate play a missing sound file is reported and the handler
    goes on all the same: the request is posted with the sentinel cron
    string, and the outcome is that of a present file. *)
Lemma play_now_goes_on_without_file
    (w : World) (u : UserData) (path : string) :
  sound_file_path (schedule_entry u) = Some path ->
  path <> EmptyString ->
  path_exists w path = false ->
  let entry := schedule_entry u in
  let p := mkPayload (device_id entry) (user_id entry) IMMEDIATE path in
  let o := set_for_play_now w u in
  posted o = [p] /\
  In (mkMessage "Sound file does not exist" NoMarkup) (shown o) /\
  (create_cron_schedule w p = true -> selected_device_name u <> None ->
   returned o = Ok (Some Constants.RECORD_OR_UPLOAD_SOUND_MENU)) /\
  (create_cron_schedule w p = false ->
   cron_string (schedule_entry (session o)) = IMMEDIATE).
Proof.
  intros Hp Hne Hmiss entry p o. subst o p entry.
  unfold set_for_play_now. rewrite Hp.
  assert (str_is_set path = true) as ->
    by (unfold str_is_set; now destruct (String.eqb_spec path "")).
  rewrite Hmiss. cbn [negb with_cron device_id user_id cron_string].
  destruct (create_cron_schedule w _) eqn:Hc.
  - destruct (selected_device_name u) as [name|];
      cbn [posted shown returned session];
      (split; [reflexivity|]);
      (split; [destruct (_ || _)%bool; simpl; auto using in_or_app, in_eq|]);
      (split; [intros _ H; trivial; now elim H|discriminate]).
  - cbn [posted shown returned session].
    split; [reflexivity|].
    split; [destruct (_ || _)%bool; simpl; auto|].
    split; [discriminate|reflexivity].
Qed.

(** C6, as the code has it.  The sound file of the entry is missing and the
    immediate play is asked for.  The handler says so and still posts the
    request: when the service accepts, it answers as for a success; when the
    service fails, it ends the conversation with the entry's cron string
    overwritten by the sentinel. *)
Theorem missing_file_play_now_still_posts :
  let u := ready_session empty_config "" in
  let p := mkPayload 7 42 "0 0 0 0 0" "/shared/voice.mp3" in
  let accepted := set_for_play_now (world false (Replied true)) u in
  let failed := set_for_play_now (world false RequestFailed) u in
  posted accepted = [p] /\
  returned accepted = Ok (Some Constants.RECORD_OR_UPLOAD_SOUND_MENU) /\
  map msg_text (shown accepted)
  = ["Sound file does not exist"; play_now_text (world false (Replied true)) "Kitchen"] /\
  posted failed = [p] /\
  returned failed = Ok (Some Constants.END) /\
  map msg_text (shown failed)
  = ["Sound file does not exist"; "Failed to create immediate schedule"] /\
  cron_string (schedule_entry (session failed)) = "0 0 0 0 0".
Proof. cbv zeta. repeat split. Qed.

(** ** C7 *)

Lemma create_buttons_callbacks (info : ScheduleConfig)
    (triples : list (string * string * string)) : forall rows,
  create_buttons info triples = Ok rows ->
  forall row b, In row rows -> In b row ->
  In (callback_data b) (map snd triples).
Proof.
  induction triples as [|[[key label] callback] r IH]; cbn [create_buttons].
  - intros rows [= <-] row b [].
  - destruct (button_text info key label) as [t|]; cbn [bind]; [|discriminate].
    destruct (create_buttons info r) as [rows'|]; cbn [bind]; [|discriminate].
    intros rows [= <-] row b [<-|Hrow] Hb.
    + destruct Hb as [<-|[]]. now left.
    + right. now apply (IH rows' eq_refl row b).
Qed.

(** C7 as worded fails twice.  With the day of month never set and
    no cron string in the entry, the commit is refused in silence, nothing
    being reported.  And once the summary has shown a complete schedule and
    the day of month was cleared again, the configuration is incomplete, yet
    a commit callback posts the cron string the entry kept and resets the
    selections. *)
Lemma incomplete_config_commit_not_as_stated :
  let w := world true (Replied true) in
  let never_set :=
    ready_session
      (mkScheduleConfig ["0"] ["9"] [] (full_domain "month") ["Monday"]) "" in
  let cleared := run (ready_session empty_config "") (clear_day_after_summary w) in
  (config_is_complete (schedule_info never_set) = false /\
   returned (add_schedule_record w never_set) = Ok (Some Constants.END) /\
   shown (add_schedule_record w never_set) = []) /\
  (config_is_complete (schedule_info cleared) = false /\
   day (schedule_info cleared) = [] /\
   posted (add_schedule_record w cleared)
   = [mkPayload 7 42 "0 9 * * *" "/shared/voice.mp3"] /\
   returned (add_schedule_record w cleared) = Ok (Some Constants.SCHEDULE_PLAY_MENU) /\
   schedule_info (session (add_schedule_record w cleared)) = empty_config).
Proof. vm_compute. repeat split. Qed.

(** Within its domain every selection, the empty one included, has a
    token. *)
Lemma token_within_domain (u : UserData) (key : string) :
  In key button_keys ->
  incl (selection u key) (full_domain key) ->
  exists t, bld_cron_token_schedule_info (schedule_info u) key = Ok t.
Proof.
  intros Hbk Hincl.
  destruct (button_key_lookups u key Hbk) as (_ & Hfull & Hget & _).
  destruct (method_is_comprehension key Hbk) as (method & Hm & Hcomp).
  destruct (comprehension_ok (codec_element key) (canonical key) (selection u key))
    as (numbers & Hnums & _);
    [intros x Hx; apply codec_on_domain; auto|].
  unfold bld_cron_token_schedule_info.
  rewrite Hget. cbn [bind or_raise]. rewrite Hfull. cbn [bind or_raise].
  destruct (list_eqb _ _); [eexists; reflexivity|].
  rewrite Hm. cbn [bind or_raise]. rewrite Hcomp, Hnums. cbn [bind].
  eexists; reflexivity.
Qed.

Lemma cron_loop_within_domains (u : UserData) (keys : list string) :
  within_domains u -> incl keys button_keys ->
  forall cron, exists cron', cron_loop (schedule_info u) keys cron = Ok cron'.
Proof.
  intros Hin. induction keys as [|key r IH]; intros Hkeys cron; cbn [cron_loop].
  - eexists; reflexivity.
  - assert (In key button_keys) as Hbk by (apply Hkeys; now left).
    destruct (token_within_domain u key Hbk (Hin key Hbk)) as (t & ->).
    cbn [bind]. apply IH. intros k Hk. apply Hkeys. now right.
Qed.

Lemma button_text_within_domain (u : UserData) (key label : string) :
  In key button_keys ->
  incl (selection u key) (full_domain key) ->
  exists t, button_text (schedule_info u) key label = Ok t.
Proof.
  intros Hbk Hincl.
  destruct (button_key_lookups u key Hbk) as (_ & Hfull & Hget & _).
  destruct (token_within_domain u key Hbk Hincl) as (token & Htoken).
  unfold button_text. rewrite Hget. cbn [bind or_raise].
  destruct (selection u key) as [|v [|v' r]]; cbn [bind];
    [eexists; reflexivity|eexists; reflexivity|].
  rewrite Hfull. cbn [bind or_raise].
  destruct (list_eqb _ _); cbn [bind]; [eexists; reflexivity|].
  rewrite Htoken. cbn [bind]. eexists; reflexivity.
Qed.

Lemma create_buttons_within_domains (u : UserData)
    (triples : list (string * string * string)) :
  within_domains u ->
  (forall key label callback, In (key, label, callback) triples -> In key button_keys) ->
  exists rows, create_buttons (schedule_info u) triples = Ok rows.
Proof.
  intros Hin. induction triples as [|[[key label] callback] r IH]; intros Hkeys;
    cbn [create_buttons].
  - eexists; reflexivity.
  - assert (In key button_keys) as Hbk by (apply (Hkeys key label callback); now left).
    destruct (button_text_within_domain u key label Hbk (Hin key Hbk)) as (t & ->).
    cbn [bind].
    destruct IH as (rows & ->); [intros k l c H; apply (Hkeys k l c); now right|].
    cbn [bind]. eexists; reflexivity.
Qed.

(** C7, amended.  A commit is refused, with no request posted, nothing
    shown and the session unchanged, whenever the schedule entry is
    incomplete.  Whenever the configuration is incomplete the summary view
    posts nothing and leaves the session (the entry's cron string included)
    unchanged; it reports "Scheduler settings incomplete" on a keyboard
    without the commit button, and does so in every case where the
    selections lie within their domains; outside them it may instead leave
    by an exception, nothing shown. *)
Theorem incomplete_commit_refused (w : World) (u : UserData) :
  (entry_is_complete (schedule_entry u) = false ->
   add_schedule_record w u = mkOutcome (Ok (Some Constants.END)) u [] []) /\
  (config_is_complete (schedule_info u) = false ->
   let o := display_schedule_menu w u in
   session o = u /\ posted o = [] /\
   ((exists e, returned o = Raise e /\ shown o = []) \/ reports_incomplete o) /\
   (within_domains u -> reports_incomplete o)).
Proof.
  split.
  - intros H. unfold add_schedule_record. now rewrite H.
  - intros H.
    assert (forall cron keyboard,
              build_cron_string (schedule_info u) button_keys = Ok cron ->
              create_buttons (schedule_info u)
                (combine (combine button_keys button_labels) button_callbacks)
              = Ok keyboard ->
              reports_incomplete (display_schedule_menu w u)) as Hreport.
    { intros cron keyboard Hc Hk. unfold display_schedule_menu.
      rewrite Hc, Hk, H. cbn [negb andb or_raise].
      eexists. cbn [shown returned]. split; [reflexivity|].
      split; [reflexivity|]. split; [reflexivity|].
      cbn [reply_markup offers_commit app].
      intros (row & b & Hrow & Hb & Hcb).
      apply in_app_iff in Hrow. destruct Hrow as [Hrow|[<-|[]]].
      + pose proof (create_buttons_callbacks _ _ _ Hk row b Hrow Hb) as Hin.
        rewrite Hcb in Hin. vm_compute in Hin.
        repeat (destruct Hin as [Hin|Hin]; [discriminate|]). contradiction.
      + destruct Hb as [<-|[<-|[]]]; discriminate. }
    cbv zeta. split; [|split; [|split]].
    + unfold display_schedule_menu.
      destruct (build_cron_string _ _); [|reflexivity].
      destruct (create_buttons _ _); [|reflexivity].
      now rewrite H.
    + unfold display_schedule_menu.
      destruct (build_cron_string _ _); [|reflexivity].
      destruct (create_buttons _ _); [|reflexivity].
      now rewrite H.
    + destruct (build_cron_string (schedule_info u) button_keys) as [cron|e] eqn:Hc;
        [|left; exists e; unfold display_schedule_menu; now rewrite Hc].
      destruct (create_buttons (schedule_info u)
                  (combine (combine button_keys button_labels) button_callbacks))
        as [keyboard|e] eqn:Hk;
        [|left; exists e; unfold display_schedule_menu; now rewrite Hc, Hk].
      right. now apply (Hreport cron keyboard).
    + intros Hin.
      destruct (cron_loop_within_domains u button_keys Hin (incl_refl _) "")
        as (cron & Hloop).
      destruct (create_buttons_within_domains u
                  (combine (combine button_keys button_labels) button_callbacks) Hin)
        as (keyboard & Hk).
      { intros key label callback Hmem. apply in_combine_l in Hmem.
        now apply in_combine_l in Hmem. }
      apply (Hreport (Py.rstrip " " cron) keyboard); trivial.
      unfold build_cron_string. now rewrite Hloop.
Qed.

Lemma incomplete_commit_refused_witness :
  let w := world true (Replied true) in
  let u := ready_session
             (mkScheduleConfig ["0"] ["9"] [] (full_domain "month") ["Monday"]) "" in
  let o := display_schedule_menu w u in
  add_schedule_record w u = mkOutcome (Ok (Some Constants.END)) u [] [] /\
  session o = u /\ posted o = [] /\ reports_incomplete o.
Proof.
  intros w u o.
  assert (within_domains u) as Hin.
  { intros key Hk. each_key Hk; apply incl_by_contains; reflexivity. }
  destruct (incomplete_commit_refused w u) as [H1 H2].
  split; [apply H1; reflexivity|].
  destruct (H2 eq_refl) as (Hs & Hp & _ & Hr).
  split; [exact Hs|]. split; [exact Hp|]. exact (Hr Hin).
Defined.

Example summary_reports_incomplete :
  let u := ready_session
             (mkScheduleConfig ["0"] ["9"] [] (full_domain "month") ["Monday"]) "" in
  map msg_text (shown (display_schedule_menu (world true (Replied true)) u))
  = ["Scheduler settings incomplete"].
Proof. vm_compute. reflexivity. Qed.

(** ** C8 *)

(** C8.  Immediate play: whatever the selections are, the handler writes
    the sentinel ["0 0 0 0 0"] into the entry and posts it with the device,
    the user and the sound file of the entry; the selections have no part
    in the outcome.  When the service fails the entry is left with the
    sentinel.  When the service accepts and the device name is known, the
    handler confirms, returns to the sound menu, and the entry keeps its
    device, its user and its sound file, with only the cron string reset to
    the empty string; the configuration is as it was. *)
Theorem immediate_play_frame (w : World) (u : UserData) (path : string) :
  sound_file_path (schedule_entry u) = Some path ->
  path <> EmptyString ->
  let entry := schedule_entry u in
  let p := mkPayload (device_id entry) (user_id entry) "0 0 0 0 0" path in
  let o := set_for_play_now w u in
  posted o = [p] /\
  (create_cron_schedule w p = false ->
   session o
   = with_entry u
       (mkScheduleEntry (device_id entry) (user_id entry) "0 0 0 0 0" (Some path)) /\
   (returned o = Ok None \/ returned o = Ok (Some Constants.END))) /\
  (create_cron_schedule w p = true ->
   forall name, selected_device_name u = Some name ->
   returned o = Ok (Some Constants.RECORD_OR_UPLOAD_SOUND_MENU) /\
   session o
   = with_entry u (mkScheduleEntry (device_id entry) (user_id entry) "" (Some path)) /\
   exists before,
     shown o = (before ++ [mkMessage (play_now_text w name)
                             (Rows get_sound_menu_keyboard)])%list) /\
  (forall info,
     let o' := set_for_play_now w (with_info u info) in
     returned o' = returned o /\ posted o' = posted o /\ shown o' = shown o /\
     session o' = with_info (session o) info).
Proof.
  intros Hp Hne entry p o. subst o p entry.
  unfold set_for_play_now, IMMEDIATE.
  cbn [with_info schedule_entry selected_device_name].
  rewrite Hp.
  assert (str_is_set path = true) as ->
    by (unfold str_is_set; now destruct (String.eqb_spec path "")).
  cbn [negb with_cron device_id user_id cron_string sound_file_path].
  destruct (create_cron_schedule w _) eqn:Hc.
  - destruct (selected_device_name u) as [name|] eqn:Hname;
      cbn [posted shown returned session];
      (split; [reflexivity|split; [intros H; discriminate H|split; [|repeat split]]]).
    + intros _ name' [= <-]. split; [reflexivity|]. split.
      * unfold with_entry, with_cron.
        cbn [device_id user_id sound_file_path]. now rewrite Hp.
      * eexists. reflexivity.
    + intros _ name' H. discriminate H.
  - cbn [posted shown returned session].
    split; [reflexivity|split; [|split; [intros H; discriminate H|repeat split]]].
    intros _. split.
    + unfold with_entry, with_cron.
      cbn [device_id user_id sound_file_path]. now rewrite Hp.
    + destruct (_ || _)%bool; [now right|].
      destruct (negb (path_exists w path)); [now right|now left].
Qed.

Lemma immediate_play_frame_witness :
  let u := ready_session scenario_1 "0,30 9 * * 1-5" in
  let accepted := set_for_play_now (world true (Replied true)) u in
  let failed := set_for_play_now (world true RequestFailed) u in
  posted accepted = [mkPayload 7 42 "0 0 0 0 0" "/shared/voice.mp3"] /\
  returned accepted = Ok (Some Constants.RECORD_OR_UPLOAD_SOUND_MENU) /\
  session accepted
  = with_entry u (mkScheduleEntry 7 42 "" (Some "/shared/voice.mp3")) /\
  posted failed = [mkPayload 7 42 "0 0 0 0 0" "/shared/voice.mp3"] /\
  session failed
  = with_entry u (mkScheduleEntry 7 42 "0 0 0 0 0" (Some "/shared/voice.mp3")).
Proof.
  intros u accepted failed.
  destruct (immediate_play_frame (world true (Replied true)) u "/shared/voice.mp3")
    as (Hposted & _ & Hok & _); [reflexivity|discriminate|].
  destruct (Hok eq_refl "Kitchen" eq_refl) as (Hret & Hsession & _).
  destruct (immediate_play_frame (world true RequestFailed) u "/shared/voice.mp3")
    as (Hposted' & Hfail & _); [reflexivity|discriminate|].
  destruct (Hfail eq_refl) as (Hsession' & _).
  repeat split; assumption.
Defined.

Example immediate_play_succeeds :
  let o := set_for_play_now (world true (Replied true))
             (ready_session scenario_1 "0,30 9 * * 1-5") in
  returned o = Ok (Some Constants.RECORD_OR_UPLOAD_SOUND_MENU) /\
  schedule_entry (session o) = mkScheduleEntry 7 42 "" (Some "/shared/voice.mp3") /\
  schedule_info (session o) = scenario_1.
Proof. repeat split. Qed.


(** * Further properties *)

(** ** The compressor: maximal runs *)







(** ** The codec: order, errors, decoding *)

Lemma comprehension_raises {A B : Type} (f : A -> result B) (l : list A) (e : exn) :
  comprehension f l = Raise e -> exists x, In x l /\ f x = Raise e.
Proof.
  induction l as [|x r IH]; simpl; [discriminate|].
  destruct (f x) as [y|e'] eqn:E; simpl.
  - destruct (comprehension f r) as [ys|e'']; simpl; [discriminate|].
    intros [= <-]. destruct (IH eq_refl) as (z & Hz & Hf). eauto.
  - intros [= <-]. eauto.
Qed.

Lemma comprehension_all_ok {A B : Type} (f : A -> result B) (l : list A) (ys : list B) :
  comprehension f l = Ok ys -> Forall2 (fun x y => f x = Ok y) l ys.
Proof.
  revert ys. induction l as [|x r IH]; simpl; intros ys.
  - intros [= <-]. constructor.
  - destruct (f x) as [y|] eqn:E; simpl; [|discriminate].
    destruct (comprehension f r) as [zs|]; simpl; [|discriminate].
    intros [= <-]. constructor; auto.
Qed.

Lemma codec_element_error (key label : string) (e : exn) :
  codec_element key label = Raise e -> e = ValueError.
Proof.
  unfold codec_element.
  destruct (String.eqb key "month"); [|destruct (String.eqb key "day_of_week")].
  - destruct (Py.index _ _); simpl; congruence.
  - destruct (Py.index _ _); simpl; congruence.
  - destruct (Py.int label); simpl; congruence.
Qed.

Lemma comprehension_perm_eq (key : string) (l l' : list string) :
  Permutation l l' ->
  match comprehension (codec_element key) l,
        comprehension (codec_element key) l' with
  | Ok ys, Ok ys' => Permutation ys ys'
  | Raise e, Raise e' => e = e'
  | _, _ => False
  end.
Proof.
  intros Hp.
  destruct (comprehension (codec_element key) l) as [ys|e] eqn:E.
  - destruct (comprehension_perm _ _ _ Hp _ E) as (ys' & -> & H). exact H.
  - destruct (comprehension (codec_element key) l') as [ys'|e'] eqn:E'.
    + symmetry in Hp.
      destruct (comprehension_perm _ _ _ Hp _ E') as (ys & E2 & _). congruence.
    + apply comprehension_raises in E, E'.
      destruct E as (x & _ & Hx), E' as (x' & _ & Hx').
      apply codec_element_error in Hx, Hx'. congruence.
Qed.

(** X2.  The cron token of a dimension, or the exception raised instead,
    depends on the selection only up to the order of its labels. *)
Theorem cron_token_order_irrelevant (info info' : ScheduleConfig)
    (key : string) (sel sel' : list string) :
  getattr info key = Some sel ->
  getattr info' key = Some sel' ->
  Permutation sel sel' ->
  bld_cron_token_schedule_info info key = bld_cron_token_schedule_info info' key.
Proof.
  intros Hg Hg' Hp. unfold bld_cron_token_schedule_info.
  rewrite Hg, Hg'. cbn [bind or_raise].
  destruct (Constants.lookup Constants._full_range_dict key) as [full|];
    cbn [bind or_raise]; trivial.
  rewrite (proj2 (sorted_eq_iff sel sel') Hp).
  destruct (list_eqb _ _); trivial.
  destruct (Constants.lookup bld_num_list_methods key) as [method|] eqn:Hm;
    cbn [bind or_raise]; trivial.
  rewrite !(lookup_method key method Hm).
  pose proof (comprehension_perm_eq key sel sel' Hp) as H.
  destruct (comprehension (codec_element key) sel) as [ys|e],
           (comprehension (codec_element key) sel') as [ys'|e'];
    cbn [bind]; try contradiction.
  - now rewrite (compress_perm _ _ H).
  - now subst.
Qed.

Lemma cron_token_order_irrelevant_witness :
  Permutation ["7"; "3"; "5"; "4"] ["3"; "4"; "5"; "7"] /\
  bld_cron_token_schedule_info (mkScheduleConfig [] ["7"; "3"; "5"; "4"] [] [] []) "hour"
  = bld_cron_token_schedule_info (mkScheduleConfig [] ["3"; "4"; "5"; "7"] [] [] []) "hour".
Proof.
  assert (Permutation ["7"; "3"; "5"; "4"] ["3"; "4"; "5"; "7"]) as Hp.
  { apply NoDup_Permutation; try (apply nodupb_NoDup; reflexivity).
    intros x. simpl. tauto. }
  split; [exact Hp|].
  apply (cron_token_order_irrelevant _ _ "hour" ["7"; "3"; "5"; "4"] ["3"; "4"; "5"; "7"]);
    [reflexivity|reflexivity|exact Hp].
Defined.


(** ** Decoding what [str] prints *)

Lemma digits_uint (d : Decimal.uint) : forall acc,
  Py.digits (NilEmpty.string_of_uint d) acc true
  = Some (acc * 10 ^ Z.of_N (Unsigned.usize d) + Z.of_N (Unsigned.of_lu (Decimal.rev d))).
Proof.
  induction d; intros acc;
    try (cbn [NilEmpty.string_of_uint Py.digits];
         change (Py.is_digit _) with true; cbn iota;
         rewrite IHd; f_equal;
         match goal with
         | |- context [Decimal.rev (?D d)] =>
             change (Decimal.rev (D d)) with (Decimal.revapp d (D Decimal.Nil));
             rewrite (Unsigned.of_lu_revapp d (D Decimal.Nil))
         end;
         cbn [Unsigned.usize Unsigned.of_lu];
         rewrite N2Z.inj_add, N2Z.inj_mul, N2Z.inj_pow, N2Z.inj_succ, Z.pow_succ_r
           by apply N2Z.is_nonneg;
         unfold Py.digit_val; simpl Z.of_N; simpl Z.of_nat; ring).
  simpl. f_equal. lia.
Qed.

Lemma digits_first (d : Decimal.uint) (acc : Z) :
  d <> Decimal.Nil ->
  Py.digits (NilEmpty.string_of_uint d) acc false
  = Py.digits (NilEmpty.string_of_uint d) acc true.
Proof. destruct d; try congruence; reflexivity. Qed.

Lemma lstrip_clean (s : string) : all_chars not_space s = true -> Py.lstrip s = s.
Proof.
  destruct s as [|c r]; simpl; trivial. unfold not_space at 1.
  rewrite andb_true_iff, negb_true_iff. now intros [-> _].
Qed.

Lemma rstrip_space_clean (s : string) :
  all_chars not_space s = true -> Py.rstrip_space s = s.
Proof.
  induction s as [|c r IH]; simpl; trivial. unfold not_space at 1.
  rewrite andb_true_iff, negb_true_iff. intros [Hc Hr].
  rewrite (IH Hr), Hc. now destruct r.
Qed.

Lemma digit_not_space (c : ascii) : Py.is_digit c = true -> not_space c = true.
Proof.
  destruct c as [[] [] [] [] [] [] [] []]; try discriminate; reflexivity.
Qed.

Lemma digit_below_127 (c : ascii) : Py.is_digit c = true -> below_127 c = true.
Proof.
  destruct c as [[] [] [] [] [] [] [] []]; try discriminate; reflexivity.
Qed.

(** The transformation leaves a string of characters below U+007F as it
    is. *)
Lemma transform_ascii (s : string) :
  all_chars below_127 s = true -> Py.decimal_and_space_to_ascii s = Some s.
Proof.
  induction s as [|c r IH]; [reflexivity|]. cbn [all_chars].
  rewrite andb_true_iff. unfold below_127 at 1. intros [Hc Hr].
  cbn [Py.decimal_and_space_to_ascii].
  assert ((N_of_ascii c <? 128)%N = true) as ->
    by (apply N.ltb_lt; apply N.ltb_lt in Hc; lia).
  rewrite (IH Hr). unfold Py.emit, Py.to_ascii.
  now rewrite Hc, ascii_N_embedding.
Qed.

Lemma int_unsigned (c : ascii) (r : string) :
  Py.is_digit c = true -> all_chars Py.is_digit r = true ->
  Py.int (String c r) = Py.int_digits (String c r).
Proof.
  intros Hc Hr. unfold Py.int.
  assert (all_chars Py.is_digit (String c r) = true) as Hd
    by (cbn [all_chars]; now rewrite Hc).
  rewrite (transform_ascii _ (all_chars_weaken _ _ _ digit_below_127 Hd)).
  pose proof (all_chars_weaken _ _ _ digit_not_space Hd) as Hclean.
  rewrite (lstrip_clean _ Hclean), (rstrip_space_clean _ Hclean).
  destruct c as [[] [] [] [] [] [] [] []]; try discriminate; reflexivity.
Qed.

Lemma int_negative (r : string) :
  all_chars Py.is_digit r = true ->
  Py.int (String "-" r) = option_map Z.opp (Py.int_digits r).
Proof.
  intros Hr. unfold Py.int.
  assert (all_chars below_127 (String "-" r) = true) as Hb.
  { cbn [all_chars]. rewrite (all_chars_weaken _ _ _ digit_below_127 Hr).
    reflexivity. }
  assert (all_chars not_space (String "-" r) = true) as Hclean.
  { cbn [all_chars]. rewrite (all_chars_weaken _ _ _ digit_not_space Hr).
    reflexivity. }
  now rewrite (transform_ascii _ Hb), (lstrip_clean _ Hclean),
    (rstrip_space_clean _ Hclean).
Qed.

Lemma digits_of_positive (p : positive) :
  Py.digits (NilEmpty.string_of_uint (Pos.to_uint p)) 0 false = Some (Z.pos p).
Proof.
  rewrite digits_first by apply Unsigned.to_uint_nonnil.
  rewrite digits_uint, <- Unsigned.of_uint_alt, Unsigned.of_to.
  reflexivity.
Qed.

Lemma string_of_uint_positive (p : positive) :
  NilZero.string_of_uint (Pos.to_uint p) = NilEmpty.string_of_uint (Pos.to_uint p).
Proof.
  pose proof (Unsigned.to_uint_nonnil p). unfold NilZero.string_of_uint.
  now destruct (Pos.to_uint p).
Qed.

(** *** The number of digits [str] prints *)

Lemma count_digits_uint (d : Decimal.uint) :
  Py.count_digits (NilEmpty.string_of_uint d) = Z.of_N (Unsigned.usize d).
Proof.
  induction d; cbn [NilEmpty.string_of_uint Py.count_digits Unsigned.usize];
    try (change (Py.is_digit _) with true; cbn iota; rewrite IHd, N2Z.inj_succ; lia).
  reflexivity.
Qed.

(** The decimal writing of a positive number does not begin with 0. *)
Lemma to_uint_no_leading_zero (p : positive) (d : Decimal.uint) :
  Pos.to_uint p <> Decimal.D0 d.
Proof.
  intros E.
  assert (Decimal.unorm (Pos.to_uint p) = Pos.to_uint p) as Hn.
  { rewrite <- Unsigned.to_of, Unsigned.of_to. reflexivity. }
  rewrite E, DecimalFacts.unorm_D0 in Hn.
  destruct (Decimal.uint_eq_dec d Decimal.Nil) as [->|Hne].
  - now apply (Unsigned.to_uint_nonzero p).
  - pose proof (DecimalFacts.nb_digits_unorm d Hne) as Hle.
    rewrite Hn in Hle. cbn [Decimal.nb_digits] in Hle. lia.
Qed.

(** After a first digit that is not 0, the digits read make a number of at
    least 10 to the power of how many follow. *)
Lemma digits_lower_bound (d : Decimal.uint) (acc v : Z) :
  1 <= acc ->
  Py.digits (NilEmpty.string_of_uint d) acc true = Some v ->
  10 ^ Z.of_N (Unsigned.usize d) <= v.
Proof.
  intros Hacc. rewrite digits_uint. intros [= <-].
  pose proof (N2Z.is_nonneg (Unsigned.usize d)) as Hu.
  pose proof (N2Z.is_nonneg (Unsigned.of_lu (Decimal.rev d))) as Hv.
  assert (0 < 10 ^ Z.of_N (Unsigned.usize d)) as Hpow
    by (apply Z.pow_pos_nonneg; lia).
  nia.
Qed.

(** A positive number below 10 to the power [k] is written with at most
    [k] digits. *)
Lemma usize_bound (p : positive) (k : Z) :
  0 <= k -> Z.pos p < 10 ^ k ->
  Z.of_N (Unsigned.usize (Pos.to_uint p)) <= k.
Proof.
  intros Hk Hlt. pose proof (digits_of_positive p) as Hv.
  pose proof (to_uint_no_leading_zero p) as Hz.
  pose proof (Unsigned.to_uint_nonnil p) as Hnil.
  destruct (Pos.to_uint p) as [|d|d|d|d|d|d|d|d|d|d] eqn:E;
    [congruence|now elim (Hz d)|..];
    cbn [NilEmpty.string_of_uint Py.digits] in Hv;
    change (Py.is_digit _) with true in Hv; cbn iota in Hv;
    apply digits_lower_bound in Hv; try (vm_compute; discriminate);
    cbn [Unsigned.usize]; rewrite N2Z.inj_succ;
    pose proof (N2Z.is_nonneg (Unsigned.usize d)) as Hu;
    (assert (10 ^ Z.of_N (Unsigned.usize d) < 10 ^ k) as Hpow
       by (eapply Z.le_lt_trans; eassumption));
    apply Z.pow_lt_mono_r_iff in Hpow; lia.
Qed.

(** [int] reads back every integer that [str] prints within the limit on
    digits. *)
Lemma int_str (n : Z) :
  Z.abs n < 10 ^ Py.int_max_str_digits -> Py.int (Py.str n) = Some n.
Proof.
  assert (0 <= Py.int_max_str_digits) as Hmax by (vm_compute; discriminate).
  destruct n as [|p|p]; [reflexivity| |]; intros Hlt; unfold Py.str; simpl Z.to_int;
    cbn [NilZero.string_of_int]; rewrite string_of_uint_positive;
    pose proof (usize_bound p _ Hmax Hlt) as Hsize;
    rewrite <- count_digits_uint in Hsize; apply Z.leb_le in Hsize.
  - pose proof (uint_digits (Pos.to_uint p)) as Hd.
    pose proof (digits_of_positive p) as Hv.
    destruct (uint_nonempty (Pos.to_uint p) (Unsigned.to_uint_nonnil p))
      as (c & r & E & Hc).
    rewrite E in *. cbn [all_chars] in Hd. rewrite Hc in Hd.
    rewrite int_unsigned by trivial. unfold Py.int_digits. now rewrite Hsize.
  - rewrite int_negative by apply uint_digits.
    unfold Py.int_digits. now rewrite Hsize, digits_of_positive.
Qed.

Lemma comprehension_map_ok {A B : Type} (f : A -> result B) (g : B -> A)
    (ys : list B) :
  (forall y, In y ys -> f (g y) = Ok y) -> comprehension f (map g ys) = Ok ys.
Proof.
  induction ys as [|y r IH]; intros H; simpl; trivial.
  rewrite (H y (or_introl eq_refl)), IH; [reflexivity|].
  intros z Hz. apply H. now right.
Qed.

(** X3.  The numeric codecs decode what [str] encodes: on the decimal
    labels of a list of integers that each have at most 4300 digits, the
    limit of [int], the minute, hour and day-of-month conversions return
    that list. *)
Theorem numeric_codecs_decode_str (numbers : list Z) :
  Forall (fun n => Z.abs n < 10 ^ Py.int_max_str_digits) numbers ->
  bld_num_list_minutes (map Py.str numbers) = Ok numbers /\
  bld_num_list_hours (map Py.str numbers) = Ok numbers /\
  bld_num_list_day_of_months (map Py.str numbers) = Ok numbers.
Proof.
  intros Hall. rewrite Forall_forall in Hall.
  repeat split; apply comprehension_map_ok; intros y Hy;
    now rewrite int_str by auto.
Qed.

Lemma numeric_codecs_decode_str_witness :
  bld_num_list_minutes (map Py.str [0; 59; -3; 1234567]) = Ok [0; 59; -3; 1234567] /\
  bld_num_list_hours (map Py.str [0; 59; -3; 1234567]) = Ok [0; 59; -3; 1234567] /\
  bld_num_list_day_of_months (map Py.str [0; 59; -3; 1234567])
  = Ok [0; 59; -3; 1234567].
Proof.
  apply (numeric_codecs_decode_str [0; 59; -3; 1234567]).
  repeat constructor; vm_compute; reflexivity.
Defined.

(** ** The name codecs *)

Lemma index_found (x : string) (l : list string) :
  In x l -> exists i, Py.index x l = Some i /\ nth_error l i = Some x.
Proof.
  induction l as [|y r IH]; [contradiction|]. intros Hin. simpl.
  destruct (String.eqb_spec x y) as [->|Hne].
  - exists O. auto.
  - destruct Hin as [->|Hin]; [congruence|].
    destruct (IH Hin) as (i & -> & Hi). exists (S i). auto.
Qed.

Lemma index_absent (x : string) (l : list string) :
  ~ In x l -> Py.index x l = None.
Proof.
  induction l as [|y r IH]; simpl; trivial. intros H.
  destruct (String.eqb_spec x y) as [->|Hne]; [tauto|].
  rewrite IH; tauto.
Qed.

Lemma comprehension_raise_at {A B : Type} (f : A -> result B) (l : list A)
    (e : exn) :
  (forall x e', f x = Raise e' -> e' = e) ->
  (exists x, In x l /\ exists e', f x = Raise e') ->
  comprehension f l = Raise e.
Proof.
  intros Hone (x & Hin & e' & Hx).
  destruct (comprehension f l) as [ys|e''] eqn:E.
  - apply comprehension_all_ok in E.
    assert (exists y, f x = Ok y) as (y & Hy); [|congruence].
    clear Hx. induction E as [|a b l ys Hab Hrest IH]; [contradiction|].
    destruct Hin as [->|Hin]; eauto.
  - apply comprehension_raises in E. destruct E as (z & _ & Hz).
    now rewrite (Hone z e'' Hz).
Qed.

(** X4.  The name codecs: when every label is a month name, the month
    conversion returns for each its position counted from 1; when every
    label is a weekday name, the weekday conversion returns its position
    counted from 0; and a label that is no such name makes either raise
    [ValueError]. *)
Theorem name_codecs (labels : list string) :
  ((forall m, In m labels -> In m Constants._month_names) ->
   exists numbers,
     bld_num_list_months labels = Ok numbers /\
     Forall2 (fun m n => 1 <= n <= 12 /\
                nth_error Constants._month_names (Z.to_nat (n - 1)) = Some m)
       labels numbers) /\
  ((exists m, In m labels /\ ~ In m Constants._month_names) ->
   bld_num_list_months labels = Raise ValueError) /\
  ((forall d, In d labels -> In d Constants._day_of_week_names) ->
   exists numbers,
     bld_num_list_day_of_week labels = Ok numbers /\
     Forall2 (fun d n => 0 <= n <= 6 /\
                nth_error Constants._day_of_week_names (Z.to_nat n) = Some d)
       labels numbers) /\
  ((exists d, In d labels /\ ~ In d Constants._day_of_week_names) ->
   bld_num_list_day_of_week labels = Raise ValueError).
Proof.
  split; [|split; [|split]].
  - intros Hall. apply comprehension_ok. intros m Hm.
    destruct (index_found m _ (Hall m Hm)) as (i & -> & Hi).
    exists (Z.of_nat i + 1). split; [reflexivity|].
    assert (i < List.length Constants._month_names)%nat as Hlt
      by (apply nth_error_Some; congruence).
    simpl in Hlt.
    replace (Z.to_nat (Z.of_nat i + 1 - 1)) with i by lia.
    split; [lia|trivial].
  - intros (m & Hm & Hout). apply comprehension_raise_at.
    + intros x e. destruct (Py.index x _); simpl; congruence.
    + exists m. split; trivial. rewrite (index_absent m _ Hout). simpl. eauto.
  - intros Hall. apply comprehension_ok. intros d Hd.
    destruct (index_found d _ (Hall d Hd)) as (i & -> & Hi).
    exists (Z.of_nat i). split; [reflexivity|].
    assert (i < List.length Constants._day_of_week_names)%nat as Hlt
      by (apply nth_error_Some; congruence).
    simpl in Hlt.
    rewrite Nat2Z.id. split; [lia|trivial].
  - intros (d & Hd & Hout). apply comprehension_raise_at.
    + intros x e. destruct (Py.index x _); simpl; congruence.
    + exists d. split; trivial. rewrite (index_absent d _ Hout). simpl. eauto.
Qed.

Lemma name_codecs_witness :
  (exists numbers,
     bld_num_list_months ["March"; "January"] = Ok numbers /\
     Forall2 (fun m n => 1 <= n <= 12 /\
                nth_error Constants._month_names (Z.to_nat (n - 1)) = Some m)
       ["March"; "January"] numbers) /\
  bld_num_list_day_of_week ["Monday"; "Mon"] = Raise ValueError.
Proof.
  destruct (name_codecs ["March"; "January"]) as (H1 & _).
  destruct (name_codecs ["Monday"; "Mon"]) as (_ & _ & _ & H4).
  split.
  - apply H1. intros m Hm. apply contains_In.
    simpl in Hm. repeat (destruct Hm as [<-|Hm]; [reflexivity|]). contradiction.
  - apply H4. exists "Mon". split; [simpl; auto|].
    intros H. apply contains_In in H. discriminate.
Defined.


(** ** The cron string *)

Lemma str_token_chars (n : Z) : all_chars token_char (Py.str n) = true.
Proof.
  destruct (str_shape n) as (c & r & -> & Hr & Hc). simpl.
  rewrite (all_chars_weaken Py.is_digit token_char r), andb_true_r; trivial.
  - unfold token_char. destruct Hc as [-> | Hc]; [reflexivity|now rewrite Hc].
  - intros a Ha. unfold token_char. now rewrite Ha.
Qed.

Lemma fmt_item_token_chars (it : item) : all_chars token_char (fmt_item it) = true.
Proof.
  destruct it; simpl; [apply str_token_chars|].
  rewrite all_chars_app. simpl. now rewrite !str_token_chars.
Qed.

Lemma token_of_token_chars (items : list item) :
  all_chars token_char (token_of items) = true.
Proof.
  induction items as [|it r IH]; [reflexivity|].
  rewrite token_of_cons. destruct r; [apply fmt_item_token_chars|].
  rewrite all_chars_app, fmt_item_token_chars.
  change ("," ++ token_of (i :: r)) with (String "," (token_of (i :: r))).
  cbn [all_chars]. now rewrite IH.
Qed.

Lemma token_char_no_space (s : string) :
  all_chars token_char s = true -> has_no_space s = true.
Proof.
  apply all_chars_weaken. intros c. unfold token_char, is_not.
  destruct (Ascii.eqb_spec c " "%char) as [->|]; [discriminate|reflexivity].
Qed.

(** The token of a non-empty selection within the domain: no exception, no
    space inside, not empty. *)
Lemma token_of_selection (info : ScheduleConfig) (key : string) (sel : list string) :
  In key button_keys ->
  getattr info key = Some sel ->
  sel <> [] ->
  incl sel (full_domain key) ->
  exists t, bld_cron_token_schedule_info info key = Ok t /\
            has_no_space t = true /\ t <> EmptyString.
Proof.
  intros Hkey Hget Hne Hincl.
  destruct (method_is_comprehension key Hkey) as (method & Hm & Hcomp).
  destruct (comprehension_ok (codec_element key) (canonical key) sel)
    as (numbers & Hnums & Hcan).
  { intros x Hx. apply codec_on_domain; auto. }
  unfold bld_cron_token_schedule_info.
  rewrite Hget, (lookup_full_range key Hkey), Hm. cbn [bind or_raise].
  destruct (list_eqb _ _); [exists "*"; repeat split; discriminate|].
  rewrite Hcomp, Hnums. cbn [bind]. eexists. split; [reflexivity|].
  assert (numbers <> []) as Hnne
    by (intros E; apply Hne; now apply (Forall2_nil_iff _ _ _ Hcan)).
  rewrite compress_token by trivial. split.
  - apply token_char_no_space, token_of_token_chars.
  - apply token_of_nonempty.
    destruct (Py.sort numbers) as [|y r] eqn:E.
    + now apply sort_nonempty in Hnne.
    + rewrite sequences_and_singles_scan. apply scan_nonempty.
Qed.

Lemma rstrip_space_after (s : string) :
  has_no_space s = true -> s <> EmptyString -> Py.rstrip " " (s ++ " ") = s.
Proof.
  intros Hs Hne. rewrite rstrip_clean by trivial.
  change (Py.rstrip " " " ") with EmptyString. apply append_empty_r.
Qed.

Lemma rstrip_field (t rest r : string) :
  has_no_space t = true -> t <> EmptyString ->
  Py.rstrip " " rest = r -> r <> EmptyString ->
  Py.rstrip " " (t ++ String " " rest) = t ++ String " " r.
Proof.
  intros Ht Hne <- Hr. rewrite rstrip_clean by trivial.
  now rewrite rstrip_cons.
Qed.

Lemma append_nonempty (t rest : string) : t <> EmptyString -> t ++ rest <> EmptyString.
Proof. destruct t; [congruence|discriminate]. Qed.

(** X5.  When every dimension has a non-empty selection within its domain,
    the cron string is made of exactly five fields, the tokens of minute,
    hour, day, month and day of week in this order, separated by single
    spaces, none of them empty or containing a space. *)
Theorem cron_string_has_five_fields (info : ScheduleConfig) :
  (forall key, In key button_keys ->
     exists sel, getattr info key = Some sel /\ sel <> [] /\
                 incl sel (full_domain key)) ->
  exists t1 t2 t3 t4 t5,
    build_cron_string info button_keys
    = Ok (t1 ++ " " ++ t2 ++ " " ++ t3 ++ " " ++ t4 ++ " " ++ t5) /\
    Forall2 (fun key t => bld_cron_token_schedule_info info key = Ok t /\
                          has_no_space t = true /\ t <> EmptyString)
      button_keys [t1; t2; t3; t4; t5] /\
    split_on " " (t1 ++ " " ++ t2 ++ " " ++ t3 ++ " " ++ t4 ++ " " ++ t5)
    = [t1; t2; t3; t4; t5].
Proof.
  intros Hall.
  assert (forall key, In key button_keys ->
            exists t, bld_cron_token_schedule_info info key = Ok t /\
                      has_no_space t = true /\ t <> EmptyString) as Htok.
  { intros key Hk. destruct (Hall key Hk) as (sel & Hg & Hne & Hin).
    now apply (token_of_selection info key sel). }
  destruct (Htok "minute") as (t1 & E1 & S1 & N1); [simpl; tauto|].
  destruct (Htok "hour") as (t2 & E2 & S2 & N2); [simpl; tauto|].
  destruct (Htok "day") as (t3 & E3 & S3 & N3); [simpl; tauto|].
  destruct (Htok "month") as (t4 & E4 & S4 & N4); [simpl; tauto|].
  destruct (Htok "day_of_week") as (t5 & E5 & S5 & N5); [simpl; tauto|].
  exists t1, t2, t3, t4, t5. split; [|split].
  - unfold build_cron_string, button_keys. cbn [cron_loop].
    rewrite E1, E2, E3, E4, E5. cbn [bind]. f_equal.
    rewrite !append_assoc. cbn [append].
    pose proof (rstrip_space_after t5 S5 N5) as R5.
    pose proof (rstrip_field t4 _ _ S4 N4 R5 N5) as R4.
    pose proof (rstrip_field t3 _ _ S3 N3 R4 (append_nonempty t4 _ N4)) as R3.
    pose proof (rstrip_field t2 _ _ S2 N2 R3 (append_nonempty t3 _ N3)) as R2.
    exact (rstrip_field t1 _ _ S1 N1 R2 (append_nonempty t2 _ N2)).
  - repeat constructor; trivial.
  - unfold has_no_space in *.
    repeat (change (" " ++ ?x) with (String " " x);
            rewrite split_on_app by trivial).
    now rewrite split_on_clean.
Qed.

Lemma cron_string_has_five_fields_witness :
  exists t1 t2 t3 t4 t5,
    build_cron_string scenario_1 button_keys
    = Ok (t1 ++ " " ++ t2 ++ " " ++ t3 ++ " " ++ t4 ++ " " ++ t5) /\
    Forall2 (fun key t => bld_cron_token_schedule_info scenario_1 key = Ok t /\
                          has_no_space t = true /\ t <> EmptyString)
      button_keys [t1; t2; t3; t4; t5] /\
    split_on " " (t1 ++ " " ++ t2 ++ " " ++ t3 ++ " " ++ t4 ++ " " ++ t5)
    = [t1; t2; t3; t4; t5].
Proof.
  apply (cron_string_has_five_fields scenario_1).
  intros key Hk. each_key Hk; eexists; (split; [reflexivity|]);
    (split; [discriminate|]); apply incl_by_contains; reflexivity.
Defined.


(** ** The toggle state machine *)

(** X6.  From a session whose configuration is empty, no sequence of
    callbacks ever brings a label twice into a selection. *)
Theorem selections_never_hold_duplicates
    (entry : ScheduleEntry) (part name : option string) (evs : list event)
    (key : string) :
  NoDup (selection (run (mkUserData empty_config entry part name) evs) key).
Proof.
  apply run_duplicate_free. intros k.
  rewrite selection_empty_config by reflexivity. constructor.
Qed.

(** X7.  From a session whose configuration is empty, as long as no token
    ends in a newline, every selection holds labels of the domain of its
    dimension only. *)
Theorem selections_stay_in_domain
    (entry : ScheduleEntry) (part name : option string) (evs : list event)
    (key : string) :
  (forall token, In (Token token) evs -> ends_with_newline token = false) ->
  In key button_keys ->
  incl (selection (run (mkUserData empty_config entry part name) evs) key)
    (full_domain key).
Proof.
  intros Hclean Hkey. apply run_within_domains; trivial.
  intros k _. rewrite selection_empty_config by reflexivity. intros x [].
Qed.

Lemma selections_stay_in_domain_witness :
  incl (selection
          (run (ready_session empty_config "")
             [Select Constants.HOUR_SELECT; Token "hour_7"; Token "Monday";
              Token "hour_24"; Token "0"; Token "hour_3"]) "hour")
    (full_domain "hour").
Proof.
  apply (selections_stay_in_domain
           (mkScheduleEntry 7 42 "" (Some "/shared/voice.mp3")) None (Some "Kitchen")).
  - intros token Hin. simpl in Hin.
    repeat (destruct Hin as [Hin|Hin]; [try discriminate; injection Hin as <-; reflexivity|]).
    contradiction.
  - simpl. tauto.
Defined.

Lemma expected_tokens_match (key p : string) (pattern : Re.regex) :
  Constants.lookup Constants._value_pattern_dict key = Some pattern ->
  In p (expected_tokens key) ->
  Re.re_match pattern p = true /\ Re.re_match pattern (p ++ newline) = true.
Proof.
  intros Hpat Hp.
  assert (forallb (matches_both pattern) (expected_tokens key) = true) as H.
  { revert Hpat. unfold Constants._value_pattern_dict. cbn [Constants.lookup].
    repeat match goal with
           | |- context [String.eqb key ?k] =>
               destruct (String.eqb_spec key k) as [->|?];
               [intros [= <-]; vm_compute; reflexivity|]
           end.
    discriminate. }
  rewrite forallb_forall in H. specialize (H p Hp).
  unfold matches_both in H. now apply andb_true_iff in H.
Qed.

Lemma allowed_are_expected (key p : string) :
  In p (allowed_tokens key) -> In p (expected_tokens key).
Proof.
  intros Hp.
  assert (forallb (fun p => Py.contains p (expected_tokens key)) (allowed_tokens key) = true)
    as H.
  { unfold allowed_tokens in *. unfold Constants._value_pattern_dict in *.
    cbn [Constants.lookup] in *.
    repeat match goal with
           | |- context [String.eqb key ?k] =>
               destruct (String.eqb_spec key k) as [->|?];
               [vm_compute; reflexivity|]
           end.
    reflexivity. }
  rewrite forallb_forall in H. now apply contains_In, H.
Qed.

(** X8.  What each allow-list pattern accepts: the two sentinels and the
    labels of the dimension behind its prefix (for the hours 0 to 23, not
    24), each of them as it is or followed by one newline, and nothing
    else. *)
Theorem pattern_language (key token : string) (pattern : Re.regex) :
  Constants.lookup Constants._value_pattern_dict key = Some pattern ->
  (Re.re_match pattern token = true <->
   exists p, In p (expected_tokens key) /\ (token = p \/ token = p ++ newline)).
Proof.
  intros Hpat. split.
  - intros Hm. destruct (pattern_accepts key token pattern Hpat Hm) as (p & Hp & Ht).
    exists p. split; trivial. now apply allowed_are_expected.
  - intros (p & Hp & Ht).
    destruct (expected_tokens_match key p pattern Hpat Hp) as [H1 H2].
    destruct Ht as [-> | ->]; trivial.
Qed.

Lemma pattern_language_witness :
  Re.re_match Constants._minutes_re_pattern "minute_60" = true <->
  exists p, In p (expected_tokens "minute") /\
            ("minute_60" = p \/ "minute_60" = p ++ newline).
Proof.
  apply (pattern_language "minute" "minute_60" Constants._minutes_re_pattern).
  reflexivity.
Defined.

(** X9.  The label ["24"] enters the hour selection by the ALL_VALUES
    token only: along a sequence of callbacks without that token, an hour
    selection that does not hold ["24"] never comes to hold it. *)
Theorem hour_24_needs_all_values (u : UserData) (evs : list event) :
  ~ In (Token Constants.ALL_VALUES) evs ->
  ~ In "24" (selection u "hour") ->
  ~ In "24" (selection (run u evs) "hour").
Proof.
  revert u. induction evs as [|ev r IH]; intros u Hno Hout; [exact Hout|].
  apply (IH (session (handle u ev))).
  - intros H. apply Hno. now right.
  - destruct (handle_schedule_info u ev) as [(token & ->)|[H|H]].
    + apply hour_24_only_by_all_values; trivial.
      intros ->. apply Hno. now left.
    + now rewrite (selection_by_info u _ "hour" H).
    + rewrite (selection_empty_config _ "hour" H). intros [].
Qed.

Lemma hour_24_needs_all_values_witness :
  let u := with_part (ready_session empty_config "") Constants.HOUR_SELECT in
  let evs := [Token "hour_24"; Token "hour_5"; Select Constants.HOUR_SELECT] in
  ~ In (Token Constants.ALL_VALUES) evs /\
  ~ In "24" (selection u "hour") /\
  ~ In "24" (selection (run u evs) "hour").
Proof.
  intros u evs.
  assert (~ In (Token Constants.ALL_VALUES) evs) as Hno
    by (intros [H|[H|[H|[]]]]; discriminate H).
  assert (~ In "24" (selection u "hour")) as Hout by (intros []).
  split; [exact Hno|]. split; [exact Hout|].
  exact (hour_24_needs_all_values u evs Hno Hout).
Defined.

(** X10.  A token that the pattern of the edited dimension does not accept
    is dropped: nothing is shown or posted and the session is as it was;
    with no dimension under edit the handler leaves by [KeyError], the
    session again as it was. *)
Theorem rejected_token_is_dropped (u : UserData) (token : string) :
  (forall part key pattern,
     selected_sched_part u = Some part ->
     Constants.lookup user_action_keys part = Some key ->
     Constants.lookup Constants._value_pattern_dict key = Some pattern ->
     Re.re_match pattern token = false ->
     set_sched_parameter_value u token
     = mkOutcome (Ok (Some Constants.SET_SCHED_VALUE_MENU)) u [] []) /\
  (selected_sched_part u = None ->
   set_sched_parameter_value u token = mkOutcome (Raise KeyError) u [] []).
Proof.
  split.
  - intros part key pattern Hpart Hkey Hpat Hmatch.
    destruct (action_key_is_button_key part key Hkey) as (Hbk & Hsel & name & Hname).
    destruct (button_key_lookups u key Hbk) as (_ & Hfull & Hget & _).
    unfold set_sched_parameter_value.
    now rewrite Hpart, Hsel, Hkey, Hname, Hpat, Hfull, Hget, Hmatch.
  - intros Hpart. unfold set_sched_parameter_value. now rewrite Hpart.
Qed.

Lemma rejected_token_is_dropped_witness :
  let u := with_part (ready_session scenario_1 "") Constants.HOUR_SELECT in
  set_sched_parameter_value u "Monday"
  = mkOutcome (Ok (Some Constants.SET_SCHED_VALUE_MENU)) u [] [] /\
  set_sched_parameter_value (ready_session scenario_1 "") "hour_3"
  = mkOutcome (Raise KeyError) (ready_session scenario_1 "") [] [].
Proof.
  split.
  - apply (proj1 (rejected_token_is_dropped
                    (with_part (ready_session scenario_1 "") Constants.HOUR_SELECT)
                    "Monday")
             Constants.HOUR_SELECT "hour" Constants._hours_re_pattern);
      reflexivity.
  - apply (proj2 (rejected_token_is_dropped (ready_session scenario_1 "") "hour_3")).
    reflexivity.
Defined.

Lemma sentinels_accepted (key : string) (pattern : Re.regex) :
  Constants.lookup Constants._value_pattern_dict key = Some pattern ->
  Re.re_match pattern Constants.ALL_VALUES = true /\
  Re.re_match pattern Constants.NO_VALUES = true.
Proof.
  intros Hpat.
  split; apply (expected_tokens_match key _ pattern Hpat); simpl; auto.
Qed.

Lemma toggled_twice (u : UserData) (key t1 t2 : string) :
  In key button_keys ->
  toggled (toggled u key t1) key t2
  = with_info u
      (set_selection (schedule_info u) key
         (next_values (full_domain key)
            (next_values (full_domain key) (selection u key) t1) t2)).
Proof.
  intros Hk. unfold toggled at 1. rewrite selection_toggled_same by trivial.
  unfold toggled, with_info. cbn [schedule_info schedule_entry
    selected_sched_part selected_device_name].
  f_equal. each_key Hk; reflexivity.
Qed.

(** X11.  The sentinels while a dimension is edited: sending ALL_VALUES or
    NO_VALUES a second time changes nothing, and of the two sent one after
    the other the last one decides, the selection being empty after
    ALL_VALUES then NO_VALUES and the full domain after NO_VALUES then
    ALL_VALUES. *)
Theorem sentinels_idempotent_last_wins (u : UserData) (part key : string) :
  selected_sched_part u = Some part ->
  Constants.lookup user_action_keys part = Some key ->
  run u [Token Constants.ALL_VALUES; Token Constants.ALL_VALUES]
  = run u [Token Constants.ALL_VALUES] /\
  run u [Token Constants.NO_VALUES; Token Constants.NO_VALUES]
  = run u [Token Constants.NO_VALUES] /\
  selection (run u [Token Constants.ALL_VALUES; Token Constants.NO_VALUES]) key = [] /\
  selection (run u [Token Constants.NO_VALUES; Token Constants.ALL_VALUES]) key
  = full_domain key.
Proof.
  intros Hpart Hkey.
  destruct (action_key_is_button_key part key Hkey) as (Hbk & _).
  destruct (button_key_lookups u key Hbk) as ((pattern & Hpat) & _).
  destruct (sentinels_accepted key pattern Hpat) as [Hall Hno].
  assert (forall t1 t2,
            Re.re_match pattern t1 = true -> Re.re_match pattern t2 = true ->
            run u [Token t1; Token t2] = toggled (toggled u key t1) key t2) as Htwo.
  { intros t1 t2 H1 H2. unfold run. cbn [fold_left handle].
    rewrite (token_accepted u part key t1 pattern) by trivial.
    now rewrite (token_accepted (toggled u key t1) part key t2 pattern). }
  assert (forall t, Re.re_match pattern t = true ->
            run u [Token t] = toggled u key t) as Hone.
  { intros t H. unfold run. cbn [fold_left handle].
    now rewrite (token_accepted u part key t pattern). }
  rewrite !Htwo, !Hone by trivial. rewrite !toggled_twice by trivial.
  repeat split.
  - rewrite selection_with_info, getattr_set_same; trivial.
  - rewrite selection_with_info, getattr_set_same; trivial.
Qed.

Lemma sentinels_idempotent_last_wins_witness :
  let u := with_part (ready_session scenario_1 "") Constants.MINUTE_SELECT in
  run u [Token Constants.ALL_VALUES; Token Constants.ALL_VALUES]
  = run u [Token Constants.ALL_VALUES] /\
  run u [Token Constants.NO_VALUES; Token Constants.NO_VALUES]
  = run u [Token Constants.NO_VALUES] /\
  selection (run u [Token Constants.ALL_VALUES; Token Constants.NO_VALUES]) "minute" = [] /\
  selection (run u [Token Constants.NO_VALUES; Token Constants.ALL_VALUES]) "minute"
  = full_domain "minute".
Proof.
  apply (sentinels_idempotent_last_wins
           (with_part (ready_session scenario_1 "") Constants.MINUTE_SELECT)
           Constants.MINUTE_SELECT "minute"); reflexivity.
Defined.


(** ** The dataclasses *)

(** X12.  [ScheduleConfig]: a component is among the set fields exactly
    when its list is not empty, and the configuration is complete exactly
    when the set fields are all five, minute, hour, day, month and day of
    week. *)
Theorem config_set_fields (c : ScheduleConfig) :
  (forall key, In key (config_get_set_fields c) <->
               exists l, getattr c key = Some l /\ l <> []) /\
  (config_is_complete c = true <-> config_get_set_fields c = button_keys).
Proof.
  destruct c as [mi ho da mo dw]. split.
  - intros key. unfold config_get_set_fields, getattr.
    cbn [minute hour day month day_of_week filter map snd fst].
    split.
    + intros Hin.
      destruct mi, ho, da, mo, dw; cbn [truthy map fst] in Hin; simpl in Hin;
        repeat (destruct Hin as [<-|Hin];
                [eexists; split; [reflexivity|discriminate]|]);
        contradiction.
    + intros (l & Hl & Hne).
      repeat match type of Hl with
             | context [String.eqb key ?k] =>
                 destruct (String.eqb_spec key k) as [->|?];
                 [injection Hl as <-;
                  destruct mi, ho, da, mo, dw; try congruence;
                  simpl; tauto|]
             end.
      discriminate Hl.
  - unfold config_is_complete, config_get_set_fields, button_keys.
    cbn [minute hour day month day_of_week].
    destruct mi, ho, da, mo, dw; simpl; split; congruence.
Qed.

(** X13.  [ScheduleEntry]: every field is either set or unset, never both;
    the entry is complete exactly when the device and the user are not 0,
    the cron string is not empty and the sound file path is a non-empty
    string; and a reset entry has no set field. *)
Theorem entry_fields (e : ScheduleEntry) :
  Permutation (entry_get_set_fields e ++ get_unset_fields e)
    ["device_id"; "user_id"; "cron_string"; "sound_file_path"] /\
  (entry_is_complete e = true <->
   device_id e <> 0 /\ user_id e <> 0 /\ cron_string e <> EmptyString /\
   exists p, sound_file_path e = Some p /\ p <> EmptyString) /\
  entry_get_set_fields (entry_reset e) = [].
Proof.
  destruct e as [d u c p]. split; [|split; [|reflexivity]].
  - unfold entry_get_set_fields, get_unset_fields.
    cbn [device_id user_id cron_string sound_file_path].
    destruct (int_is_set d), (int_is_set u), (str_is_set c), (path_is_set p);
      cbn [app];
      apply NoDup_Permutation;
      try (apply nodupb_NoDup; reflexivity);
      intros x; simpl; tauto.
  - assert (entry_is_complete (mkScheduleEntry d u c p) = true <->
            int_is_set d = true /\ int_is_set u = true /\
            str_is_set c = true /\ path_is_set p = true) as ->.
    { unfold entry_is_complete, get_unset_fields.
      cbn [device_id user_id cron_string sound_file_path].
      destruct (int_is_set d), (int_is_set u), (str_is_set c), (path_is_set p);
        simpl; intuition discriminate. }
    cbn [device_id user_id cron_string sound_file_path].
    unfold int_is_set, str_is_set, path_is_set.
    rewrite !negb_true_iff, !Z.eqb_neq, String.eqb_neq.
    destruct p as [s|].
    + unfold str_is_set. rewrite negb_true_iff, String.eqb_neq.
      split; [intros (H1 & H2 & H3 & H4); eauto 6|].
      intros (H1 & H2 & H3 & q & [= <-] & H4). auto.
    + split; [intuition discriminate|].
      intros (_ & _ & _ & q & Hq & _). discriminate Hq.
Qed.

(** ** The commit *)

(** X14.  When the service rejects the request or cannot be reached, the
    commit of a complete entry posts once, shows "Failed to add schedule"
    and leaves the session, selections and entry, as it was. *)
Theorem failed_commit_keeps_session (w : World) (u : UserData) (path : string) :
  entry_is_complete (schedule_entry u) = true ->
  sound_file_path (schedule_entry u) = Some path ->
  create_cron_schedule w
    (mkPayload (device_id (schedule_entry u)) (user_id (schedule_entry u))
       (cron_string (schedule_entry u)) path) = false ->
  let o := add_schedule_record w u in
  session o = u /\
  posted o = [mkPayload (device_id (schedule_entry u)) (user_id (schedule_entry u))
                (cron_string (schedule_entry u)) path] /\
  shown o = [mkMessage "Failed to add schedule" NoMarkup] /\
  returned o = Ok (Some Constants.SCHEDULE_PLAY_MENU).
Proof.
  intros Hc Hp Hf. cbv zeta.
  rewrite (add_schedule_record_failure w u path Hc Hp Hf). repeat split.
Qed.

Lemma failed_commit_keeps_session_witness :
  let w := world true RequestFailed in
  let u := ready_session scenario_1 "0,30 9 * * 1-5" in
  let o := add_schedule_record w u in
  session o = u /\
  posted o = [mkPayload 7 42 "0,30 9 * * 1-5" "/shared/voice.mp3"] /\
  shown o = [mkMessage "Failed to add schedule" NoMarkup] /\
  returned o = Ok (Some Constants.SCHEDULE_PLAY_MENU).
Proof.
  apply (failed_commit_keeps_session (world true RequestFailed)
           (ready_session scenario_1 "0,30 9 * * 1-5") "/shared/voice.mp3");
    reflexivity.
Defined.

(** X15.  When the service accepts the request of a complete entry, the
    device name being known and the cron string described, the commit posts
    the schedule, confirms it, empties the five selections and leaves the
    entry as it is, cron string included; so a second commit callback in
    the same world posts the same schedule once more. *)
Theorem commit_resets_selections_only (w : World) (u : UserData)
    (path name description : string) :
  entry_is_complete (schedule_entry u) = true ->
  sound_file_path (schedule_entry u) = Some path ->
  let entry := schedule_entry u in
  let p := mkPayload (device_id entry) (user_id entry) (cron_string entry) path in
  create_cron_schedule w p = true ->
  selected_device_name u = Some name ->
  get_description w (cron_string entry) = Some description ->
  let o := add_schedule_record w u in
  returned o = Ok (Some Constants.SCHEDULE_PLAY_MENU) /\
  posted o = [p] /\
  shown o = [mkMessage (added_text name description)
               (Rows [back_restart_row Constants.DEVICE_MENU_CALLBACK])] /\
  schedule_info (session o) = empty_config /\
  schedule_entry (session o) = entry /\
  selected_device_name (session o) = Some name /\
  posted (add_schedule_record w (session o)) = [p].
Proof.
  intros Hc Hp entry p Hok Hn Hd o. subst o p entry.
  unfold add_schedule_record.
  rewrite Hc, Hp, Hok, Hn, Hd.
  cbn [negb returned posted shown session with_info schedule_info schedule_entry
       selected_device_name].
  rewrite Hc, Hp, Hok, Hn, Hd. cbn [negb posted].
  repeat split.
Qed.

Lemma commit_resets_selections_only_witness :
  let w := world true (Replied true) in
  let u := ready_session scenario_1 "0,30 9 * * 1-5" in
  let p := mkPayload 7 42 "0,30 9 * * 1-5" "/shared/voice.mp3" in
  let o := add_schedule_record w u in
  returned o = Ok (Some Constants.SCHEDULE_PLAY_MENU) /\
  posted o = [p] /\
  shown o = [mkMessage (added_text "Kitchen" "described")
               (Rows [back_restart_row Constants.DEVICE_MENU_CALLBACK])] /\
  schedule_info (session o) = empty_config /\
  schedule_entry (session o) = schedule_entry u /\
  selected_device_name (session o) = Some "Kitchen" /\
  posted (add_schedule_record w (session o)) = [p].
Proof.
  apply (commit_resets_selections_only (world true (Replied true))
           (ready_session scenario_1 "0,30 9 * * 1-5")
           "/shared/voice.mp3" "Kitchen" "described"); reflexivity.
Defined.

Lemma with_cron_complete (e : ScheduleEntry) (cron path : string) :
  device_id e <> 0 -> user_id e <> 0 -> cron <> EmptyString ->
  sound_file_path e = Some path -> path <> EmptyString ->
  entry_is_complete (with_cron e cron) = true.
Proof.
  intros Hdev Huser Hcron Hpath Hne.
  unfold entry_is_complete, get_unset_fields, int_is_set, str_is_set, path_is_set.
  cbn [with_cron device_id user_id cron_string sound_file_path]. rewrite Hpath.
  apply Z.eqb_neq in Hdev, Huser. apply String.eqb_neq in Hcron, Hne.
  unfold str_is_set. now rewrite Hdev, Huser, Hcron, Hne.
Qed.

(** X16.  Summary, then commit.  For a complete configuration whose cron
    string builds and is described, the summary view stores the cron string
    in the entry, changes nothing else, and shows the description on a
    keyboard with the commit button; a commit that follows, the entry
    having its device, user and sound file, posts exactly that cron
    string. *)
Theorem summary_then_commit (w w' : World) (u : UserData) (cron d path : string) :
  config_is_complete (schedule_info u) = true ->
  build_cron_string (schedule_info u) button_keys = Ok cron ->
  get_description w cron = Some d ->
  let o := display_schedule_menu w u in
  session o = with_entry u (with_cron (schedule_entry u) cron) /\
  (exists m, shown o = [m] /\ msg_text m = d /\ offers_commit (reply_markup m)) /\
  returned o = Ok (Some Constants.SCHEDULE_PLAY_MENU) /\
  (device_id (schedule_entry u) <> 0 -> user_id (schedule_entry u) <> 0 ->
   cron <> EmptyString ->
   sound_file_path (schedule_entry u) = Some path -> path <> EmptyString ->
   posted (add_schedule_record w' (session o))
   = [mkPayload (device_id (schedule_entry u)) (user_id (schedule_entry u)) cron path]).
Proof.
  intros Hc Hb Hd. cbv zeta.
  assert (exists keyboard,
            create_buttons (schedule_info u)
              (combine (combine button_keys button_labels) button_callbacks)
            = Ok keyboard) as (keyboard & Hk).
  { unfold build_cron_string, button_keys in Hb. cbn [cron_loop] in Hb.
    unfold button_keys, button_labels, button_callbacks.
    cbn [combine create_buttons]. unfold button_text.
    repeat match type of Hb with
           | context [bld_cron_token_schedule_info ?i ?k] =>
               let E := fresh "E" in
               destruct (bld_cron_token_schedule_info i k) eqn:E;
               cbn [bind] in Hb; [|discriminate Hb]
           end.
    unfold config_is_complete in Hc. cbn [forallb] in Hc.
    repeat rewrite andb_true_iff in Hc.
    destruct Hc as (H1 & H2 & H3 & H4 & H5 & _).
    unfold getattr. cbn [String.eqb Ascii.eqb Bool.eqb bind or_raise].
    repeat match goal with
           | |- context [match ?l with [] => _ | _ :: _ => _ end] =>
               destruct l as [|? [|? ?]]; [discriminate| |]
           | |- context [list_eqb ?a ?b] => destruct (list_eqb a b)
           | |- context [Constants.lookup Constants._full_range_dict ?k] =>
               change (Constants.lookup Constants._full_range_dict k)
                 with (Some (full_domain k))
           | _ => progress (cbn [bind or_raise truthy])
           | _ => rewrite E || rewrite E0 || rewrite E1 || rewrite E2 || rewrite E3
           end; eexists; reflexivity. }
  unfold display_schedule_menu. rewrite Hb, Hk, Hc.
  cbn [negb andb]. rewrite Hd. cbn [or_raise session shown returned]. split; [reflexivity|]. split; [|split; [reflexivity|]].
  - eexists. split; [reflexivity|]. split; [reflexivity|].
    cbn [reply_markup offers_commit].
    exists [mkButton "Commit the schedule" Constants.COMMIT_SCHEDULE_CALLBACK],
           (mkButton "Commit the schedule" Constants.COMMIT_SCHEDULE_CALLBACK).
    split; [apply in_or_app; right; simpl; auto|]. split; [simpl; auto|reflexivity].
  - intros Hdev Huser Hcron Hpath Hne. unfold add_schedule_record.
    cbn [with_entry schedule_entry selected_device_name schedule_info].
    rewrite (with_cron_complete (schedule_entry u) cron path) by trivial.
    cbn [negb with_cron sound_file_path device_id user_id cron_string].
    rewrite Hpath.
    destruct (create_cron_schedule w' _); [|reflexivity].
    destruct (selected_device_name u); [|reflexivity].
    destruct (get_description w' cron); reflexivity.
Qed.

Lemma summary_then_commit_witness :
  let w := world true (Replied true) in
  let u := ready_session scenario_1 "" in
  let o := display_schedule_menu w u in
  session o = with_entry u (with_cron (schedule_entry u) "0,30 9 * * 1-5") /\
  (exists m, shown o = [m] /\ msg_text m = "described" /\
             offers_commit (reply_markup m)) /\
  returned o = Ok (Some Constants.SCHEDULE_PLAY_MENU) /\
  posted (add_schedule_record w (session o))
  = [mkPayload 7 42 "0,30 9 * * 1-5" "/shared/voice.mp3"].
Proof.
  destruct (summary_then_commit (world true (Replied true)) (world true (Replied true))
              (ready_session scenario_1 "") "0,30 9 * * 1-5" "described"
              "/shared/voice.mp3") as (H1 & H2 & H3 & H4);
    [reflexivity|reflexivity|reflexivity|].
  split; [exact H1|]. split; [exact H2|]. split; [exact H3|].
  apply H4; (reflexivity || discriminate).
Defined.


(** ** Entering a grid and sending a token *)

Lemma dialog_on_part (u : UserData) (part key : string) :
  Constants.lookup user_action_keys part = Some key ->
  exists name,
    cron_parameters_dialog u part
    = mkOutcome (Ok (Some Constants.SET_SCHED_VALUE_MENU)) (with_part u part) []
        [mkMessage ("Please input " ++ name ++ " value")
           (EditGrid part (schedule_info u))].
Proof.
  unfold user_action_keys. cbn [Constants.lookup].
  repeat match goal with
         | |- context [String.eqb part ?k] =>
             destruct (String.eqb_spec part k) as [->|?];
             [intros _; eexists; reflexivity|]
         end.
  discriminate.
Qed.

(** X17.  Entering the grid of a dimension and sending a token its pattern
    accepts applies the token to that dimension, whatever was edited before;
    a callback that names no dimension makes the dialog leave by [KeyError]
    with the session as it was. *)
Theorem select_then_token (u : UserData) (part token : string) :
  (forall key pattern,
     Constants.lookup user_action_keys part = Some key ->
     Constants.lookup Constants._value_pattern_dict key = Some pattern ->
     Re.re_match pattern token = true ->
     run u [Select part; Token token] = toggled (with_part u part) key token) /\
  (Py.contains part select_parts = false ->
   cron_parameters_dialog u part = mkOutcome (Raise KeyError) u [] []).
Proof.
  split.
  - intros key pattern Hkey Hpat Hmatch. unfold run. cbn [fold_left handle].
    destruct (dialog_on_part u part key Hkey) as (name & ->). cbn [session].
    now apply (token_accepted (with_part u part) part key token pattern).
  - intros Hout. unfold cron_parameters_dialog.
    destruct (Constants.lookup input_strings part) as [name|] eqn:E; trivial.
    exfalso. revert E Hout. unfold input_strings. cbn [Constants.lookup].
    repeat match goal with
           | |- context [String.eqb part ?k] =>
               destruct (String.eqb_spec part k) as [->|?];
               [intros _; discriminate|]
           end.
    discriminate.
Qed.

Lemma select_then_token_witness :
  run (with_part (ready_session scenario_1 "") Constants.MONTH_SELECT)
    [Select Constants.HOUR_SELECT; Token "hour_7"]
  = toggled (with_part (ready_session scenario_1 "") Constants.HOUR_SELECT)
      "hour" "hour_7" /\
  cron_parameters_dialog (ready_session scenario_1 "") "back"
  = mkOutcome (Raise KeyError) (ready_session scenario_1 "") [] [].
Proof.
  split.
  - apply (proj1 (select_then_token
                    (with_part (ready_session scenario_1 "") Constants.MONTH_SELECT)
                    Constants.HOUR_SELECT "hour_7")
             "hour" Constants._hours_re_pattern); reflexivity.
  - apply (proj2 (select_then_token (ready_session scenario_1 "") "back" "")).
    reflexivity.
Defined.

(** X18.  What the callbacks leave alone: entering a grid and sending a
    token never change the schedule entry; the summary view and the
    immediate play never change a selection; the commit leaves the
    selections as they are or empties all five. *)
Theorem handlers_frame (u : UserData) :
  (forall q, schedule_entry (session (cron_parameters_dialog u q)) = schedule_entry u /\
             schedule_info (session (cron_parameters_dialog u q)) = schedule_info u) /\
  (forall t, schedule_entry (session (set_sched_parameter_value u t)) = schedule_entry u) /\
  (forall w, schedule_info (session (display_schedule_menu w u)) = schedule_info u) /\
  (forall w, schedule_info (session (set_for_play_now w u)) = schedule_info u) /\
  (forall w, schedule_info (session (add_schedule_record w u)) = schedule_info u \/
             schedule_info (session (add_schedule_record w u)) = empty_config).
Proof.
  split; [|split; [|split; [|split]]].
  - intros q. unfold cron_parameters_dialog.
    destruct (Constants.lookup input_strings q); [|auto].
    destruct (negb _); auto.
  - intros t. destruct (token_cases u t) as [->|(part & k & p & _ & _ & _ & _ & ->)];
      reflexivity.
  - intros w.
    destruct (handle_schedule_info u (Summary w)) as [(t & H)|[H|H]];
      [discriminate H|exact H|].
    revert H. cbn [handle]. unfold display_schedule_menu.
    destruct (build_cron_string _ _); trivial.
    destruct (create_buttons _ _); trivial.
    destruct (config_is_complete _); cbn [negb];
      repeat match goal with
             | |- context [match ?x with _ => _ end] => destruct x
             end; reflexivity.
  - intros w. unfold set_for_play_now.
    repeat match goal with
           | |- context [match ?x with _ => _ end] => destruct x
           end; reflexivity.
  - intros w. unfold add_schedule_record.
    repeat match goal with
           | |- context [match ?x with _ => _ end] => destruct x
           end; auto.
Qed.

(** ** The toggle grids *)

Lemma grid_callbacks (info : ScheduleConfig) (part key : string) :
  Constants.lookup user_action_keys part = Some key ->
  map (map callback_data) (select_inline_keyboard info part)
  = map (map callback_data) (select_inline_keyboard empty_config part).
Proof.
  unfold user_action_keys. cbn [Constants.lookup].
  repeat match goal with
         | |- context [String.eqb part ?k] =>
             destruct (String.eqb_spec part k) as [->|?];
             [intros _; reflexivity|]
         end.
  discriminate.
Qed.

(** X19.  Every button of the grid of a dimension sends a token that the
    allow-list pattern of that dimension accepts, the accept button apart,
    which sends ["back"]. *)
Theorem grid_tokens_pass_allow_list
    (info : ScheduleConfig) (part key : string) (pattern : Re.regex) :
  Constants.lookup user_action_keys part = Some key ->
  Constants.lookup Constants._value_pattern_dict key = Some pattern ->
  forall row b,
    In row (select_inline_keyboard info part) -> In b row ->
    callback_data b = "back" \/ Re.re_match pattern (callback_data b) = true.
Proof.
  intros Hkey Hpat row b Hrow Hb.
  assert (In (callback_data b)
            (List.concat (map (map callback_data) (select_inline_keyboard info part))))
    as Hin.
  { apply in_concat. exists (map callback_data row).
    split; apply in_map; trivial. }
  rewrite (grid_callbacks info part key Hkey) in Hin.
  assert (forallb (fun t => (String.eqb t "back" || Re.re_match pattern t)%bool)
            (List.concat (map (map callback_data)
                            (select_inline_keyboard empty_config part))) = true) as Hall.
  { revert Hkey Hpat. unfold user_action_keys. cbn [Constants.lookup].
    repeat match goal with
           | |- context [String.eqb part ?k] =>
               destruct (String.eqb_spec part k) as [->|?];
               [intros [= <-] [= <-]; vm_compute; reflexivity|]
           end.
    discriminate. }
  rewrite forallb_forall in Hall. specialize (Hall _ Hin).
  apply orb_true_iff in Hall. destruct Hall as [H|H]; [left|right]; trivial.
  now apply String.eqb_eq.
Qed.

Lemma grid_tokens_pass_allow_list_witness :
  forallb (fun row => forallb (accepted_or_back Constants._minutes_re_pattern) row)
    (select_inline_keyboard scenario_1 Constants.MINUTE_SELECT) = true.
Proof.
  apply forallb_forall. intros row Hrow. apply forallb_forall. intros b Hb.
  unfold accepted_or_back. apply orb_true_iff.
  destruct (grid_tokens_pass_allow_list scenario_1 Constants.MINUTE_SELECT "minute"
              Constants._minutes_re_pattern eq_refl eq_refl row b Hrow Hb) as [H|H];
    [left; now apply String.eqb_eq|now right].
Defined.

(** X20.  The value buttons of a grid: one for each label the grid offers,
    in the order of the domain, sending the label behind the prefix of the
    dimension and showing the label marked as selected exactly when it is
    in the selection.  The grids offer the whole domain, except that the
    hour grid has no button for 24 and the minute grid none for 60. *)
Theorem grid_value_buttons (info : ScheduleConfig) (part key : string) :
  Constants.lookup user_action_keys part = Some key ->
  value_buttons (select_inline_keyboard info part)
  = map (fun label =>
           mkButton (set_button_selection label (Py.contains label (field info key)))
             (token_prefix key ++ label))
      (offered key) /\
  (key = "hour" -> full_domain key = (offered key ++ ["24"])%list) /\
  (key = "minute" -> full_domain key = (offered key ++ ["60"])%list) /\
  (key <> "hour" -> key <> "minute" -> full_domain key = offered key).
Proof.
  unfold user_action_keys. cbn [Constants.lookup].
  repeat match goal with
         | |- context [String.eqb part ?k] =>
             destruct (String.eqb_spec part k) as [->|?];
             [intros [= <-]; split; [reflexivity|];
              repeat split; try reflexivity; intros; congruence|]
         end.
  discriminate.
Qed.

Lemma grid_value_buttons_witness :
  value_buttons (select_inline_keyboard scenario_1 Constants.HOUR_SELECT)
  = map (fun label =>
           mkButton (set_button_selection label (Py.contains label (field scenario_1 "hour")))
             (token_prefix "hour" ++ label))
      (offered "hour").
Proof.
  apply (grid_value_buttons scenario_1 Constants.HOUR_SELECT "hour"). reflexivity.
Defined.

(** X21.  Selecting every hour the grid offers, 0 to 23, in any order gives
    the token ["0-23"], not the wildcard, and selecting every minute it
    offers, 0 to 59, gives ["0-59"]: the wildcard needs 24 and 60 as well. *)
Theorem every_offered_value_is_a_range (info : ScheduleConfig) :
  (Permutation (hour info) (offered "hour") ->
   bld_cron_token_schedule_info info "hour" = Ok "0-23") /\
  (Permutation (minute info) (offered "minute") ->
   bld_cron_token_schedule_info info "minute" = Ok "0-59").
Proof.
  split; intros Hp.
  - apply (token_perm (mkScheduleConfig [] (offered "hour") [] [] []) info "hour"
             (offered "hour") (hour info));
      [reflexivity|reflexivity|now symmetry|vm_compute; reflexivity].
  - apply (token_perm (mkScheduleConfig (offered "minute") [] [] [] []) info "minute"
             (offered "minute") (minute info));
      [reflexivity|reflexivity|now symmetry|vm_compute; reflexivity].
Qed.

Lemma every_offered_value_is_a_range_witness :
  bld_cron_token_schedule_info
    (mkScheduleConfig [] (rev (offered "hour")) [] [] []) "hour" = Ok "0-23".
Proof.
  apply (proj1 (every_offered_value_is_a_range
                  (mkScheduleConfig [] (rev (offered "hour")) [] [] []))).
  apply Permutation_sym, Permutation_rev.
Defined.


(** ** The device keyboard *)

Lemma range_pairs (m : nat) :
  range_step 0 (m - 1) 2 = map (fun k => (2 * k)%nat) (seq 0 (m / 2)).
Proof.
  unfold range_step.
  replace ((m - 1 - 0 + 2 - 1) / 2)%nat with (m / 2)%nat.
  - apply map_ext. intros k. lia.
  - destruct m as [|m]; [reflexivity|]. f_equal. lia.
Qed.

Lemma pair_rows_chunks (devices : list device) : pair_rows devices = chunks devices.
Proof.
  unfold pair_rows. rewrite range_pairs.
  assert (forall n l, List.length l = n -> 
            flat_map
              (fun i =>
                 match nth_error l i, nth_error l (i + 1) with
                 | Some a, Some b => [[device_button a; device_button b]]
                 | _, _ => []
                 end)
              (map (fun k => (2 * k)%nat) (seq 0 (List.length l / 2)))
            = chunks l) as H; [|now apply (H (List.length devices))].
  induction n as [n IH] using lt_wf_ind. intros l Hlen.
  destruct l as [|a [|b r]]; [reflexivity|reflexivity|].
  cbn [List.length chunks].
  replace (S (S (List.length r)) / 2)%nat with (S (List.length r / 2))
    by (change (S (S (List.length r))) with (1 * 2 + List.length r)%nat;
        rewrite Nat.div_add_l by lia; lia).
  rewrite <- cons_seq, <- seq_shift. cbn [map flat_map].
  change (2 * 0)%nat with 0%nat. cbn [nth_error Nat.add app]. f_equal.
  rewrite <- (IH (List.length r)) with (l := r);
    [|simpl in Hlen; lia|reflexivity].
  rewrite map_map, !flat_map_concat_map, !map_map. f_equal. apply map_ext.
  intros k. replace (2 * S k)%nat with (S (S (2 * k))) by lia. reflexivity.
Qed.

Lemma chunks_concat (devices : list device) :
  (Nat.even (List.length devices) = true ->
   List.concat (chunks devices) = map device_button devices) /\
  (Nat.even (List.length devices) = false ->
   (List.concat (chunks devices)
    ++ map device_button (skipn (List.length devices - 1) devices))%list
   = map device_button devices).
Proof.
  assert (forall n l, List.length l = n ->
            (Nat.even n = true -> List.concat (chunks l) = map device_button l) /\
            (Nat.even n = false ->
             (List.concat (chunks l) ++ map device_button (skipn (n - 1) l))%list
             = map device_button l)) as H; [|now apply H].
  induction n as [n IH] using lt_wf_ind. intros l Hlen.
  destruct l as [|a [|b r]]; subst n.
  - split; [reflexivity|discriminate].
  - split; [discriminate|reflexivity].
  - destruct (IH (List.length r)) with (l := r) as [He Ho];
      [simpl; lia|reflexivity|].
    cbn [List.length]. change (Nat.even (S (S ?x))) with (Nat.even x).
    cbn [chunks List.concat map app]. split; intros Hp.
    + now rewrite He.
    + assert (skipn (S (S (List.length r)) - 1) (a :: b :: r)
              = skipn (List.length r - 1) r) as ->.
      { destruct r; [discriminate Hp|]. simpl. now rewrite Nat.sub_0_r. }
      simpl. now rewrite (Ho Hp).
Qed.

Lemma chunks_rows (devices : list device) :
  forall row, In row (chunks devices) -> List.length row = 2%nat.
Proof.
  assert (forall n l, List.length l = n ->
            forall row, In row (chunks l) -> List.length row = 2%nat) as H;
    [|now apply (H (List.length devices))].
  induction n as [n IH] using lt_wf_ind. intros l Hlen row Hin.
  destruct l as [|a [|b r]]; try contradiction.
  destruct Hin as [<-|Hin]; [reflexivity|].
  apply (IH (List.length r)) with (l := r); trivial. simpl in Hlen. lia.
Qed.

Lemma chunks_empty (devices : list device) :
  chunks devices = [] <-> (List.length devices < 2)%nat.
Proof.
  destruct devices as [|a [|b r]]; simpl; split; try discriminate; try lia; trivial.
Qed.

Lemma even_mod (n : nat) : Nat.eqb (Nat.modulo n 2) 0 = Nat.even n.
Proof.
  destruct (Nat.even n) eqn:E.
  - apply Nat.even_spec in E. destruct E as [k ->].
    apply Nat.eqb_eq. rewrite Nat.mul_comm. apply Nat.Div0.mod_mul.
  - apply Nat.eqb_neq. intros H.
    assert (Nat.even n = true); [|congruence].
    apply Nat.even_spec. exists (n / 2)%nat.
    rewrite (Nat.div_mod_eq n 2) at 1. lia.
Qed.

Lemma concat_removelast_last {A : Type} (l : list (list A)) :
  l <> [] -> (List.concat (removelast l) ++ last l [])%list = List.concat l.
Proof.
  intros Hne. rewrite (app_removelast_last [] Hne) at 3.
  rewrite concat_app. cbn [List.concat]. now rewrite app_nil_r.
Qed.

Lemma last_in {A : Type} (l : list A) (d : A) : l <> [] -> In (last l d) l.
Proof.
  induction l as [|a [|b r] IH]; intros Hne; [congruence|now left|].
  right. apply IH. discriminate.
Qed.

Lemma removelast_in {A : Type} (l : list A) (x : A) :
  In x (removelast l) -> In x l.
Proof.
  induction l as [|a [|b r] IH]; intros H; [assumption|destruct H|].
  destruct H as [->|H]; [now left|right; now apply IH].
Qed.

(** X22.  The device keyboard.  With exactly one device the function
    fails on the empty keyboard ([IndexError]); otherwise it returns rows
    that hold every device once, in order: every row but the last has two
    buttons, and the last has two for an even number of devices and three
    for an odd one, the last device joining the last pair. *)
Theorem device_keyboard (devices : list device) :
  (build_device_keyboard devices = None <-> List.length devices = 1%nat) /\
  (forall rows, build_device_keyboard devices = Some rows ->
     List.concat rows = map device_button devices /\
     Forall (fun row => List.length row = 2%nat) (removelast rows) /\
     (rows <> [] ->
      List.length (last rows [])
      = if Nat.even (List.length devices) then 2%nat else 3%nat)).
Proof.
  unfold build_device_keyboard. rewrite pair_rows_chunks, even_mod.
  destruct (chunks_concat devices) as [He Ho].
  assert (forall rows, incl rows (chunks devices) ->
            Forall (fun row => List.length row = 2%nat) rows) as Hall.
  { intros rows Hincl. apply Forall_forall. intros row Hrow.
    apply (chunks_rows devices). now apply Hincl. }
  destruct (Nat.even (List.length devices)) eqn:E.
  - split.
    + split; [discriminate|]. intros H. rewrite H in E. discriminate.
    + intros rows [= <-]. split; [now apply He|]. split.
      * apply Hall. intros row. apply removelast_in.
      * intros Hne. apply (chunks_rows devices). now apply last_in.
  - destruct (chunks devices) as [|r0 rest] eqn:Ech.
    + split.
      * split; trivial. intros _. apply chunks_empty in Ech.
        destruct devices as [|a [|b r]]; simpl in *; (discriminate || lia).
      * intros rows H. discriminate H.
    + split.
      * split; [discriminate|]. intros H.
        assert (List.length devices < 2)%nat as Hlt by lia.
        apply chunks_empty in Hlt. congruence.
      * intros rows [= <-].
        assert (r0 :: rest <> []) as Hne by discriminate.
        assert (List.length (last (r0 :: rest) []) = 2%nat) as Hl2
          by (apply (chunks_rows devices); rewrite Ech; now apply last_in).
        assert (Forall (fun row => List.length row = 2%nat) (removelast (r0 :: rest)))
          as Hinit.
        { apply Hall. intros row. apply removelast_in. }
        change (match rest with [] => [] | _ :: _ => r0 :: removelast rest end)
          with (removelast (r0 :: rest)).
        change (match rest with [] => r0 | _ :: _ => last rest [] end)
          with (last (r0 :: rest) []).
        split; [|split].
        -- rewrite concat_app.
           assert (forall x : list button, List.concat [x] = x) as Hone
             by (intros x; cbn [List.concat]; apply app_nil_r).
           rewrite Hone.
           rewrite app_assoc, (concat_removelast_last (r0 :: rest) Hne).
           now apply Ho.
        -- now rewrite removelast_last.
        -- intros _. rewrite last_last, length_app, length_map, length_skipn, Hl2.
           assert (List.length devices <> 0)%nat
             by (intros H0; rewrite H0 in E; discriminate).
           lia.
Qed.

Lemma device_keyboard_witness :
  let devices := [mkDevice 1 "Hall"; mkDevice 2 "Kitchen"; mkDevice 5 "Attic"] in
  exists rows, build_device_keyboard devices = Some rows /\
    List.concat rows = map device_button devices /\
    Forall (fun row => List.length row = 2%nat) (removelast rows) /\
    List.length (last rows []) = 3%nat.
Proof.
  eexists. split; [reflexivity|].
  destruct (proj2 (device_keyboard
                     [mkDevice 1 "Hall"; mkDevice 2 "Kitchen"; mkDevice 5 "Attic"])
              _ eq_refl) as (Hc & Hinit & Hlast).
  split; [exact Hc|]. split; [exact Hinit|]. apply Hlast. discriminate.
Defined.
